(** * Directory editor mode (modes/dired.c): a shallow embedding

    The listing engine of [modes/dired.c] is embedded function by function:
    the sort comparator, the size / owner / date / permission formatters,
    the visibility filter, the column measurement, the update orchestrator
    with its column layout and rendering loop, and the time-format
    setter.  C [int] and [long long] values are integers of [Z] with the
    two's complement wrap-around written where the code computes with them;
    C strings are [string]; the [StringArray] of items is a [list]. *)

From Stdlib Require Import ZArith String Ascii List Bool Lia DecimalString.
From stdpp Require Import base list.

Local Open Scope string_scope.
Local Open Scope Z_scope.

(** ** Machine integers *)

Module CInt.

Definition INT_MIN : Z := - 2 ^ 31.
Definition INT_MAX : Z := 2 ^ 31 - 1.
Definition LLONG_MIN : Z := - 2 ^ 63.
Definition LLONG_MAX : Z := 2 ^ 63 - 1.

(** Conversion of a mathematical result to [int] and to [long long]. *)
Definition wrap_int (z : Z) : Z := (z + 2 ^ 31) mod 2 ^ 32 - 2 ^ 31.
Definition wrap_ll (z : Z) : Z := (z + 2 ^ 63) mod 2 ^ 64 - 2 ^ 63.
(** Conversion to [unsigned long] (the [%lu] conversion) and to [char]
    seen as a byte. *)
Definition wrap_ulong (z : Z) : Z := z mod 2 ^ 64.
Definition wrap_byte (z : Z) : Z := z mod 256.

Definition int_add (a b : Z) : Z := wrap_int (a + b).
Definition int_sub (a b : Z) : Z := wrap_int (a - b).
Definition int_neg (a : Z) : Z := wrap_int (- a).
Definition ll_add (a b : Z) : Z := wrap_ll (a + b).

(** C truth values: [!x], and the test of a condition. *)
Definition lnot (x : Z) : Z := if x =? 0 then 1 else 0.
Definition truth (x : Z) : bool := negb (x =? 0).
Definition of_bool (b : bool) : Z := if b then 1 else 0.

(** Modelled from the spec: [max_int] and [clamp_int] of the host's
    utilities, absent from this file ("clamped to between 16 and 40"). *)
Definition max_int (a b : Z) : Z := if a <? b then b else a.
Definition clamp_int (a b c : Z) : Z :=
  if a <? b then b else if a >? c then c else a.

End CInt.
Import CInt.

(** ** <sys/stat.h>: file type and permission bits (POSIX values) *)

Module Stat.

Definition S_IFMT : Z := 0xF000.
Definition S_IFIFO : Z := 0x1000.
Definition S_IFCHR : Z := 0x2000.
Definition S_IFDIR : Z := 0x4000.
Definition S_IFBLK : Z := 0x6000.
Definition S_IFREG : Z := 0x8000.
Definition S_IFLNK : Z := 0xA000.
Definition S_IFSOCK : Z := 0xC000.

Definition S_ISUID : Z := 0x800.
Definition S_ISGID : Z := 0x400.
Definition S_ISVTX : Z := 0x200.
Definition S_IRUSR : Z := 0x100.
Definition S_IWUSR : Z := 0x80.
Definition S_IXUSR : Z := 0x40.
Definition S_IRGRP : Z := 0x20.
Definition S_IWGRP : Z := 0x10.
Definition S_IXGRP : Z := 0x8.
Definition S_IROTH : Z := 0x4.
Definition S_IWOTH : Z := 0x2.
Definition S_IXOTH : Z := 0x1.
Definition S_IEXEC : Z := S_IXUSR.

Definition is_type (fmt mode : Z) : bool := Z.land mode S_IFMT =? fmt.
Definition S_ISDIR := is_type S_IFDIR.
Definition S_ISCHR := is_type S_IFCHR.
Definition S_ISBLK := is_type S_IFBLK.
Definition S_ISREG := is_type S_IFREG.
Definition S_ISFIFO := is_type S_IFIFO.
Definition S_ISLNK := is_type S_IFLNK.
Definition S_ISSOCK := is_type S_IFSOCK.

(** [mode & bit] used as a condition. *)
Definition has (mode bit : Z) : bool := truth (Z.land mode bit).

End Stat.
Import Stat.

(** ** Constants of the mode *)

Definition DIRED_HEADER : Z := 2.

Definition DIRED_SORT_NAME : Z := 1.
Definition DIRED_SORT_EXTENSION : Z := 2.
Definition DIRED_SORT_SIZE : Z := 4.
Definition DIRED_SORT_DATE : Z := 8.
Definition DIRED_SORT_MASK : Z := 1 + 2 + 4 + 8.
Definition DIRED_SORT_GROUP : Z := 16.
Definition DIRED_SORT_DESCENDING : Z := 32.

Definition DIRED_UPDATE_SORT : Z := 1.
Definition DIRED_UPDATE_FILTER : Z := 2.
Definition DIRED_UPDATE_COLUMNS : Z := 4.
Definition DIRED_UPDATE_REBUILD : Z := 8.
Definition DIRED_UPDATE_ALL : Z := 15.

Definition TF_COMPACT : Z := 0.
Definition TF_DOS : Z := 1.
Definition TF_DOS_LONG : Z := 2.
Definition TF_TOUCH : Z := 3.
Definition TF_TOUCH_LONG : Z := 4.
Definition TF_FULL : Z := 5.
Definition TF_SECONDS : Z := 6.
Definition TF_MAX : Z := TF_SECONDS.

Definition DIRED_SHOW_BLOCKS : Z := 0x01.
Definition DIRED_SHOW_MODE : Z := 0x02.
Definition DIRED_SHOW_LINKS : Z := 0x04.
Definition DIRED_SHOW_UID : Z := 0x08.
Definition DIRED_SHOW_GID : Z := 0x10.
Definition DIRED_SHOW_SIZE : Z := 0x20.
Definition DIRED_SHOW_DATE : Z := 0x40.
Definition DIRED_SHOW_ALL : Z := 0x7F.

Definition DIRED_DETAILS_AUTO : Z := 0.
Definition DIRED_DETAILS_HIDE : Z := 1.
Definition DIRED_DETAILS_SHOW : Z := 2.

(** Modelled from the spec: the style numbers ([QE_STYLE_*] of qe.h,
    absent from this file) are four distinct tags: header, directory
    name, plain file name and normal text. *)
Definition DIRED_STYLE_NORMAL : Z := 0.
Definition DIRED_STYLE_HEADER : Z := 1.
Definition DIRED_STYLE_DIRECTORY : Z := 2.
Definition DIRED_STYLE_FILENAME : Z := 3.

(** ** Data model *)

(** [struct DiredItem].  [addr] stands for the address of the heap cell:
    the code compares items by pointer ([dip == cur_item]). *)
Record DiredItem := {
  addr : Z;
  fullname : string;
  mode : Z;
  nlink : Z;
  uid : Z;
  gid : Z;
  rdev : Z;
  mtime : Z;
  size : Z;
  offset : Z;
  hidden : Z;
  mark : ascii;
  name : string
}.

(** The host's [StringItem]: the string of the list entry and the opaque
    pointer to the item. *)
Record StringItem := {
  str : string;
  opaque : DiredItem
}.

(** [struct DiredState]; [last_cur] is a pointer to an item or NULL. *)
Record DiredState := {
  items : list StringItem;
  time_format : Z;
  show_dot_files : Z;
  show_ds_store : Z;
  hflag : Z;
  nflag : Z;
  details_flag : Z;
  last_details_flag : Z;
  sort_mode : Z;
  last_cur : option Z;
  total_bytes : Z;
  ndirs : Z;
  nfiles : Z;
  ndirs_hidden : Z;
  nfiles_hidden : Z;
  blocksize : Z;
  last_width : Z;
  details_mask : Z;
  blockslen : Z;
  modelen : Z;
  linklen : Z;
  uidlen : Z;
  gidlen : Z;
  sizelen : Z;
  datelen : Z;
  namelen : Z;
  fnamecol : Z;
  path : string
}.

(** The file-scope variables of the mode. *)
Record DiredGlobals := {
  dired_curtime : Z;
  dired_time_format : Z;
  dired_show_dot_files : Z;
  dired_show_ds_store : Z;
  dired_nflag : Z;
  dired_hflag : Z;
  dired_sort_mode : Z
}.

(** Initial values of the file-scope variables. *)
Definition dired_globals_init : DiredGlobals := {|
  dired_curtime := 0;
  dired_time_format := TF_COMPACT;
  dired_show_dot_files := 1;
  dired_show_ds_store := 0;
  dired_nflag := 0;
  dired_hflag := 0;
  dired_sort_mode := Z.lor DIRED_SORT_GROUP DIRED_SORT_NAME
|}.

Definition set_hidden (v : Z) (d : DiredItem) : DiredItem := {|
  addr := addr d; fullname := fullname d; mode := mode d; nlink := nlink d;
  uid := uid d; gid := gid d; rdev := rdev d; mtime := mtime d;
  size := size d; offset := offset d; hidden := v; mark := mark d;
  name := name d
|}.

Definition set_offset (v : Z) (d : DiredItem) : DiredItem := {|
  addr := addr d; fullname := fullname d; mode := mode d; nlink := nlink d;
  uid := uid d; gid := gid d; rdev := rdev d; mtime := mtime d;
  size := size d; offset := v; hidden := hidden d; mark := mark d;
  name := name d
|}.

Definition set_opaque (d : DiredItem) (it : StringItem) : StringItem :=
  {| str := str it; opaque := d |}.

(** ** Permission string *)

(** [atts[i] = c] when the condition holds; every index the function
    writes is below the ten characters of the buffer. *)
Definition put_if (c : bool) (i : nat) (ch : ascii) (atts : list ascii)
  : list ascii :=
  if c then <[i := ch]> atts else atts.

Definition compute_attr (mode : Z) : string :=
  let atts := list_ascii_of_string "----------" in
  (* File type *)
  let atts :=
    if negb (S_ISREG mode) then
      let atts := put_if (S_ISDIR mode) 0 "d" atts in
      let atts := put_if (S_ISBLK mode) 0 "b" atts in
      let atts := put_if (S_ISCHR mode) 0 "c" atts in
      let atts := put_if (S_ISFIFO mode) 0 "p" atts in
      let atts := put_if (S_ISSOCK mode) 0 "s" atts in
      put_if (S_ISLNK mode) 0 "l" atts
    else atts in
  (* Read, write, execute/search by owner *)
  let atts := put_if (has mode S_IRUSR) 1 "r" atts in
  let atts := put_if (has mode S_IWUSR) 2 "w" atts in
  let atts := put_if (has mode S_IXUSR) 3 "x" atts in
  let atts := put_if (has mode S_ISUID) 3
                (if has mode S_IXUSR then "s" else "S")%char atts in
  (* Read, write, execute/search by group *)
  let atts := put_if (has mode S_IRGRP) 4 "r" atts in
  let atts := put_if (has mode S_IWGRP) 5 "w" atts in
  let atts := put_if (has mode S_IXGRP) 6 "x" atts in
  let atts := put_if (has mode S_ISGID) 6
                (if has mode S_IXGRP then "s" else "S")%char atts in
  (* Read, write, execute/search by others *)
  let atts := put_if (has mode S_IROTH) 7 "r" atts in
  let atts := put_if (has mode S_IWOTH) 8 "w" atts in
  let atts := put_if (has mode S_IXOTH) 9 "x" atts in
  let atts := put_if (has mode S_ISVTX) 6
                (if has mode S_IXOTH then "t" else "T")%char atts in
  string_of_list_ascii atts.

(** The character at a position of a C string. *)
Definition char_at (s : string) (i : nat) : option ascii := String.get i s.

(** ** The editor's buffer and window, as far as the mode uses them *)

(** Modelled from the spec: the host's text surface ("insertion of styled
    text, clearing, cursor-position mapping"), absent from this file.  A
    buffer is the sequence of styled runs written since it was last
    cleared, with the insertion offset [b_offset], the style applied to
    inserted text, the modification flag and the flag word. *)
Record EditBuffer := {
  b_text : list (Z * string);
  b_offset : Z;
  b_cur_style : Z;
  b_modified : Z;
  b_flags : Z
}.

(** The fields of the window ([EditState]) the mode reads and writes; the
    window shows the buffer it is passed with. *)
Record EditState := {
  s_width : Z;
  s_offset : Z;
  s_offset_top : Z
}.

(** ** The host environment

    Functions the mode calls and does not define: the C library and the
    editor's utilities.  The development is parametric in them. *)

(** The fields of [struct tm] the mode reads. *)
Record tm := {
  tm_sec : Z;
  tm_min : Z;
  tm_hour : Z;
  tm_mday : Z;
  tm_mon : Z;
  tm_year : Z
}.

Class Host := {
  (** locale-aware string comparison and extension of a file name *)
  qe_strcollate : string -> string -> Z;
  get_extension : string -> string;
  (** comparison used for configuration tokens *)
  strxcmp : string -> string -> Z;
  (** password and group data bases: no entry, or an entry whose name
      field may be a null pointer *)
  getpwuid : Z -> option (option string);
  getgrgid : Z -> option (option string);
  (** broken-down local time, and the clock read by [time(NULL)] *)
  localtime : Z -> tm;
  time_now : Z;
  (** [readlink(path, buf, bufsiz)]: the bytes stored, or failure *)
  readlink : string -> Z -> option string;
  (** [qe_qsort_r] on the array of items with a comparator *)
  qe_qsort_r : (StringItem -> StringItem -> Z) -> list StringItem -> list StringItem;
  (** width of the glyph '0' in the window *)
  get_glyph_width : EditState -> Z;
  (** line of an offset ([eb_get_pos]), line of point in a list window
      ([list_get_pos]) and offset of a line and column ([eb_goto_pos]) *)
  eb_get_line : EditBuffer -> Z -> Z;
  list_get_pos : EditBuffer -> EditState -> Z;
  eb_goto_pos : EditBuffer -> Z -> Z -> Z
}.

(** ** Sort comparator *)

Definition dired_sort_func `{Host} (ds : DiredState) (item1 item2 : StringItem) : Z :=
  let dip1 := opaque item1 in
  let dip2 := opaque item2 in
  let sort_mode := sort_mode ds in
  let is_dir1 := of_bool (S_ISDIR (mode dip1)) in
  let is_dir2 := of_bool (S_ISDIR (mode dip2)) in
  if truth (Z.land sort_mode DIRED_SORT_GROUP) && negb (is_dir1 =? is_dir2) then
    is_dir2 - is_dir1
  else
    let res :=
      if truth (Z.land sort_mode DIRED_SORT_DATE)
         && negb (mtime dip1 =? mtime dip2) then
        (if mtime dip1 <? mtime dip2 then -1 else 1)
      else if truth (Z.land sort_mode DIRED_SORT_SIZE)
              && negb (size dip1 =? size dip2) then
        (if size dip1 <? size dip2 then -1 else 1)
      else if truth (Z.land sort_mode DIRED_SORT_EXTENSION)
              && truth (qe_strcollate (get_extension (name dip1))
                                      (get_extension (name dip2))) then
        qe_strcollate (get_extension (name dip1)) (get_extension (name dip2))
      else
        qe_strcollate (name dip1) (name dip2) in
    if truth (Z.land sort_mode DIRED_SORT_DESCENDING) then int_neg res else res.

(** ** printf conversions *)

Definition slen (s : string) : Z := Z.of_nat (String.length s).

(** [%d], [%ld], [%lld] of a value of the argument's type. *)
Definition dec (z : Z) : string := NilZero.string_of_int (Z.to_int z).

Fixpoint repeat_char (c : ascii) (n : nat) : string :=
  match n with
  | O => ""
  | S n' => String c (repeat_char c n')
  end.

Definition pad_left (w : Z) (s : string) : string :=
  repeat_char " " (Z.to_nat (w - slen s)) ++ s.
Definition pad_right (w : Z) (s : string) : string :=
  s ++ repeat_char " " (Z.to_nat (w - slen s)).

(** [%*d] / [%*s]: right-justified in the given width, left-justified
    when the width argument is negative; [%-*s] is always left-justified. *)
Definition fmt_right (w : Z) (s : string) : string :=
  if w <? 0 then pad_right (- w) s else pad_left w s.
Definition fmt_left (w : Z) (s : string) : string := pad_right (Z.abs w) s.

(** [%0Nd]: sign, then zeros up to the width, then the digits. *)
Definition fmt_0d (w : Z) (z : Z) : string :=
  let sign := if z <? 0 then "-" else "" in
  let digits := dec (Z.abs z) in
  sign ++ repeat_char "0" (Z.to_nat (w - slen sign - slen digits)) ++ digits.

Definition chr (z : Z) : ascii := ascii_of_N (Z.to_N (wrap_byte z)).
Definition char_string (c : ascii) : string := String c "".

(** [snprintf(buf, size, ...)] for the text the conversions produce: what
    the buffer holds afterwards and the value returned.  An [int] size is
    converted to [size_t], so a negative one never truncates. *)
Definition snprintf (size : Z) (text : string) : string * Z :=
  let stored :=
    if size =? 0 then ""
    else if size <? 0 then text
    else String.substring 0 (Z.to_nat (size - 1)) text in
  (stored, slen text).

(** ** Size, owner and group fields *)

Definition digits_suffix (d0 d1 : Z) (suffix : ascii) : string * Z :=
  (String (chr (48 + d0)) (String "." (String (chr (48 + d1)) (char_string suffix))), 4).

(** The two scaling loops of [format_number]; [suffix] is the pointer into
    the suffix table, so [suffix[1]] is the head of the tail. *)
Fixpoint format_metric (size : Z) (suffix : string) (number : Z) : string * Z :=
  match suffix with
  | String c (String c1 _ as rest) =>
      if number >=? 1000 then
        if number <? 10000 then
          digits_suffix (Z.quot number 1000) (Z.rem (Z.quot number 100) 10) c1
        else format_metric size rest (Z.quot number 1000)
      else snprintf size (dec (wrap_int number) ++ char_string c)
  | String c EmptyString => snprintf size (dec (wrap_int number) ++ char_string c)
  | EmptyString => snprintf size (dec (wrap_int number))
  end.

Fixpoint format_geek (size : Z) (suffix : string) (number : Z) : string * Z :=
  match suffix with
  | String c (String c1 _ as rest) =>
      if number >=? 1000 then
        if number <? 10200 then
          digits_suffix (Z.quot number 1020) (Z.rem (Z.quot number 102) 10) c1
        else format_geek size rest (Z.shiftr number 10)
      else snprintf size (dec (wrap_int number) ++ char_string c)
  | String c EmptyString => snprintf size (dec (wrap_int number) ++ char_string c)
  | EmptyString => snprintf size (dec (wrap_int number))
  end.

Definition format_number (size human number : Z) : string * Z :=
  if human =? 0 then snprintf size (dec number)
  else if human >? 1 then
    (* metric version, powers of 1000 *)
    format_metric size "BkMGTPEZY" number
  else
    (* geek version, powers of 1024 *)
    format_geek size "BKMGTPEZY" number.

Definition format_gid `{Host} (size nflag gid : Z) : string * Z :=
  match (if nflag =? 0 then getgrgid gid else None) with
  | Some (Some gr_name) => snprintf size gr_name
  | _ => snprintf size (dec (wrap_int gid))
  end.

Definition format_uid `{Host} (size nflag uid : Z) : string * Z :=
  match (if nflag =? 0 then getpwuid uid else None) with
  | Some (Some pw_name) => snprintf size pw_name
  | _ => snprintf size (dec (wrap_int uid))
  end.

(** [sizeof(dev_t)] of the platform (8 on Linux and 4 on the BSDs; the
    code only asks whether it is 2). *)
Definition sizeof_dev_t : Z := 8.

Definition format_size (size human st_mode st_rdev st_size : Z) : string * Z :=
  if S_ISCHR st_mode || S_ISBLK st_mode then
    let major := wrap_int (Z.shiftr st_rdev (if sizeof_dev_t =? 2 then 8 else 24)) in
    let minor := wrap_int (Z.land st_rdev (if sizeof_dev_t =? 2 then 0xff else 0xffffff)) in
    snprintf size (pad_left 3 (dec major) ++ ", " ++ pad_left 3 (dec minor))
  else format_number size human st_size.

(** ** Date field *)

Definition month : list string :=
  [ "***"; "Jan"; "Feb"; "Mar"; "Apr"; "May"; "Jun";
    "Jul"; "Aug"; "Sep"; "Oct"; "Nov"; "Dec" ].

Definition month_name (fmonth : Z) : string :=
  nth (Z.to_nat fmonth) month "".

(** The host's bounded output buffer ([buf_init] / [buf_printf]): the
    text is cut at [size - 1] characters, [len] is the length stored and
    [pos] the length asked for. *)
Definition buf_stored (size : Z) (text : string) : string := fst (snprintf size text).

Definition format_date `{Host} (dired_curtime : Z) (size systime time_format : Z)
  : string * Z :=
  let systm := localtime systime in
  let fmonth := int_add (tm_mon systm) 1 in
  let fmonth := if (fmonth <=? 0) || (fmonth >? 12) then 0 else fmonth in
  let out :=
    if (time_format =? TF_TOUCH) || (time_format =? TF_TOUCH_LONG) then
      fmt_0d 2 (Z.rem (tm_year systm) 100) ++ fmt_0d 2 fmonth
        ++ fmt_0d 2 (tm_mday systm) ++ fmt_0d 2 (tm_hour systm)
        ++ fmt_0d 2 (tm_min systm)
        ++ (if time_format =? TF_TOUCH_LONG
            then "." ++ fmt_0d 2 (tm_sec systm) else "")
    else if (time_format =? TF_DOS) || (time_format =? TF_DOS_LONG) then
      month_name fmonth ++ " " ++ pad_left 2 (dec (tm_mday systm))
        ++ " " ++ pad_left 4 (dec (int_add (tm_year systm) 1900))
        ++ "  " ++ pad_left 2 (dec (tm_hour systm))
        ++ ":" ++ fmt_0d 2 (tm_min systm)
        ++ (if time_format =? TF_DOS_LONG
            then ":" ++ fmt_0d 2 (tm_sec systm) else "")
    else if time_format =? TF_FULL then
      month_name fmonth ++ " " ++ pad_left 2 (dec (tm_mday systm))
        ++ " " ++ fmt_0d 2 (tm_hour systm) ++ ":" ++ fmt_0d 2 (tm_min systm)
        ++ ":" ++ fmt_0d 2 (tm_sec systm)
        ++ " " ++ pad_left 4 (dec (int_add (tm_year systm) 1900))
    else if time_format =? TF_SECONDS then
      pad_left 10 (dec (wrap_ulong systime))
    else
      if (systime >? wrap_ll (dired_curtime - 182 * 86400))
         && (systime <? wrap_ll (dired_curtime + 182 * 86400)) then
        month_name fmonth ++ " " ++ pad_left 2 (dec (tm_mday systm))
          ++ " " ++ fmt_0d 2 (tm_hour systm) ++ ":" ++ fmt_0d 2 (tm_min systm)
      else
        month_name fmonth ++ " " ++ pad_left 2 (dec (tm_mday systm))
          ++ "  " ++ pad_left 4 (dec (int_add (tm_year systm) 1900)) in
  let dest := buf_stored size out in
  let dest :=
    if fmonth =? 0 then repeat_char " " (String.length dest) else dest in
  (dest, slen out).

(** ** Name decorations *)

(** The trailing character as a character code, 0 for none.  [S_ISWHT] is
    not defined by the POSIX headers modelled here. *)
Definition get_trailchar (mode : Z) : Z :=
  let trailchar := 0 in
  let trailchar := if has mode S_IEXEC then 42 (* '*' *) else trailchar in
  let trailchar := if S_ISDIR mode then 47 (* '/' *) else trailchar in
  let trailchar := if S_ISLNK mode then 64 (* '@' *) else trailchar in
  let trailchar := if S_ISSOCK mode then 61 (* '=' *) else trailchar in
  let trailchar := if S_ISFIFO mode then 124 (* '|' *) else trailchar in
  trailchar.

(** [MAX_FILENAME_SIZE] of qe.h, absent from this file: the size of the
    scratch buffers; no property below depends on its value. *)
Definition MAX_FILENAME_SIZE : Z := 1024.

Definition getentryslink `{Host} (size : Z) (dir name : string) : option string :=
  let filename := dir ++ "/" ++ name in
  let path :=
    if slen filename <? MAX_FILENAME_SIZE + MAX_FILENAME_SIZE + 1 then
      match readlink filename (size - 1) with
      | Some target => target
      | None => ""
      end
    else "" in
  if slen path =? 0 then None else Some path.

(** ** Filter *)

(** Modelled from the spec: [strequal], the host's test that two strings
    are the same, absent from this file; the spec reads it as "exactly
    equals". *)
Definition strequal (a b : string) : bool := String.eqb a b.

(** [*p == '.'] on a C string. *)
Definition starts_with_dot (p : string) : bool :=
  match p with
  | String c _ => Ascii.eqb c "."
  | EmptyString => false
  end.

Definition set_filter_counts (sd ss tb nd nf ndh nfh : Z) (its : list StringItem)
    (ds : DiredState) : DiredState := {|
  items := its; time_format := time_format ds;
  show_dot_files := sd; show_ds_store := ss;
  hflag := hflag ds; nflag := nflag ds; details_flag := details_flag ds;
  last_details_flag := last_details_flag ds; sort_mode := sort_mode ds;
  last_cur := last_cur ds;
  total_bytes := tb; ndirs := nd; nfiles := nf;
  ndirs_hidden := ndh; nfiles_hidden := nfh;
  blocksize := blocksize ds; last_width := last_width ds;
  details_mask := details_mask ds; blockslen := blockslen ds;
  modelen := modelen ds; linklen := linklen ds; uidlen := uidlen ds;
  gidlen := gidlen ds; sizelen := sizelen ds; datelen := datelen ds;
  namelen := namelen ds; fnamecol := fnamecol ds; path := path ds
|}.

(** The hidden flag the loop body computes for one item. *)
Definition dired_item_hidden (g : DiredGlobals) (p : string) : Z :=
  if starts_with_dot p then
    if truth (lnot (dired_show_dot_files g))
       || (truth (lnot (dired_show_ds_store g)) && strequal p ".DS_Store")
    then 1 else 0
  else 0.

(** The counters the loop of [dired_filter_files] updates. *)
Record FilterCounts := {
  fc_total_bytes : Z;
  fc_ndirs : Z;
  fc_nfiles : Z;
  fc_ndirs_hidden : Z;
  fc_nfiles_hidden : Z
}.

Definition dired_filter_step (g : DiredGlobals) (c : FilterCounts) (it : StringItem)
  : FilterCounts * StringItem :=
  let dip := opaque it in
  let hidden := dired_item_hidden g (str it) in
  let dip := set_hidden hidden dip in
  let c :=
    if truth hidden then
      if S_ISDIR (mode dip) then
        {| fc_total_bytes := fc_total_bytes c; fc_ndirs := fc_ndirs c;
           fc_nfiles := fc_nfiles c;
           fc_ndirs_hidden := int_add (fc_ndirs_hidden c) 1;
           fc_nfiles_hidden := fc_nfiles_hidden c |}
      else
        {| fc_total_bytes := fc_total_bytes c; fc_ndirs := fc_ndirs c;
           fc_nfiles := fc_nfiles c;
           fc_ndirs_hidden := fc_ndirs_hidden c;
           fc_nfiles_hidden := int_add (fc_nfiles_hidden c) 1 |}
    else
      if S_ISDIR (mode dip) then
        {| fc_total_bytes := fc_total_bytes c;
           fc_ndirs := int_add (fc_ndirs c) 1;
           fc_nfiles := fc_nfiles c;
           fc_ndirs_hidden := fc_ndirs_hidden c;
           fc_nfiles_hidden := fc_nfiles_hidden c |}
      else
        {| fc_total_bytes := ll_add (fc_total_bytes c) (size dip);
           fc_ndirs := fc_ndirs c;
           fc_nfiles := int_add (fc_nfiles c) 1;
           fc_ndirs_hidden := fc_ndirs_hidden c;
           fc_nfiles_hidden := fc_nfiles_hidden c |} in
  (c, set_opaque dip it).

Fixpoint dired_filter_loop (g : DiredGlobals) (c : FilterCounts)
    (its : list StringItem) : FilterCounts * list StringItem :=
  match its with
  | [] => (c, [])
  | it :: rest =>
      let '(c, it') := dired_filter_step g c it in
      let '(c, rest') := dired_filter_loop g c rest in
      (c, it' :: rest')
  end.

Definition dired_filter_files (g : DiredGlobals) (ds : DiredState) : DiredState :=
  let c0 := {| fc_total_bytes := 0; fc_ndirs := 0; fc_nfiles := 0;
               fc_ndirs_hidden := 0; fc_nfiles_hidden := 0 |} in
  let '(c, its) := dired_filter_loop g c0 (items ds) in
  set_filter_counts (dired_show_dot_files g) (dired_show_ds_store g)
    (fc_total_bytes c) (fc_ndirs c) (fc_nfiles c)
    (fc_ndirs_hidden c) (fc_nfiles_hidden c) its ds.

(** ** Column measurement *)

Record ColumnWidths := {
  cw_blockslen : Z;
  cw_modelen : Z;
  cw_linklen : Z;
  cw_uidlen : Z;
  cw_gidlen : Z;
  cw_sizelen : Z;
  cw_datelen : Z;
  cw_namelen : Z
}.

(** [if (x < len) x = len] *)
Definition raise_to (x len : Z) : Z := if x <? len then len else x.

(** Number of blocks of a file, as both loops print it with [%ld]. *)
Definition nblocks (blocksize size : Z) : Z :=
  wrap_ll (Z.quot (wrap_ll (wrap_ll (size + blocksize) - 1)) blocksize).

Definition dired_columns_step `{Host} (g : DiredGlobals) (ds : DiredState)
    (w : ColumnWidths) (it : StringItem) : ColumnWidths :=
  let dip := opaque it in
  let namelen := raise_to (cw_namelen w) (wrap_int (slen (name dip))) in
  if details_flag ds =? DIRED_DETAILS_HIDE then
    {| cw_blockslen := cw_blockslen w; cw_modelen := cw_modelen w;
       cw_linklen := cw_linklen w; cw_uidlen := cw_uidlen w;
       cw_gidlen := cw_gidlen w; cw_sizelen := cw_sizelen w;
       cw_datelen := cw_datelen w; cw_namelen := namelen |}
  else
    {| cw_blockslen :=
         raise_to (cw_blockslen w)
           (snd (snprintf 32 (dec (nblocks (blocksize ds) (size dip)))));
       cw_modelen := 10;
       cw_linklen :=
         raise_to (cw_linklen w) (snd (snprintf 32 (dec (wrap_int (nlink dip)))));
       cw_uidlen := raise_to (cw_uidlen w) (snd (format_uid 32 (nflag ds) (uid dip)));
       cw_gidlen := raise_to (cw_gidlen w) (snd (format_gid 32 (nflag ds) (gid dip)));
       cw_sizelen :=
         raise_to (cw_sizelen w)
           (snd (format_size 32 (hflag ds) (mode dip) (rdev dip) (size dip)));
       cw_datelen :=
         raise_to (cw_datelen w)
           (snd (format_date (dired_curtime g) 32 (mtime dip) (dired_time_format g)));
       cw_namelen := namelen |}.

Definition set_curtime (v : Z) (g : DiredGlobals) : DiredGlobals := {|
  dired_curtime := v; dired_time_format := dired_time_format g;
  dired_show_dot_files := dired_show_dot_files g;
  dired_show_ds_store := dired_show_ds_store g;
  dired_nflag := dired_nflag g; dired_hflag := dired_hflag g;
  dired_sort_mode := dired_sort_mode g
|}.

Definition set_time_format (v : Z) (g : DiredGlobals) : DiredGlobals := {|
  dired_curtime := dired_curtime g; dired_time_format := v;
  dired_show_dot_files := dired_show_dot_files g;
  dired_show_ds_store := dired_show_ds_store g;
  dired_nflag := dired_nflag g; dired_hflag := dired_hflag g;
  dired_sort_mode := dired_sort_mode g
|}.

Definition set_column_flags (tf hf nf : Z) (ds : DiredState) : DiredState := {|
  items := items ds; time_format := tf;
  show_dot_files := show_dot_files ds; show_ds_store := show_ds_store ds;
  hflag := hf; nflag := nf; details_flag := details_flag ds;
  last_details_flag := last_details_flag ds; sort_mode := sort_mode ds;
  last_cur := last_cur ds;
  total_bytes := total_bytes ds; ndirs := ndirs ds; nfiles := nfiles ds;
  ndirs_hidden := ndirs_hidden ds; nfiles_hidden := nfiles_hidden ds;
  blocksize := blocksize ds; last_width := last_width ds;
  details_mask := details_mask ds; blockslen := blockslen ds;
  modelen := modelen ds; linklen := linklen ds; uidlen := uidlen ds;
  gidlen := gidlen ds; sizelen := sizelen ds; datelen := datelen ds;
  namelen := namelen ds; fnamecol := fnamecol ds; path := path ds
|}.

Definition set_column_widths (w : ColumnWidths) (ds : DiredState) : DiredState := {|
  items := items ds; time_format := time_format ds;
  show_dot_files := show_dot_files ds; show_ds_store := show_ds_store ds;
  hflag := hflag ds; nflag := nflag ds; details_flag := details_flag ds;
  last_details_flag := last_details_flag ds; sort_mode := sort_mode ds;
  last_cur := last_cur ds;
  total_bytes := total_bytes ds; ndirs := ndirs ds; nfiles := nfiles ds;
  ndirs_hidden := ndirs_hidden ds; nfiles_hidden := nfiles_hidden ds;
  blocksize := blocksize ds; last_width := last_width ds;
  details_mask := details_mask ds; blockslen := cw_blockslen w;
  modelen := cw_modelen w; linklen := cw_linklen w; uidlen := cw_uidlen w;
  gidlen := cw_gidlen w; sizelen := cw_sizelen w; datelen := cw_datelen w;
  namelen := cw_namelen w; fnamecol := fnamecol ds; path := path ds
|}.

Definition dired_compute_columns `{Host} (g : DiredGlobals) (ds : DiredState)
  : DiredGlobals * DiredState :=
  let g := set_curtime time_now g in
  let ds := set_column_flags (dired_time_format g) (dired_hflag g) (dired_nflag g) ds in
  let w0 := {| cw_blockslen := 0; cw_modelen := 0; cw_linklen := 0;
               cw_uidlen := 0; cw_gidlen := 0; cw_sizelen := 0;
               cw_datelen := 0; cw_namelen := 0 |} in
  (g, set_column_widths (fold_left (dired_columns_step g ds) (items ds) w0) ds).

(** ** Current item *)

Fixpoint dired_cur_item_loop (its : list StringItem) (index : Z) : option DiredItem :=
  match its with
  | [] => None
  | it :: rest =>
      let dip := opaque it in
      if truth (hidden dip) then dired_cur_item_loop rest index
      else if index =? 0 then Some dip
      else dired_cur_item_loop rest (int_sub index 1)
  end.

Definition dired_get_cur_item `{Host} (ds : DiredState) (b : EditBuffer) (s : EditState)
  : option DiredItem :=
  let index := int_sub (list_get_pos b s) DIRED_HEADER in
  if index >=? 0 then dired_cur_item_loop (items ds) index else None.

(** ** Writing into the buffer *)

(** Modelled from the spec: the host's buffer primitives [eb_clear],
    [eb_puts], [eb_putc] and [eb_printf], absent from this file; inserted
    text takes the current style and the calls return the length
    written. *)
Definition EB (A : Type) : Type := EditBuffer -> A * EditBuffer.

Definition eb_ret {A} (a : A) : EB A := fun b => (a, b).
Definition eb_bind {A B} (c : EB A) (k : A -> EB B) : EB B :=
  fun b => let '(a, b') := c b in k a b'.

Notation "x <- c ;; k" := (eb_bind c (fun x => k))
  (at level 100, c at next level, right associativity).
Notation "c ;;; k" := (eb_bind c (fun _ => k))
  (at level 100, right associativity).

(** The read-only flag of qe.h, absent from this file; only its being a
    flag bit matters. *)
Definition BF_READONLY : Z := 0x0001.

Definition eb_clear (b : EditBuffer) : EditBuffer := {|
  b_text := []; b_offset := 0; b_cur_style := b_cur_style b;
  b_modified := b_modified b; b_flags := b_flags b
|}.

Definition eb_style (st : Z) : EB unit := fun b =>
  (tt, {| b_text := b_text b; b_offset := b_offset b; b_cur_style := st;
          b_modified := b_modified b; b_flags := b_flags b |}).

Definition eb_puts (text : string) : EB Z := fun b =>
  (slen text,
   {| b_text := (b_text b ++ [(b_cur_style b, text)])%list;
      b_offset := int_add (b_offset b) (slen text);
      b_cur_style := b_cur_style b;
      b_modified := b_modified b; b_flags := b_flags b |}).

Definition eb_printf (text : string) : EB Z := eb_puts text.
Definition eb_putc (c : Z) : EB Z := eb_puts (char_string (chr c)).
Definition eb_offset : EB Z := fun b => (b_offset b, b).

Definition eb_finish (b : EditBuffer) : EditBuffer := {|
  b_text := b_text b; b_offset := b_offset b; b_cur_style := b_cur_style b;
  b_modified := 0; b_flags := Z.lor (b_flags b) BF_READONLY
|}.

Definition newline : Z := 10.
Definition nl : string := char_string (chr newline).

(** ** Column layout (the detail mask of [dired_update_buffer]) *)

(** [details_mask ^= bit] when the test holds. *)
Definition drop_if (c : bool) (bit mask : Z) : Z :=
  if c then Z.lxor mask bit else mask.

(** The statements from [width -= clamp_int(ds->namelen, 16, 40)] to the
    end of the detail-mode test; [width] is the display width in
    characters.  The result is the mask and the final value of [width]. *)
Definition dired_layout (ds : DiredState) (width : Z) : Z * Z :=
  let width := int_sub width (clamp_int (namelen ds) 16 40) in
  let mask := DIRED_SHOW_ALL in
  if details_flag ds =? DIRED_DETAILS_HIDE then (0, width)
  else if details_flag ds =? DIRED_DETAILS_AUTO then
    let width := int_sub width (int_add (sizelen ds) 2) in
    let mask := drop_if (width <? 0) DIRED_SHOW_SIZE mask in
    let width := int_sub width (int_add (datelen ds) 2) in
    let mask := drop_if (width <? 0) DIRED_SHOW_DATE mask in
    let width := int_sub width (int_add (modelen ds) 1) in
    let mask := drop_if (width <? 0) DIRED_SHOW_MODE mask in
    let width :=
      if nflag ds =? 2 then width else int_sub width (int_add (uidlen ds) 1) in
    let mask := drop_if ((nflag ds =? 2) || (width <? 0)) DIRED_SHOW_UID mask in
    let width :=
      if nflag ds =? 2 then width else int_sub width (int_add (gidlen ds) 1) in
    let mask := drop_if ((nflag ds =? 2) || (width <? 0)) DIRED_SHOW_GID mask in
    let width := int_sub width (int_add (linklen ds) 1) in
    let mask := drop_if (width <? 0) DIRED_SHOW_LINKS mask in
    (* disable blocks display to avoid confusing output *)
    let mask := Z.lxor mask DIRED_SHOW_BLOCKS in
    (mask, width)
  else (mask, width).

(** ** Rendering *)

Definition inflect (n : Z) (singular plural : string) : string :=
  if n =? 1 then singular else plural.

(** One summary item of the header; the result is the next separator. *)
Definition header_count (seq : Z) (n : Z) (text : string) : EB Z :=
  if truth n then
    eb_printf (char_string (chr seq) ++ " " ++ text) ;;; eb_ret 44 (* ',' *)
  else eb_ret seq.

Definition dired_render_header (ds : DiredState) : EB unit :=
  let seq := 32 (* ' ' *) in
  eb_style DIRED_STYLE_HEADER ;;;
  eb_puts "  Directory of " ;;;
  eb_style DIRED_STYLE_DIRECTORY ;;;
  eb_puts (path ds) ;;;
  eb_style DIRED_STYLE_HEADER ;;;
  eb_puts (nl ++ "  ") ;;;
  seq <- header_count seq (ndirs ds)
           (dec (ndirs ds) ++ " " ++ inflect (ndirs ds) "directory" "directories") ;;
  seq <- header_count seq (ndirs_hidden ds)
           (dec (ndirs_hidden ds) ++ " "
            ++ inflect (ndirs_hidden ds) "hidden directory" "hidden directories") ;;
  seq <- header_count seq (nfiles ds)
           (dec (nfiles ds) ++ " " ++ inflect (nfiles ds) "file" "files") ;;
  seq <- header_count seq (nfiles_hidden ds)
           (dec (nfiles_hidden ds) ++ " "
            ++ inflect (nfiles_hidden ds) "hidden file" "hidden files") ;;
  seq <- header_count seq (total_bytes ds)
           (fst (format_number MAX_FILENAME_SIZE (hflag ds) (total_bytes ds))
            ++ " " ++ inflect (total_bytes ds) "byte" "bytes") ;;
  (if int_add (int_add (int_add (ndirs ds) (ndirs_hidden ds)) (nfiles ds))
        (nfiles_hidden ds) =? 0
   then eb_printf (char_string (chr seq) ++ " empty") ;;; eb_ret tt
   else eb_ret tt) ;;;
  eb_putc newline ;;; eb_ret tt.

(** [if (mask & bit) col += eb_printf(...)] *)
Definition eb_column (ds : DiredState) (bit : Z) (col : Z) (text : string) : EB Z :=
  if truth (Z.land (details_mask ds) bit) then
    n <- eb_printf text ;; eb_ret (int_add col n)
  else eb_ret col.

(** The line of a visible item; the result is the value assigned to
    [ds->fnamecol]. *)
Definition dired_render_line `{Host} (g : DiredGlobals) (ds : DiredState)
    (dip : DiredItem) : EB Z :=
  let buf_size := MAX_FILENAME_SIZE in
  col <- eb_printf (char_string (mark dip) ++ " ") ;;
  col <- eb_column ds DIRED_SHOW_BLOCKS col
           (fmt_right (blockslen ds) (dec (nblocks (blocksize ds) (size dip))) ++ " ") ;;
  col <- eb_column ds DIRED_SHOW_MODE col (compute_attr (mode dip) ++ " ") ;;
  col <- eb_column ds DIRED_SHOW_LINKS col
           (fmt_right (linklen ds) (dec (wrap_int (nlink dip))) ++ " ") ;;
  col <- eb_column ds DIRED_SHOW_UID col
           (fmt_left (uidlen ds) (fst (format_uid buf_size (nflag ds) (uid dip))) ++ " ") ;;
  col <- eb_column ds DIRED_SHOW_GID col
           (fmt_left (gidlen ds) (fst (format_gid buf_size (nflag ds) (gid dip))) ++ " ") ;;
  col <- eb_column ds DIRED_SHOW_SIZE col
           (" " ++ fmt_right (sizelen ds)
                     (fst (format_size buf_size (hflag ds) (mode dip) (rdev dip) (size dip)))
                ++ "  ") ;;
  col <- eb_column ds DIRED_SHOW_DATE col
           (fst (format_date (dired_curtime g) buf_size (mtime dip) (dired_time_format g))
            ++ "  ") ;;
  eb_style (if S_ISDIR (mode dip) then DIRED_STYLE_DIRECTORY else DIRED_STYLE_FILENAME) ;;;
  eb_puts (name dip) ;;;
  (if truth (get_trailchar (mode dip))
   then eb_putc (get_trailchar (mode dip)) ;;; eb_ret tt else eb_ret tt) ;;;
  (if S_ISLNK (mode dip) then
     match getentryslink buf_size (path ds) (name dip) with
     | Some target => eb_printf (" -> " ++ target) ;;; eb_ret tt
     | None => eb_ret tt
     end
   else eb_ret tt) ;;;
  eb_style DIRED_STYLE_NORMAL ;;;
  eb_putc newline ;;;
  eb_ret (int_sub col 1).

(** What the loop over the items carries besides the buffer: [ds->last_cur],
    the offset stored into the window (if any) and [ds->fnamecol]. *)
Record RenderAcc := {
  ra_last_cur : option Z;
  ra_s_offset : option Z;
  ra_fnamecol : Z
}.

Definition same_item (dip : DiredItem) (cur_item : option DiredItem) : bool :=
  match cur_item with
  | Some c => addr dip =? addr c
  | None => false
  end.

Fixpoint dired_render_items `{Host} (g : DiredGlobals) (ds : DiredState)
    (cur_item : option DiredItem) (its : list StringItem) (acc : RenderAcc)
  : EB (list StringItem * RenderAcc) :=
  match its with
  | [] => eb_ret ([], acc)
  | it :: rest =>
      off <- eb_offset ;;
      let dip := set_offset off (opaque it) in
      let acc :=
        if same_item dip cur_item then
          {| ra_last_cur := Some (addr dip); ra_s_offset := Some off;
             ra_fnamecol := ra_fnamecol acc |}
        else acc in
      acc <- (if truth (hidden dip) then eb_ret acc
              else
                col <- dired_render_line g ds dip ;;
                eb_ret {| ra_last_cur := ra_last_cur acc;
                          ra_s_offset := ra_s_offset acc;
                          ra_fnamecol := col |}) ;;
      r <- dired_render_items g ds cur_item rest acc ;;
      eb_ret (set_opaque dip it :: fst r, snd r)
  end.

(** ** Update orchestrator *)

Definition set_sorted (sm : Z) (its : list StringItem) (ds : DiredState) : DiredState := {|
  items := its; time_format := time_format ds;
  show_dot_files := show_dot_files ds; show_ds_store := show_ds_store ds;
  hflag := hflag ds; nflag := nflag ds; details_flag := details_flag ds;
  last_details_flag := last_details_flag ds; sort_mode := sm;
  last_cur := last_cur ds;
  total_bytes := total_bytes ds; ndirs := ndirs ds; nfiles := nfiles ds;
  ndirs_hidden := ndirs_hidden ds; nfiles_hidden := nfiles_hidden ds;
  blocksize := blocksize ds; last_width := last_width ds;
  details_mask := details_mask ds; blockslen := blockslen ds;
  modelen := modelen ds; linklen := linklen ds; uidlen := uidlen ds;
  gidlen := gidlen ds; sizelen := sizelen ds; datelen := datelen ds;
  namelen := namelen ds; fnamecol := fnamecol ds; path := path ds
|}.

(** The assignments at the head of the rebuild and those the rendering
    loop leaves behind. *)
Definition set_rebuilt (ldf lw dm : Z) (its : list StringItem) (lc : option Z)
    (fc : Z) (ds : DiredState) : DiredState := {|
  items := its; time_format := time_format ds;
  show_dot_files := show_dot_files ds; show_ds_store := show_ds_store ds;
  hflag := hflag ds; nflag := nflag ds; details_flag := details_flag ds;
  last_details_flag := ldf; sort_mode := sort_mode ds;
  last_cur := lc;
  total_bytes := total_bytes ds; ndirs := ndirs ds; nfiles := nfiles ds;
  ndirs_hidden := ndirs_hidden ds; nfiles_hidden := nfiles_hidden ds;
  blocksize := blocksize ds; last_width := lw;
  details_mask := dm; blockslen := blockslen ds;
  modelen := modelen ds; linklen := linklen ds; uidlen := uidlen ds;
  gidlen := gidlen ds; sizelen := sizelen ds; datelen := datelen ds;
  namelen := namelen ds; fnamecol := fc; path := path ds
|}.

(** The three stages before the rebuild test: each detects a change of
    its configuration, raises its bit, and when its bit is set raises the
    rebuild bit and reruns.  The result is the final [flags] with the
    variables and the state. *)
Definition dired_sort_stage `{Host} (g : DiredGlobals) (ds : DiredState) (flags : Z)
  : Z * DiredState :=
  let flags :=
    if negb (sort_mode ds =? dired_sort_mode g)
    then Z.lor flags DIRED_UPDATE_SORT else flags in
  if truth (Z.land flags DIRED_UPDATE_SORT) then
    let ds := set_sorted (dired_sort_mode g) (items ds) ds in
    (Z.lor flags DIRED_UPDATE_REBUILD,
     set_sorted (sort_mode ds) (qe_qsort_r (dired_sort_func ds) (items ds)) ds)
  else (flags, ds).

Definition dired_filter_stage (g : DiredGlobals) (ds : DiredState) (flags : Z)
  : Z * DiredState :=
  let flags :=
    if negb (show_dot_files ds =? dired_show_dot_files g)
       || negb (show_ds_store ds =? dired_show_ds_store g)
    then Z.lor flags DIRED_UPDATE_FILTER else flags in
  if truth (Z.land flags DIRED_UPDATE_FILTER) then
    (Z.lor flags DIRED_UPDATE_REBUILD, dired_filter_files g ds)
  else (flags, ds).

Definition dired_columns_stage `{Host} (g : DiredGlobals) (ds : DiredState) (flags : Z)
  : Z * (DiredGlobals * DiredState) :=
  let flags :=
    if negb (time_format ds =? dired_time_format g)
       || negb (nflag ds =? dired_nflag g)
       || negb (hflag ds =? dired_hflag g)
       || negb (details_flag ds =? last_details_flag ds)
    then Z.lor flags DIRED_UPDATE_COLUMNS else flags in
  if truth (Z.land flags DIRED_UPDATE_COLUMNS) then
    (Z.lor flags DIRED_UPDATE_REBUILD, dired_compute_columns g ds)
  else (flags, (g, ds)).

Definition dired_update_stages `{Host} (g : DiredGlobals) (ds : DiredState) (flags : Z)
  : Z * (DiredGlobals * DiredState) :=
  let '(flags, ds) := dired_sort_stage g ds flags in
  let '(flags, ds) := dired_filter_stage g ds flags in
  dired_columns_stage g ds flags.

(** The rebuild: layout, then the buffer is cleared and written anew. *)
Definition dired_rebuild `{Host} (g : DiredGlobals) (ds : DiredState) (b : EditBuffer)
    (s : option EditState) (width window_width top_line : Z)
    (cur_item : option DiredItem)
  : DiredState * EditBuffer * option EditState :=
  let ds := set_rebuilt (details_flag ds) window_width
              (fst (dired_layout ds width)) (items ds) None (fnamecol ds) ds in
  (* deleting buffer contents resets s->offset and s->offset_top *)
  let b := eb_clear b in
  let s := option_map (fun s => {| s_width := s_width s; s_offset := 0;
                                   s_offset_top := 0 |}) s in
  let acc0 := {| ra_last_cur := None; ra_s_offset := None;
                 ra_fnamecol := fnamecol ds |} in
  let '(r, b) :=
    (dired_render_header ds ;;;
     eb_style DIRED_STYLE_NORMAL ;;;
     dired_render_items g ds cur_item (items ds) acc0) b in
  let '(its, acc) := r in
  let ds := set_rebuilt (last_details_flag ds) (last_width ds) (details_mask ds)
              its (ra_last_cur acc) (ra_fnamecol acc) ds in
  let b := eb_finish b in
  let s :=
    option_map
      (fun s => {| s_width := s_width s;
                   s_offset := match ra_s_offset acc with
                               | Some off => off
                               | None => s_offset s
                               end;
                   s_offset_top := eb_goto_pos b top_line 0 |}) s in
  (ds, b, s).

(** [dired_update_buffer(ds, b, s, flags)]: [ds] and [s] may be null. *)
Definition dired_update_buffer `{Host} (g : DiredGlobals) (ds : option DiredState)
    (b : EditBuffer) (s : option EditState) (flags : Z)
  : DiredGlobals * option DiredState * EditBuffer * option EditState :=
  match ds with
  | None => (g, None, b, s)
  | Some ds =>
      (* Try and preserve scroll position *)
      let '(width, window_width, top_line, cur_item) :=
        match s with
        | Some s =>
            let w := max_int 1 (get_glyph_width s) in
            (Z.quot (s_width s) w, s_width s,
             eb_get_line b (s_offset_top s), dired_get_cur_item ds b s)
        | None => (80, 80, 0, None)
        end in
      let '(flags, (g, ds)) := dired_update_stages g ds flags in
      if negb (truth (Z.land flags DIRED_UPDATE_REBUILD)) then (g, Some ds, b, s)
      else
        let '(ds, b, s) :=
          dired_rebuild g ds b s width window_width top_line cur_item in
        (g, Some ds, b, s)
  end.

(** ** The time-format variable *)

(** Two values of the host's [QVarType]; only their being distinct
    matters. *)
Definition VAR_UNKNOWN : Z := 0.
Definition VAR_NUMBER : Z := 1.

(** [!strxcmp(str, token)] as a condition. *)
Definition token_is `{Host} (str token : string) : bool :=
  truth (lnot (strxcmp str token)).

(** [dired_time_format_set_value(s, vp, ptr, str, format)]: the result
    is the value returned, the variables and [vp->modified]. *)
Definition dired_time_format_set_value `{Host} (g : DiredGlobals) (vp_modified : Z)
    (str : option string) (format : Z) : Z * DiredGlobals * Z :=
  let chosen :=
    match str with
    | Some str =>
        if token_is str "default" then Some TF_COMPACT else
        if token_is str "compact" then Some TF_COMPACT else
        if token_is str "dos" then Some TF_DOS else
        if token_is str "dos-long" then Some TF_DOS_LONG else
        if token_is str "touch" then Some TF_TOUCH else
        if token_is str "touch-long" then Some TF_TOUCH_LONG else
        if token_is str "full" then Some TF_FULL else
        if token_is str "seconds" then Some TF_SECONDS else
        None
    | None => Some format
    end in
  match chosen with
  | None => (VAR_UNKNOWN, g, vp_modified)
  | Some format =>
      if (format <? 0) || (format >? TF_MAX) then (VAR_UNKNOWN, g, vp_modified)
      else if negb (dired_time_format g =? format) then
        (VAR_NUMBER, set_time_format format g, 1)
      else (VAR_NUMBER, g, vp_modified)
  end.

(** [dired_set_time_format(s, format)] *)
Definition dired_set_time_format `{Host} (g : DiredGlobals) (vp_modified : Z)
    (format : Z) : Z * DiredGlobals * Z :=
  dired_time_format_set_value g vp_modified None format.

(** ** A concrete host

    One instance of the host interface, on which the definitions above
    can be evaluated: byte-wise string order, a user data base that knows
    id 0 only, a clock at the epoch and insertion sort. *)

Definition Z_of_comparison (c : comparison) : Z :=
  match c with
  | Eq => 0
  | Lt => -1
  | Gt => 1
  end.

Definition byte_order (a b : string) : Z := Z_of_comparison (String.compare a b).

Fixpoint after_last_dot (s : string) (ext : string) : string :=
  match s with
  | EmptyString => ext
  | String c rest =>
      if Ascii.eqb c "." then after_last_dot rest rest
      else after_last_dot rest ext
  end.

Fixpoint insert_sorted (cmp : StringItem -> StringItem -> Z) (x : StringItem)
    (l : list StringItem) : list StringItem :=
  match l with
  | [] => [x]
  | y :: rest =>
      if cmp x y <=? 0 then x :: l else y :: insert_sorted cmp x rest
  end.

Definition insertion_sort (cmp : StringItem -> StringItem -> Z)
    (l : list StringItem) : list StringItem :=
  fold_right (insert_sorted cmp) [] l.

Definition epoch : tm :=
  {| tm_sec := 0; tm_min := 0; tm_hour := 0; tm_mday := 1; tm_mon := 0;
     tm_year := 70 |}.

Definition sample_host : Host := {|
  qe_strcollate := byte_order;
  get_extension := fun s => after_last_dot s "";
  strxcmp := byte_order;
  getpwuid := fun u => if u =? 0 then Some (Some "root") else None;
  getgrgid := fun u => if u =? 0 then Some (Some "wheel") else None;
  localtime := fun _ => epoch;
  time_now := 0;
  readlink := fun _ _ => None;
  qe_qsort_r := insertion_sort;
  get_glyph_width := fun _ => 1;
  eb_get_line := fun _ _ => 0;
  list_get_pos := fun _ _ => 0;
  eb_goto_pos := fun _ _ _ => 0
|}.

(** Items and a state for examples. *)
Definition sample_item (a : Z) (nm : string) (md sz : Z) : StringItem :=
  {| str := nm;
     opaque := {| addr := a; fullname := "/d/" ++ nm; mode := md; nlink := 1;
                  uid := 0; gid := 0; rdev := 0; mtime := 0; size := sz;
                  offset := 0; hidden := 0; mark := " "; name := nm |} |}.

Definition sample_state (its : list StringItem) : DiredState := {|
  items := its; time_format := 0; show_dot_files := 1; show_ds_store := 0;
  hflag := 0; nflag := 0; details_flag := 0; last_details_flag := 0;
  sort_mode := Z.lor DIRED_SORT_GROUP DIRED_SORT_NAME; last_cur := None;
  total_bytes := 0; ndirs := 0; nfiles := 0; ndirs_hidden := 0;
  nfiles_hidden := 0; blocksize := 1024; last_width := 0; details_mask := 0;
  blockslen := 0; modelen := 0; linklen := 0; uidlen := 0; gidlen := 0;
  sizelen := 0; datelen := 0; namelen := 0; fnamecol := 0; path := "/d"
|}.

Definition empty_buffer : EditBuffer :=
  {| b_text := []; b_offset := 0; b_cur_style := 0; b_modified := 0;
     b_flags := 0 |}.

(** ** Vocabulary of the properties *)

Definition set_sort_mode (sm : Z) (ds : DiredState) : DiredState :=
  set_sorted sm (items ds) ds.

(** The two visibility rules in the words of the specification: a name
    starting with [.] is hidden unless dot-files are shown; the system
    artifact name is hidden unless system files are shown. *)
Definition spec_hidden_dot_file (g : DiredGlobals) (name : string) : bool :=
  starts_with_dot name && (dired_show_dot_files g =? 0).
Definition spec_hidden_system_file (g : DiredGlobals) (name : string) : bool :=
  String.eqb name ".DS_Store" && (dired_show_ds_store g =? 0).
Definition spec_hidden (g : DiredGlobals) (name : string) : bool :=
  spec_hidden_dot_file g name || spec_hidden_system_file g name.

Definition is_dir (d : DiredItem) : bool := S_ISDIR (mode d).
Definition is_hidden (d : DiredItem) : bool := truth (hidden d).

(** Number of items satisfying a test, and sum of their sizes. *)
Fixpoint count_items (p : DiredItem -> bool) (its : list StringItem) : Z :=
  match its with
  | [] => 0
  | it :: rest => (if p (opaque it) then 1 else 0) + count_items p rest
  end.

Fixpoint sum_sizes (p : DiredItem -> bool) (its : list StringItem) : Z :=
  match its with
  | [] => 0
  | it :: rest => (if p (opaque it) then size (opaque it) else 0) + sum_sizes p rest
  end.

Definition visible_dir (d : DiredItem) : bool := is_dir d && negb (is_hidden d).
Definition hidden_dir (d : DiredItem) : bool := is_dir d && is_hidden d.
Definition visible_file (d : DiredItem) : bool := negb (is_dir d) && negb (is_hidden d).
Definition hidden_file (d : DiredItem) : bool := negb (is_dir d) && is_hidden d.

(** The form "one integer digit, a decimal point, one fractional digit
    and the suffix letter". *)
Definition one_decimal_form (int_digit frac_digit : Z) (suffix : ascii) : string :=
  String (chr (48 + int_digit))
    (String "." (String (chr (48 + frac_digit)) (String suffix ""))).

(** The plain form of the human modes below their first threshold: the
    byte count followed by [B]. *)
Definition plain_byte_form (number : Z) : string := dec number ++ "B".

(** Column layout: whether a column is in the mask, the width reserved
    for the name column, and the width the layout charges for the shown
    optional columns (field width plus separator, as the layout counts
    them; a block-count column is written with one separator). *)
Definition shown (mask bit : Z) : bool := truth (Z.land mask bit).

Definition name_column (ds : DiredState) : Z := clamp_int (namelen ds) 16 40.

Definition shown_columns_width (ds : DiredState) (mask : Z) : Z :=
  (if shown mask DIRED_SHOW_SIZE then sizelen ds + 2 else 0)
  + (if shown mask DIRED_SHOW_DATE then datelen ds + 2 else 0)
  + (if shown mask DIRED_SHOW_MODE then modelen ds + 1 else 0)
  + (if shown mask DIRED_SHOW_UID then uidlen ds + 1 else 0)
  + (if shown mask DIRED_SHOW_GID then gidlen ds + 1 else 0)
  + (if shown mask DIRED_SHOW_LINKS then linklen ds + 1 else 0)
  + (if shown mask DIRED_SHOW_BLOCKS then blockslen ds + 1 else 0).

(** The remaining budget after each width-checked column, in the order
    of the layout, as mathematical integers. *)
Definition budget_size (ds : DiredState) (width : Z) : Z :=
  width - name_column ds - (sizelen ds + 2).
Definition budget_date (ds : DiredState) (width : Z) : Z :=
  budget_size ds width - (datelen ds + 2).
Definition budget_mode (ds : DiredState) (width : Z) : Z :=
  budget_date ds width - (modelen ds + 1).
Definition budget_uid (ds : DiredState) (width : Z) : Z :=
  if nflag ds =? 2 then budget_mode ds width
  else budget_mode ds width - (uidlen ds + 1).
Definition budget_gid (ds : DiredState) (width : Z) : Z :=
  if nflag ds =? 2 then budget_uid ds width
  else budget_uid ds width - (gidlen ds + 1).
Definition budget_links (ds : DiredState) (width : Z) : Z :=
  budget_gid ds width - (linklen ds + 1).

(** Cached maximum widths are lengths, and with the display width they
    are small enough for the [int] arithmetic of the layout. *)
Definition layout_in_range (ds : DiredState) (width : Z) : Prop :=
  0 <= sizelen ds /\ 0 <= datelen ds /\ 0 <= modelen ds
  /\ 0 <= uidlen ds /\ 0 <= gidlen ds /\ 0 <= linklen ds
  /\ sizelen ds + datelen ds + modelen ds + uidlen ds + gidlen ds + linklen ds
     <= 2 ^ 29
  /\ - 2 ^ 29 <= width <= 2 ^ 29.

(** Measured widths that are lengths. *)
Definition widths_nonneg (w : ColumnWidths) : Prop :=
  0 <= cw_blockslen w /\ 0 <= cw_modelen w /\ 0 <= cw_linklen w
  /\ 0 <= cw_uidlen w /\ 0 <= cw_gidlen w /\ 0 <= cw_sizelen w
  /\ 0 <= cw_datelen w /\ 0 <= cw_namelen w.

(** A state with measured columns, for examples: detail mode and owner
    flag as given. *)
Definition sample_columns (details nf : Z) : DiredState := {|
  items := []; time_format := 0; show_dot_files := 1; show_ds_store := 0;
  hflag := 0; nflag := nf; details_flag := details; last_details_flag := details;
  sort_mode := Z.lor DIRED_SORT_GROUP DIRED_SORT_NAME; last_cur := None;
  total_bytes := 0; ndirs := 0; nfiles := 0; ndirs_hidden := 0;
  nfiles_hidden := 0; blocksize := 1024; last_width := 0; details_mask := 0;
  blockslen := 1; modelen := 10; linklen := 1; uidlen := 4; gidlen := 5;
  sizelen := 4; datelen := 12; namelen := 7; fnamecol := 0; path := "/d"
|}.

(** The tokens of the time-format variable and their formats, as the
    specification lists them. *)
Definition spec_time_format_tokens : list (string * Z) :=
  [ ("default", TF_COMPACT); ("compact", TF_COMPACT); ("dos", TF_DOS);
    ("dos-long", TF_DOS_LONG); ("touch", TF_TOUCH);
    ("touch-long", TF_TOUCH_LONG); ("full", TF_FULL);
    ("seconds", TF_SECONDS) ].

(** Update orchestrator: the changes the three stages detect, the bits a
    caller can pass for them, and the two steps each stage applies to
    [flags]. *)
Definition sort_changed (g : DiredGlobals) (ds : DiredState) : bool :=
  negb (sort_mode ds =? dired_sort_mode g).
Definition filter_changed (g : DiredGlobals) (ds : DiredState) : bool :=
  negb (show_dot_files ds =? dired_show_dot_files g)
  || negb (show_ds_store ds =? dired_show_ds_store g).
Definition columns_changed (g : DiredGlobals) (ds : DiredState) : bool :=
  negb (time_format ds =? dired_time_format g)
  || negb (nflag ds =? dired_nflag g)
  || negb (hflag ds =? dired_hflag g)
  || negb (details_flag ds =? last_details_flag ds).
Definition config_changed (g : DiredGlobals) (ds : DiredState) : bool :=
  sort_changed g ds || filter_changed g ds || columns_changed g ds.

Definition upstream_requested (flags : Z) : bool :=
  truth (Z.land flags DIRED_UPDATE_SORT)
  || truth (Z.land flags DIRED_UPDATE_FILTER)
  || truth (Z.land flags DIRED_UPDATE_COLUMNS).

Definition raise_bit (c : bool) (bit flags : Z) : Z :=
  if c then Z.lor flags bit else flags.
Definition cascade (bit flags : Z) : Z :=
  if truth (Z.land flags bit) then Z.lor flags DIRED_UPDATE_REBUILD else flags.

Definition result_buffer
    (r : DiredGlobals * option DiredState * EditBuffer * option EditState)
  : EditBuffer := snd (fst r).

(** Two buffers that agree on what a write can observe, and two writers
    that keep them in agreement while returning related values. *)
Definition same_text (b1 b2 : EditBuffer) : Prop :=
  b_text b1 = b_text b2 /\ b_offset b1 = b_offset b2
  /\ b_cur_style b1 = b_cur_style b2.

Definition related {A : Type} (R : A -> A -> Prop) (c1 c2 : EB A) : Prop :=
  forall b1 b2, same_text b1 b2 ->
    R (fst (c1 b1)) (fst (c2 b2)) /\ same_text (snd (c1 b1)) (snd (c2 b2)).

Definition stable {A : Type} (c : EB A) : Prop := related eq c c.

(** The form of the human modes at and above their second cutoff: the
    scaled count followed by the suffix letter. *)
Definition integer_form (scaled : Z) (suffix : ascii) : string :=
  dec scaled ++ String suffix "".

(** A test holds for the first [k] natural numbers. *)
Definition all_below (p : Z -> bool) (k : nat) : bool :=
  forallb (fun i => p (Z.of_nat i)) (seq 0 k).

(** ** More of the mode: paths, targets, sort string, toggles, scan *)

(** The fields of [struct stat] the scan copies into an item. *)
Record stat := {
  st_mode : Z;
  st_nlink : Z;
  st_uid : Z;
  st_gid : Z;
  st_rdev : Z;
  st_mtime : Z;
  st_size : Z
}.

(** Further functions of the host: character case, path utilities and
    the file system. *)
Class HostFiles := {
  (** [qe_tolower] on a character code *)
  qe_tolower : Z -> Z;
  (** [is_directory(path)] *)
  is_directory : string -> bool;
  (** [makepath(buf, buf_size, path, filename)]: the buffer's content
      when the pointer returned is not null *)
  makepath : Z -> string -> string -> option string;
  (** [get_dirname(dest, size, file)] and [get_basename(filename)] *)
  get_dirname : Z -> string -> string;
  get_basename : string -> string;
  (** [pstrcpy(buf, buf_size, str)]: the buffer's content *)
  pstrcpy : Z -> string -> string;
  (** [lstat(filename, &st)]: the metadata, or failure *)
  lstat : string -> option stat
}.

(** [dired_get_filename(ds, dip, buf, buf_size)]: the name built in the
    buffer when the result is not null. *)
Definition dired_get_filename `{HostFiles} (ds : DiredState) (dip : option DiredItem)
    (buf_size : Z) : option string :=
  match dip with
  | None => None
  | Some dip =>
      if is_directory (path ds) then makepath buf_size (path ds) (name dip)
      else makepath buf_size (get_dirname buf_size (path ds)) (name dip)
  end.

Fixpoint dired_find_target_loop `{HostFiles} (ds : DiredState) (target : string)
    (its : list StringItem) (row : Z) : Z :=
  match its with
  | [] => DIRED_HEADER
  | it :: rest =>
      let dip := opaque it in
      let found :=
        match dired_get_filename ds (Some dip) MAX_FILENAME_SIZE with
        | Some filename => strequal filename target
        | None => false
        end in
      if found then row
      else dired_find_target_loop ds target rest
             (if negb (truth (hidden dip)) then int_add row 1 else row)
  end.

(** [dired_find_target(ds, target)]; [target] may be null. *)
Definition dired_find_target `{HostFiles} (ds : DiredState) (target : option string) : Z :=
  match target with
  | Some target => dired_find_target_loop ds target (items ds) DIRED_HEADER
  | None => DIRED_HEADER
  end.

(** *** The sort-mode variable *)

Definition set_sort_mode_var (v : Z) (g : DiredGlobals) : DiredGlobals := {|
  dired_curtime := dired_curtime g; dired_time_format := dired_time_format g;
  dired_show_dot_files := dired_show_dot_files g;
  dired_show_ds_store := dired_show_ds_store g;
  dired_nflag := dired_nflag g; dired_hflag := dired_hflag g;
  dired_sort_mode := v
|}.

Definition char_code (c : ascii) : Z := Z.of_N (N_of_ascii c).

(** The [switch] on one character of the sort string. *)
Definition dired_sort_mode_char `{HostFiles} (sort_mode : Z) (c : ascii) : Z :=
  let ch := qe_tolower (char_code c) in
  if ch =? 110 (* 'n' *) then
    Z.lor (Z.land sort_mode (Z.lnot DIRED_SORT_MASK)) DIRED_SORT_NAME
  else if ch =? 101 (* 'e' *) then
    Z.lor (Z.land sort_mode (Z.lnot DIRED_SORT_MASK)) DIRED_SORT_EXTENSION
  else if ch =? 115 (* 's' *) then
    Z.lor (Z.land sort_mode (Z.lnot DIRED_SORT_MASK)) DIRED_SORT_SIZE
  else if ch =? 100 (* 'd' *) then
    Z.lor (Z.land sort_mode (Z.lnot DIRED_SORT_MASK)) DIRED_SORT_DATE
  else if ch =? 103 (* 'g' *) then Z.lor sort_mode DIRED_SORT_GROUP
  else if ch =? 117 (* 'u' *) then Z.land sort_mode (Z.lnot DIRED_SORT_GROUP)
  else if ch =? 114 (* 'r' *) then Z.lxor sort_mode DIRED_SORT_DESCENDING
  else if ch =? 43 (* '+' *) then Z.land sort_mode (Z.lnot DIRED_SORT_DESCENDING)
  else if ch =? 45 (* '-' *) then Z.lor sort_mode DIRED_SORT_DESCENDING
  else sort_mode.

(** The loop [for (p = str; p && *p; p++)]: it stops at the end of the
    string, marked in C by a null character. *)
Fixpoint dired_sort_mode_scan `{HostFiles} (str : string) (sort_mode : Z) : Z :=
  match str with
  | EmptyString => sort_mode
  | String c rest =>
      if char_code c =? 0 then sort_mode
      else dired_sort_mode_scan rest (dired_sort_mode_char sort_mode c)
  end.

(** [dired_sort_mode_set_value(s, vp, ptr, str, sort_mode)]: the value
    returned, the variables and [vp->modified]. *)
Definition dired_sort_mode_set_value `{HostFiles} (g : DiredGlobals) (vp_modified : Z)
    (str : option string) (sort_mode : Z) : Z * DiredGlobals * Z :=
  let sort_mode :=
    match str with
    | Some str => dired_sort_mode_scan str sort_mode
    | None => sort_mode
    end in
  if negb (dired_sort_mode g =? sort_mode) then
    (VAR_NUMBER, set_sort_mode_var sort_mode g, 1)
  else (VAR_NUMBER, g, vp_modified).

(** [dired_sort(s, sort_order)], for the state [dired_get_state(s, 0)]
    finds ([ds], possibly null) and the window's buffer [b]. *)
Definition dired_sort `{Host} `{HostFiles} (g : DiredGlobals) (vp_modified : Z)
    (ds : option DiredState) (b : EditBuffer) (s : EditState)
    (sort_order : option string)
  : DiredGlobals * Z * option DiredState * EditBuffer * option EditState :=
  let sort_mode := dired_sort_mode g in
  let '(_, g', vp_modified') :=
    dired_sort_mode_set_value g vp_modified sort_order sort_mode in
  if negb (sort_mode =? dired_sort_mode g') then
    let '(g'', ds', b', s') :=
      dired_update_buffer g' ds b (Some s) DIRED_UPDATE_SORT in
    (g'', vp_modified', ds', b', s')
  else (g', vp_modified', ds, b, Some s).

(** *** Toggles *)

Definition set_hflag_var (v : Z) (g : DiredGlobals) : DiredGlobals := {|
  dired_curtime := dired_curtime g; dired_time_format := dired_time_format g;
  dired_show_dot_files := dired_show_dot_files g;
  dired_show_ds_store := dired_show_ds_store g;
  dired_nflag := dired_nflag g; dired_hflag := v;
  dired_sort_mode := dired_sort_mode g
|}.

Definition set_nflag_var (v : Z) (g : DiredGlobals) : DiredGlobals := {|
  dired_curtime := dired_curtime g; dired_time_format := dired_time_format g;
  dired_show_dot_files := dired_show_dot_files g;
  dired_show_ds_store := dired_show_ds_store g;
  dired_nflag := v; dired_hflag := dired_hflag g;
  dired_sort_mode := dired_sort_mode g
|}.

Definition set_show_dot_files_var (v : Z) (g : DiredGlobals) : DiredGlobals := {|
  dired_curtime := dired_curtime g; dired_time_format := dired_time_format g;
  dired_show_dot_files := v;
  dired_show_ds_store := dired_show_ds_store g;
  dired_nflag := dired_nflag g; dired_hflag := dired_hflag g;
  dired_sort_mode := dired_sort_mode g
|}.

Definition set_details_flag (v : Z) (ds : DiredState) : DiredState := {|
  items := items ds; time_format := time_format ds;
  show_dot_files := show_dot_files ds; show_ds_store := show_ds_store ds;
  hflag := hflag ds; nflag := nflag ds; details_flag := v;
  last_details_flag := last_details_flag ds; sort_mode := sort_mode ds;
  last_cur := last_cur ds;
  total_bytes := total_bytes ds; ndirs := ndirs ds; nfiles := nfiles ds;
  ndirs_hidden := ndirs_hidden ds; nfiles_hidden := nfiles_hidden ds;
  blocksize := blocksize ds; last_width := last_width ds;
  details_mask := details_mask ds; blockslen := blockslen ds;
  modelen := modelen ds; linklen := linklen ds; uidlen := uidlen ds;
  gidlen := gidlen ds; sizelen := sizelen ds; datelen := datelen ds;
  namelen := namelen ds; fnamecol := fnamecol ds; path := path ds
|}.

(** [(x + 1) % 3] on [int]. *)
Definition next_of_three (x : Z) : Z := Z.rem (int_add x 1) 3.

Definition dired_toggle_human (g : DiredGlobals) : DiredGlobals :=
  set_hflag_var (next_of_three (dired_hflag g)) g.

Definition dired_toggle_nflag (g : DiredGlobals) : DiredGlobals :=
  set_nflag_var (next_of_three (dired_nflag g)) g.

Definition dired_hide_details_mode (ds : option DiredState) : option DiredState :=
  option_map (fun ds => set_details_flag (next_of_three (details_flag ds)) ds) ds.

(** [dired_toggle_dot_files(s, val)], for the state [dired_get_state(s, 0)]
    finds; the status message is left to the host. *)
Definition dired_toggle_dot_files `{Host} (g : DiredGlobals) (ds : option DiredState)
    (b : EditBuffer) (s : EditState) (val : Z)
  : DiredGlobals * option DiredState * EditBuffer * option EditState :=
  let val := if val =? -1 then lnot (dired_show_dot_files g) else val in
  if negb (dired_show_dot_files g =? val) then
    dired_update_buffer (set_show_dot_files_var val g) ds b (Some s)
      DIRED_UPDATE_FILTER
  else (g, ds, b, Some s).

(** *** Scan *)

(** The body of the scan loop of [dired_build_list] for one file name the
    directory enumeration returned: nothing when [lstat] fails, else the
    list entry and its item.  [a] stands for the address the allocator
    returns for the item; the allocations are taken to succeed, and the
    [offset] field, which the scan leaves unset, to hold 0. *)
Definition dired_scan_entry `{HostFiles} (a : Z) (filename : string)
  : option StringItem :=
  match lstat filename with
  | None => None
  | Some st =>
      let p := get_basename filename in
      Some {| str := pstrcpy 1024 p;
              opaque := {| addr := a; fullname := filename;
                           mode := st_mode st; nlink := st_nlink st;
                           uid := st_uid st; gid := st_gid st;
                           rdev := st_rdev st; mtime := st_mtime st;
                           size := st_size st; offset := 0; hidden := 0;
                           mark := " "; name := p |} |}
  end.

(** The loop over the file names, appending to the array of items;
    addresses are handed out in sequence. *)
Fixpoint dired_scan `{HostFiles} (a : Z) (filenames : list string) : list StringItem :=
  match filenames with
  | [] => []
  | filename :: rest =>
      match dired_scan_entry a filename with
      | Some it => it :: dired_scan (a + 1) rest
      | None => dired_scan a rest
      end
  end.

(** *** A concrete file host *)

Definition ascii_tolower (c : Z) : Z :=
  if (65 <=? c) && (c <=? 90) then c + 32 else c.

Fixpoint after_last_slash (s : string) (base : string) : string :=
  match s with
  | EmptyString => base
  | String c rest =>
      if Ascii.eqb c "/" then after_last_slash rest rest
      else after_last_slash rest base
  end.

Definition sample_stat (md sz : Z) : stat :=
  {| st_mode := md; st_nlink := 1; st_uid := 0; st_gid := 0; st_rdev := 0;
     st_mtime := 0; st_size := sz |}.

(** Paths are joined with a slash, every path is a directory, and the
    file system holds every name except those ending in [gone]. *)
Definition sample_files : HostFiles := {|
  qe_tolower := ascii_tolower;
  is_directory := fun _ => true;
  makepath := fun _ p f => Some (p ++ "/" ++ f);
  get_dirname := fun _ p => p;
  get_basename := fun f => after_last_slash f f;
  pstrcpy := fun n s => String.substring 0 (Z.to_nat (n - 1)) s;
  lstat := fun f => if String.eqb (after_last_slash f f) "gone" then None
                    else Some (sample_stat 0x81A4 (slen f))
|}.

(** *** Vocabulary of the further properties *)

(** The type glyph of a mode, by its file type. *)
Definition type_glyph (mode : Z) : ascii :=
  if S_ISDIR mode then "d"
  else if S_ISBLK mode then "b"
  else if S_ISCHR mode then "c"
  else if S_ISFIFO mode then "p"
  else if S_ISSOCK mode then "s"
  else if S_ISLNK mode then "l"
  else "-".

(** A permission letter, and an execute position with its set-id bit. *)
Definition perm_letter (mode bit : Z) (letter : ascii) : ascii :=
  if has mode bit then letter else "-".
Definition exec_letter (mode xbit idbit : Z) : ascii :=
  if has mode idbit then (if has mode xbit then "s" else "S")
  else if has mode xbit then "x" else "-".

(** The trailing character of a name, by file type. *)
Definition trailchar_of_type (mode : Z) : Z :=
  if S_ISDIR mode then 47
  else if S_ISLNK mode then 64
  else if S_ISSOCK mode then 61
  else if S_ISFIFO mode then 124
  else if has mode S_IEXEC then 42
  else 0.

(** How many of the six special file types a mode is. *)
Definition type_count (mode : Z) : Z :=
  of_bool (S_ISDIR mode) + of_bool (S_ISBLK mode) + of_bool (S_ISCHR mode)
  + of_bool (S_ISFIFO mode) + of_bool (S_ISSOCK mode) + of_bool (S_ISLNK mode)
  + of_bool (S_ISREG mode).

(** A broken-down time whose fields print in their usual widths: seconds
    to 60, minutes, hours, day of month, and a year from 1900 to 9999.
    The month is not constrained. *)
Definition tm_in_range (t : tm) : Prop :=
  0 <= tm_sec t <= 60 /\ 0 <= tm_min t <= 59 /\ 0 <= tm_hour t <= 23
  /\ 1 <= tm_mday t <= 31 /\ 0 <= tm_year t <= 8099.

(** The width of the date field in each format. *)
Definition date_width (time_format : Z) : Z :=
  if time_format =? TF_TOUCH then 10
  else if time_format =? TF_TOUCH_LONG then 13
  else if time_format =? TF_DOS then 18
  else if time_format =? TF_DOS_LONG then 21
  else if time_format =? TF_FULL then 20
  else if time_format =? TF_SECONDS then 10
  else 12.

(** The month number [format_date] prints: 1 to 12, or 0 when the month
    of the broken-down time is out of range. *)
Definition clipped_month (t : tm) : Z :=
  let fmonth := int_add (tm_mon t) 1 in
  if (fmonth <=? 0) || (fmonth >? 12) then 0 else fmonth.

(** A host whose clock breaks time down to a month out of range. *)
Definition broken_month_host : Host := {|
  qe_strcollate := byte_order;
  get_extension := fun s => after_last_dot s "";
  strxcmp := byte_order;
  getpwuid := fun _ => None;
  getgrgid := fun _ => None;
  localtime := fun _ => {| tm_sec := 0; tm_min := 0; tm_hour := 0; tm_mday := 1;
                           tm_mon := 12; tm_year := 70 |};
  time_now := 0;
  readlink := fun _ _ => None;
  qe_qsort_r := insertion_sort;
  get_glyph_width := fun _ => 1;
  eb_get_line := fun _ _ => 0;
  list_get_pos := fun _ _ => 0;
  eb_goto_pos := fun _ _ _ => 0
|}.

(** A collation that reverses its sign with its arguments and whose
    values can be negated in [int]. *)
Definition collate_antisym (cmp : string -> string -> Z) : Prop :=
  (forall a b, cmp b a = - cmp a b)
  /\ (forall a b, INT_MIN < cmp a b <= INT_MAX).

(** The primary key of a sort mode, and a mode with exactly one key. *)
Definition sort_key (sort_mode : Z) : Z := Z.land sort_mode DIRED_SORT_MASK.

Definition one_key (sort_mode : Z) : Prop :=
  sort_key sort_mode = DIRED_SORT_NAME \/ sort_key sort_mode = DIRED_SORT_EXTENSION
  \/ sort_key sort_mode = DIRED_SORT_SIZE \/ sort_key sort_mode = DIRED_SORT_DATE.

(** The character codes the sort string gives a meaning to. *)
Definition sort_letter (ch : Z) : bool :=
  (ch =? 110) || (ch =? 101) || (ch =? 115) || (ch =? 100) || (ch =? 103)
  || (ch =? 117) || (ch =? 114) || (ch =? 43) || (ch =? 45).

Fixpoint string_forall (p : ascii -> bool) (s : string) : bool :=
  match s with
  | EmptyString => true
  | String c rest => p c && string_forall p rest
  end.

(** The parts of the result of an update. *)
Definition result_globals
    (r : DiredGlobals * option DiredState * EditBuffer * option EditState)
  : DiredGlobals := fst (fst (fst r)).
Definition result_state
    (r : DiredGlobals * option DiredState * EditBuffer * option EditState)
  : option DiredState := snd (fst (fst r)).
Definition result_window
    (r : DiredGlobals * option DiredState * EditBuffer * option EditState)
  : option EditState := snd r.

(** The three format settings of a state agree with the variables, and
    two values of the variables with the same configuration (the clock
    sample apart). *)
Definition formats_agree (g : DiredGlobals) (ds : DiredState) : bool :=
  (time_format ds =? dired_time_format g) && (nflag ds =? dired_nflag g)
  && (hflag ds =? dired_hflag g).

Definition same_config (g g' : DiredGlobals) : Prop :=
  dired_time_format g' = dired_time_format g
  /\ dired_show_dot_files g' = dired_show_dot_files g
  /\ dired_show_ds_store g' = dired_show_ds_store g
  /\ dired_nflag g' = dired_nflag g /\ dired_hflag g' = dired_hflag g
  /\ dired_sort_mode g' = dired_sort_mode g.

(** A state with the fields the filter writes erased: the items, the two
    snapshot flags and the five counters. *)
Definition erase_filter_fields (ds : DiredState) : DiredState :=
  set_filter_counts 0 0 0 0 0 0 0 [] ds.

(** The items that are not hidden, in order. *)
Fixpoint visible_items (its : list StringItem) : list StringItem :=
  match its with
  | [] => []
  | it :: rest =>
      if truth (hidden (opaque it)) then visible_items rest
      else it :: visible_items rest
  end.

(** An item up to the offset the rendering stores in it. *)
Definition item_less_offset (it : StringItem) : string * DiredItem :=
  (str it, set_offset 0 (opaque it)).

(** An item whose file name is the target, and the first such item. *)
Definition dired_item_matches `{HostFiles} (ds : DiredState) (target : string)
    (it : StringItem) : bool :=
  match dired_get_filename ds (Some (opaque it)) MAX_FILENAME_SIZE with
  | Some filename => strequal filename target
  | None => false
  end.

Fixpoint dired_first_match `{HostFiles} (ds : DiredState) (target : string)
    (its : list StringItem) : option DiredItem :=
  match its with
  | [] => None
  | it :: rest =>
      if dired_item_matches ds target it then Some (opaque it)
      else dired_first_match ds target rest
  end.

(** A host whose list window reports the window's offset as the row of
    the cursor. *)
Definition row_cursor_host : Host := {|
  qe_strcollate := byte_order;
  get_extension := fun s => after_last_dot s "";
  strxcmp := byte_order;
  getpwuid := fun _ => None;
  getgrgid := fun _ => None;
  localtime := fun _ => epoch;
  time_now := 0;
  readlink := fun _ _ => None;
  qe_qsort_r := insertion_sort;
  get_glyph_width := fun _ => 1;
  eb_get_line := fun _ _ => 0;
  list_get_pos := fun _ s => s_offset s;
  eb_goto_pos := fun _ _ _ => 0
|}.

(** The file names whose metadata can be read, in order. *)
Fixpoint stat_ok_names `{HostFiles} (filenames : list string) : list string :=
  match filenames with
  | [] => []
  | filename :: rest =>
      match lstat filename with
      | Some _ => filename :: stat_ok_names rest
      | None => stat_ok_names rest
      end
  end.

(** A bounded copy that keeps the first [size - 1] characters. *)
Definition truncating_copy (copy : Z -> string -> string) : Prop :=
  forall size s, 0 < size -> copy size s = String.substring 0 (Z.to_nat (size - 1)) s.

(** An item as the scan creates it from a file name and its metadata. *)
Definition scanned_item `{HostFiles} (it : StringItem) : Prop :=
  exists st,
    lstat (fullname (opaque it)) = Some st
    /\ name (opaque it) = get_basename (fullname (opaque it))
    /\ str it = pstrcpy 1024 (name (opaque it))
    /\ mode (opaque it) = st_mode st /\ nlink (opaque it) = st_nlink st
    /\ uid (opaque it) = st_uid st /\ gid (opaque it) = st_gid st
    /\ rdev (opaque it) = st_rdev st /\ mtime (opaque it) = st_mtime st
    /\ size (opaque it) = st_size st
    /\ hidden (opaque it) = 0 /\ mark (opaque it) = " "%char.

(** The seven widths measured for the optional columns. *)
Definition detail_widths (ds : DiredState) : list Z :=
  [blockslen ds; modelen ds; linklen ds; uidlen ds; gidlen ds; sizelen ds;
   datelen ds].


(** The optional columns. *)
Definition detail_columns : list Z :=
  [DIRED_SHOW_BLOCKS; DIRED_SHOW_MODE; DIRED_SHOW_LINKS; DIRED_SHOW_UID;
   DIRED_SHOW_GID; DIRED_SHOW_SIZE; DIRED_SHOW_DATE].

(** A function applied three times. *)
Definition thrice {A} (f : A -> A) (a : A) : A := f (f (f a)).


(** What the filter decides for an item: its text and its hidden flag. *)
Definition filter_view (it : StringItem) : string * Z := (str it, hidden (opaque it)).

(** The value [dired_toggle_dot_files] installs: the opposite of the
    current one for -1, else the value passed. *)
Definition toggled_dot_files (g : DiredGlobals) (val : Z) : Z :=
  if val =? -1 then lnot (dired_show_dot_files g) else val.


(** The successor of a value in the cycle 0, 1, 2. *)
Definition next_in_cycle (x : Z) : Z := if x =? 2 then 0 else x + 1.


(** The width of the date field for a given time: in the seconds format
    the time is printed as an unsigned 64-bit number in ten columns or
    more. *)
Definition date_field_width (time_format systime : Z) : Z :=
  if time_format =? TF_SECONDS then Z.max 10 (slen (dec (wrap_ulong systime)))
  else date_width time_format.


(** *** Token comparison

    [strxcmp] belongs to the editor's utilities and is not in this file,
    which calls [strequal] where it wants equal strings and [strxcmp] for
    the names of settings.  The comparison below is one in the editor's
    manner: letters compare without regard to case, and dashes,
    underscores and spaces are skipped. *)
Definition skipped_in_token (c : ascii) : bool :=
  Ascii.eqb c "-" || Ascii.eqb c "_" || Ascii.eqb c " ".

Fixpoint fold_token (s : string) : string :=
  match s with
  | EmptyString => EmptyString
  | String c rest =>
      if skipped_in_token c then fold_token rest
      else String (chr (ascii_tolower (char_code c))) (fold_token rest)
  end.

Definition loose_compare (a b : string) : Z :=
  byte_order (fold_token a) (fold_token b).

Definition loose_host : Host := {|
  qe_strcollate := byte_order;
  get_extension := fun s => after_last_dot s "";
  strxcmp := loose_compare;
  getpwuid := fun _ => None;
  getgrgid := fun _ => None;
  localtime := fun _ => epoch;
  time_now := 0;
  readlink := fun _ _ => None;
  qe_qsort_r := insertion_sort;
  get_glyph_width := fun _ => 1;
  eb_get_line := fun _ _ => 0;
  list_get_pos := fun _ _ => 0;
  eb_goto_pos := fun _ _ _ => 0
|}.

(** The format of the first token of the table that the host's
    comparison equates with a string, if there is one. *)
Definition first_token_format `{Host} (str : string) : option Z :=
  option_map snd
    (List.find (fun entry => token_is str (fst entry)) spec_time_format_tokens).

(** A comparison that equates each token of the table with itself and
    with no other token. *)
Definition tokens_told_apart (cmp : string -> string -> Z) : Prop :=
  forall t u,
    In t (map fst spec_time_format_tokens) ->
    In u (map fst spec_time_format_tokens) ->
    (cmp t u = 0 <-> t = u).


(** *** The human forms at every magnitude

    After [j] scaling steps of a human mode the count is
    [number / unit ^ j] and the suffix is the [j]-th letter of the mode's
    table.  The steps continue while the scaled count is at or above the
    mode's cutoff (10000 or 10200); the count is then printed as an
    integer with its suffix when it is below 1000, and else as one
    integer digit, one fractional digit and the next suffix. *)
Definition scaled_count (unit : Z) (j : nat) (number : Z) : Z :=
  number / unit ^ Z.of_nat j.

Definition suffix_at (table : string) (j : nat) : ascii :=
  match String.get j table with
  | Some c => c
  | None => " "%char
  end.

(** The counts that take exactly [j] scaling steps. *)
Definition level_reached (unit cutoff : Z) (j : nat) (number : Z) : Prop :=
  match j with
  | O => True
  | S j' => cutoff * unit ^ Z.of_nat j' <= number
  end.

Definition in_level (unit cutoff : Z) (j : nat) (number : Z) : Prop :=
  level_reached unit cutoff j number /\ number < cutoff * unit ^ Z.of_nat j.

Definition human_form (unit d1 d2 : Z) (table : string) (j : nat) (number : Z)
  : string :=
  let v := scaled_count unit j number in
  if v <? 1000 then integer_form v (suffix_at table j)
  else one_decimal_form (v / d1) ((v / d2) mod 10) (suffix_at table (S j)).

(** A string without its first [j] characters. *)
Fixpoint string_drop (j : nat) (s : string) : string :=
  match j, s with
  | O, _ => s
  | S j', String _ rest => string_drop j' rest
  | S _, EmptyString => EmptyString
  end.


(** *** The text of a listing

    What a rebuild leaves in the buffer, as styled pieces in the order
    written: the header, then one line for each item that is not
    hidden. *)

(** The summary items of the header that are shown: the counts that are
    not zero. *)
Definition count_text (n : Z) (singular plural : string) : string :=
  dec n ++ " " ++ inflect n singular plural.

Definition bytes_text (ds : DiredState) : string :=
  fst (format_number MAX_FILENAME_SIZE (hflag ds) (total_bytes ds))
  ++ " " ++ inflect (total_bytes ds) "byte" "bytes".

Definition count_texts (ds : DiredState) : list string :=
  ((if truth (ndirs ds)
    then [count_text (ndirs ds) "directory" "directories"] else [])
   ++ (if truth (ndirs_hidden ds)
       then [count_text (ndirs_hidden ds) "hidden directory" "hidden directories"]
       else [])
   ++ (if truth (nfiles ds) then [count_text (nfiles ds) "file" "files"] else [])
   ++ (if truth (nfiles_hidden ds)
       then [count_text (nfiles_hidden ds) "hidden file" "hidden files"]
       else [])
   ++ (if truth (total_bytes ds) then [bytes_text ds] else []))%list.

(** The first item follows two blanks, each later one a comma and a
    blank. *)
Definition separated (texts : list string) : list string :=
  match texts with
  | [] => []
  | first :: rest => ("  " ++ first) :: map (fun t => ", " ++ t) rest
  end.

Definition empty_text (ds : DiredState) : string :=
  match count_texts ds with
  | [] => "  empty"
  | _ => ", empty"
  end.

(** The end of the directory line and the indentation of the summary. *)
Definition header_break : string := nl ++ "  ".

Definition header_pieces (ds : DiredState) : list (Z * string) :=
  ([ (DIRED_STYLE_HEADER, "  Directory of ");
     (DIRED_STYLE_DIRECTORY, path ds);
     (DIRED_STYLE_HEADER, header_break) ]
   ++ map (fun t => (DIRED_STYLE_HEADER, t)) (separated (count_texts ds))
   ++ (if int_add (int_add (int_add (ndirs ds) (ndirs_hidden ds)) (nfiles ds))
            (nfiles_hidden ds) =? 0
       then [(DIRED_STYLE_HEADER, empty_text ds)]
       else [])
   ++ [(DIRED_STYLE_HEADER, nl)])%list.

(** An optional column: written when its bit is in the mask. *)
Definition column_piece (ds : DiredState) (bit : Z) (text : string)
  : list (Z * string) :=
  if shown (details_mask ds) bit then [(DIRED_STYLE_NORMAL, text)] else [].

Definition name_style (dip : DiredItem) : Z :=
  if S_ISDIR (mode dip) then DIRED_STYLE_DIRECTORY else DIRED_STYLE_FILENAME.

(** The texts of the optional columns of an item's line. *)
Definition blocks_text (ds : DiredState) (dip : DiredItem) : string :=
  fmt_right (blockslen ds) (dec (nblocks (blocksize ds) (size dip))) ++ " ".
Definition mode_text (dip : DiredItem) : string := compute_attr (mode dip) ++ " ".
Definition links_text (ds : DiredState) (dip : DiredItem) : string :=
  fmt_right (linklen ds) (dec (wrap_int (nlink dip))) ++ " ".
Definition uid_text `{Host} (ds : DiredState) (dip : DiredItem) : string :=
  fmt_left (uidlen ds) (fst (format_uid MAX_FILENAME_SIZE (nflag ds) (uid dip))) ++ " ".
Definition gid_text `{Host} (ds : DiredState) (dip : DiredItem) : string :=
  fmt_left (gidlen ds) (fst (format_gid MAX_FILENAME_SIZE (nflag ds) (gid dip))) ++ " ".
Definition size_text (ds : DiredState) (dip : DiredItem) : string :=
  " " ++ fmt_right (sizelen ds)
           (fst (format_size MAX_FILENAME_SIZE (hflag ds) (mode dip) (rdev dip)
                   (size dip)))
      ++ "  ".
Definition date_text `{Host} (g : DiredGlobals) (dip : DiredItem) : string :=
  fst (format_date (dired_curtime g) MAX_FILENAME_SIZE (mtime dip)
         (dired_time_format g)) ++ "  ".

Definition mark_text (dip : DiredItem) : string := char_string (mark dip) ++ " ".
Definition link_text (target : string) : string := " -> " ++ target.

(** The line of an item: mark, the optional columns in their order, then
    in the style of the name the name, the trailing character and the
    target of a link, then the end of line. *)
Definition line_pieces `{Host} (g : DiredGlobals) (ds : DiredState) (dip : DiredItem)
  : list (Z * string) :=
  ([(DIRED_STYLE_NORMAL, mark_text dip)]
   ++ column_piece ds DIRED_SHOW_BLOCKS (blocks_text ds dip)
   ++ column_piece ds DIRED_SHOW_MODE (mode_text dip)
   ++ column_piece ds DIRED_SHOW_LINKS (links_text ds dip)
   ++ column_piece ds DIRED_SHOW_UID (uid_text ds dip)
   ++ column_piece ds DIRED_SHOW_GID (gid_text ds dip)
   ++ column_piece ds DIRED_SHOW_SIZE (size_text ds dip)
   ++ column_piece ds DIRED_SHOW_DATE (date_text g dip)
   ++ [(name_style dip, name dip)]
   ++ (if truth (get_trailchar (mode dip))
       then [(name_style dip, char_string (chr (get_trailchar (mode dip))))]
       else [])
   ++ (if S_ISLNK (mode dip) then
         match getentryslink MAX_FILENAME_SIZE (path ds) (name dip) with
         | Some target => [(name_style dip, link_text target)]
         | None => []
         end
       else [])
   ++ [(DIRED_STYLE_NORMAL, nl)])%list.

Definition listing_pieces `{Host} (g : DiredGlobals) (ds : DiredState)
  : list (Z * string) :=
  (header_pieces ds
   ++ flat_map (fun it => line_pieces g ds (opaque it)) (visible_items (items ds)))%list.

(** A writer that, started in style [st], returns [a], appends [pieces]
    and leaves the style [st']. *)
Definition writes {A : Type} (c : EB A) (st : Z) (a : A)
    (pieces : list (Z * string)) (st' : Z) : Prop :=
  forall b, b_cur_style b = st ->
    fst (c b) = a
    /\ b_text (snd (c b)) = (b_text b ++ pieces)%list
    /\ b_cur_style (snd (c b)) = st'.

(** * Properties *)

(** ** Permission string *)

Lemma string_of_list_ascii_length (l : list ascii) :
  String.length (string_of_list_ascii l) = length l.
Proof. induction l as [|c l IH]; simpl; congruence. Qed.

Lemma string_of_list_ascii_get (l : list ascii) (i : nat) :
  String.get i (string_of_list_ascii l) = l !! i.
Proof.
  revert i; induction l as [|c l IH]; intros [|i]; simpl; auto.
Qed.

Lemma put_if_length c i ch atts : length (put_if c i ch atts) = length atts.
Proof. destruct c; simpl; [apply length_insert | reflexivity]. Qed.

Lemma put_if_other c i j ch atts : i <> j -> put_if c i ch atts !! j = atts !! j.
Proof. intros Hij; destruct c; simpl; [by apply list_lookup_insert_ne | reflexivity]. Qed.

Lemma put_if_true i ch atts :
  (i < length atts)%nat -> put_if true i ch atts !! i = Some ch.
Proof. intros Hi; simpl; by apply list_lookup_insert_eq. Qed.

Lemma put_if_false i ch atts : put_if false i ch atts = atts.
Proof. reflexivity. Qed.

(** The list of characters [compute_attr] ends with has the ten cells of
    the pattern it starts from. *)
Lemma compute_attr_length (mode : Z) : String.length (compute_attr mode) = 10%nat.
Proof.
  unfold compute_attr.
  rewrite string_of_list_ascii_length, !put_if_length.
  destruct (negb (S_ISREG mode)); rewrite ?put_if_length; reflexivity.
Qed.

(** With the sticky bit set, the glyph [t] / [T] is stored in cell 6 (the
    group-execute cell), and cell 9 keeps the plain other-execute glyph. *)
Lemma compute_attr_sticky_cells (mode : Z) :
  has mode S_ISVTX = true ->
  char_at (compute_attr mode) 6 = Some (if has mode S_IXOTH then "t" else "T")%char
  /\ char_at (compute_attr mode) 9 = Some (if has mode S_IXOTH then "x" else "-")%char.
Proof.
  intros Hvtx. unfold char_at, compute_attr.
  rewrite !string_of_list_ascii_get, Hvtx. split.
  - apply put_if_true. rewrite !put_if_length.
    destruct (negb (S_ISREG mode)); rewrite ?put_if_length; simpl; lia.
  - rewrite put_if_other by lia.
    destruct (has mode S_IXOTH).
    + apply put_if_true. rewrite !put_if_length.
      destruct (negb (S_ISREG mode)); rewrite ?put_if_length; simpl; lia.
    + rewrite put_if_false. rewrite !put_if_other by lia.
      destruct (negb (S_ISREG mode)); rewrite ?put_if_other by lia; reflexivity.
Qed.

(** C3.  The permission string has ten characters for every mode, but the
    sticky glyph does not land in the other-execute position: for the mode
    of a world-writable sticky directory (octal 041777) the string is
    [drwxrwtrwx], with [t] at position 6 and plain [x] at position 9. *)
Theorem compute_attr_sticky_misplaced :
  (forall mode, String.length (compute_attr mode) = 10%nat)
  /\ has 0x43FF S_ISVTX = true
  /\ compute_attr 0x43FF = "drwxrwtrwx"
  /\ char_at (compute_attr 0x43FF) 9 = Some "x"%char
  /\ char_at (compute_attr 0x43FF) 6 = Some "t"%char.
Proof.
  split; [exact compute_attr_length |].
  assert (Hvtx : has 0x43FF S_ISVTX = true) by reflexivity.
  destruct (compute_attr_sticky_cells 0x43FF Hvtx) as [H6 H9].
  repeat split; try reflexivity; assumption.
Qed.

(** ** Machine integers *)

Lemma wrap_int_small (z : Z) : INT_MIN <= z <= INT_MAX -> wrap_int z = z.
Proof.
  unfold wrap_int, INT_MIN, INT_MAX. intros Hz.
  rewrite Z.mod_small by lia. lia.
Qed.

Lemma wrap_ll_small (z : Z) : LLONG_MIN <= z <= LLONG_MAX -> wrap_ll z = z.
Proof.
  unfold wrap_ll, LLONG_MIN, LLONG_MAX. intros Hz.
  rewrite Z.mod_small by lia. lia.
Qed.

Lemma wrap_int_add_l (a b : Z) : wrap_int (wrap_int a + b) = wrap_int (a + b).
Proof.
  unfold wrap_int.
  replace ((a + 2 ^ 31) mod 2 ^ 32 - 2 ^ 31 + b + 2 ^ 31)
    with ((a + 2 ^ 31) mod 2 ^ 32 + b) by lia.
  rewrite Zplus_mod_idemp_l. f_equal. f_equal. lia.
Qed.

Lemma wrap_ll_add_l (a b : Z) : wrap_ll (wrap_ll a + b) = wrap_ll (a + b).
Proof.
  unfold wrap_ll.
  replace ((a + 2 ^ 63) mod 2 ^ 64 - 2 ^ 63 + b + 2 ^ 63)
    with ((a + 2 ^ 63) mod 2 ^ 64 + b) by lia.
  rewrite Zplus_mod_idemp_l. f_equal. f_equal. lia.
Qed.

(** ** Filter: hidden flags *)

(** The flag the loop body stores is the disjunction of the two rules:
    the system artifact name itself starts with a dot, so the outer test
    of the code does not exclude it. *)
Lemma dired_item_hidden_spec (g : DiredGlobals) (p : string) :
  dired_item_hidden g p = of_bool (spec_hidden g p).
Proof.
  unfold dired_item_hidden, spec_hidden, spec_hidden_dot_file,
    spec_hidden_system_file, truth, lnot, strequal.
  destruct (starts_with_dot p) eqn:Hdot; simpl.
  - destruct (dired_show_dot_files g =? 0), (dired_show_ds_store g =? 0),
      (String.eqb p ".DS_Store"); reflexivity.
  - destruct (String.eqb_spec p ".DS_Store") as [-> | _]; [discriminate Hdot |].
    reflexivity.
Qed.

Lemma dired_filter_loop_cons (g : DiredGlobals) (c : FilterCounts)
    (it : StringItem) (rest : list StringItem) :
  dired_filter_loop g c (it :: rest)
  = (fst (dired_filter_loop g (fst (dired_filter_step g c it)) rest),
     snd (dired_filter_step g c it)
       :: snd (dired_filter_loop g (fst (dired_filter_step g c it)) rest)).
Proof.
  cbn [dired_filter_loop].
  destruct (dired_filter_step g c it) as [c1 it']. cbn [fst snd].
  destruct (dired_filter_loop g c1 rest) as [c2 rest']. reflexivity.
Qed.

Lemma dired_filter_loop_items (g : DiredGlobals) (its : list StringItem) :
  forall c,
    snd (dired_filter_loop g c its)
    = map (fun it => set_opaque (set_hidden (dired_item_hidden g (str it)) (opaque it)) it) its.
Proof.
  induction its as [|it rest IH]; intros c; [reflexivity |].
  rewrite dired_filter_loop_cons. cbn [snd map]. rewrite IH. reflexivity.
Qed.

Lemma dired_filter_files_items (g : DiredGlobals) (ds : DiredState) :
  items (dired_filter_files g ds)
  = map (fun it => set_opaque (set_hidden (dired_item_hidden g (str it)) (opaque it)) it)
      (items ds).
Proof.
  unfold dired_filter_files.
  rewrite <- (dired_filter_loop_items g (items ds)
                {| fc_total_bytes := 0; fc_ndirs := 0; fc_nfiles := 0;
                   fc_ndirs_hidden := 0; fc_nfiles_hidden := 0 |}).
  destruct (dired_filter_loop g _ (items ds)) as [c its]. reflexivity.
Qed.

(** C1.  After the filter ran, the items keep their names and order, and
    the hidden flag of each is the OR of the dot-file rule and the system
    file rule; so with system files not shown every item named
    [.DS_Store] is hidden, whatever the dot-file setting. *)
Theorem dired_filter_hidden_is_or (g : DiredGlobals) (ds : DiredState) :
  map str (items (dired_filter_files g ds)) = map str (items ds)
  /\ map (fun it => hidden (opaque it)) (items (dired_filter_files g ds))
     = map (fun it => of_bool (spec_hidden_dot_file g (str it)
                               || spec_hidden_system_file g (str it)))
         (items ds)
  /\ (dired_show_ds_store g = 0 ->
      Forall (fun it => str it = ".DS_Store" -> hidden (opaque it) = 1)
        (items (dired_filter_files g ds))).
Proof.
  rewrite dired_filter_files_items, !map_map. simpl.
  split; [reflexivity |]. split.
  - apply map_ext. intros it. apply dired_item_hidden_spec.
  - intros Hds.
    induction (items ds) as [|it rest IH]; cbn [map]; constructor; [| exact IH].
    cbn [str opaque set_opaque hidden set_hidden]. intros ->.
    rewrite dired_item_hidden_spec.
    unfold spec_hidden, spec_hidden_system_file. rewrite Hds.
    simpl. rewrite orb_true_r. reflexivity.
Qed.

Lemma dired_filter_hidden_is_or_witness :
  Forall (fun it => str it = ".DS_Store" -> hidden (opaque it) = 1)
    (items (dired_filter_files dired_globals_init
              (sample_state [sample_item 1 ".DS_Store" 0x81A4 6148;
                             sample_item 2 ".profile" 0x81A4 10]))).
Proof.
  apply (dired_filter_hidden_is_or dired_globals_init
           (sample_state [sample_item 1 ".DS_Store" 0x81A4 6148;
                          sample_item 2 ".profile" 0x81A4 10])).
  reflexivity.
Defined.

(** ** Filter: aggregate counters *)

Lemma wrap_int_idem (z : Z) : wrap_int (wrap_int z) = wrap_int z.
Proof. pose proof (wrap_int_add_l z 0) as H. rewrite !Z.add_0_r in H. exact H. Qed.

Lemma wrap_ll_idem (z : Z) : wrap_ll (wrap_ll z) = wrap_ll z.
Proof. pose proof (wrap_ll_add_l z 0) as H. rewrite !Z.add_0_r in H. exact H. Qed.

(** Counters that hold values of their C types. *)
Definition counts_normal (c : FilterCounts) : Prop :=
  wrap_ll (fc_total_bytes c) = fc_total_bytes c
  /\ wrap_int (fc_ndirs c) = fc_ndirs c
  /\ wrap_int (fc_nfiles c) = fc_nfiles c
  /\ wrap_int (fc_ndirs_hidden c) = fc_ndirs_hidden c
  /\ wrap_int (fc_nfiles_hidden c) = fc_nfiles_hidden c.

Lemma dired_filter_step_normal (g : DiredGlobals) (c : FilterCounts) (it : StringItem) :
  counts_normal c -> counts_normal (fst (dired_filter_step g c it)).
Proof.
  intros (Hb & Hd & Hf & Hdh & Hfh).
  unfold dired_filter_step, counts_normal, int_add, ll_add. cbn [fst].
  destruct (truth (dired_item_hidden g (str it)));
    destruct (S_ISDIR (mode (set_hidden _ (opaque it))));
    cbn [fc_total_bytes fc_ndirs fc_nfiles fc_ndirs_hidden fc_nfiles_hidden];
    rewrite ?wrap_int_idem, ?wrap_ll_idem; auto.
Qed.

(** The counters after the loop, from those before it and the items it
    leaves: each is the wrapped sum of its start value and the number (or
    the bytes) of the items of its class. *)
Lemma dired_filter_loop_counts (g : DiredGlobals) (its : list StringItem) :
  forall c, counts_normal c ->
    let r := dired_filter_loop g c its in
    fc_total_bytes (fst r) = wrap_ll (fc_total_bytes c + sum_sizes visible_file (snd r))
    /\ fc_ndirs (fst r) = wrap_int (fc_ndirs c + count_items visible_dir (snd r))
    /\ fc_nfiles (fst r) = wrap_int (fc_nfiles c + count_items visible_file (snd r))
    /\ fc_ndirs_hidden (fst r) = wrap_int (fc_ndirs_hidden c + count_items hidden_dir (snd r))
    /\ fc_nfiles_hidden (fst r) = wrap_int (fc_nfiles_hidden c + count_items hidden_file (snd r)).
Proof.
  induction its as [|it rest IH]; intros c Hc r; subst r.
  - destruct Hc as (Hb & Hd & Hf & Hdh & Hfh).
    cbn [dired_filter_loop fst snd sum_sizes count_items].
    rewrite !Z.add_0_r. auto.
  - rewrite dired_filter_loop_cons. cbn [fst snd].
    destruct (IH _ (dired_filter_step_normal g c it Hc)) as (Hb & Hd & Hf & Hdh & Hfh).
    rewrite Hb, Hd, Hf, Hdh, Hfh. clear IH Hb Hd Hf Hdh Hfh.
    set (rest' := snd (dired_filter_loop g _ rest)). clearbody rest'.
    unfold dired_filter_step. cbn [fst snd sum_sizes count_items opaque set_opaque].
    unfold visible_file, visible_dir, hidden_file, hidden_dir, is_dir, is_hidden.
    cbn [mode hidden set_hidden size].
    destruct (truth (dired_item_hidden g (str it)));
      destruct (S_ISDIR (mode (opaque it)));
      cbn [fc_total_bytes fc_ndirs fc_nfiles fc_ndirs_hidden fc_nfiles_hidden
           andb negb];
      unfold int_add, ll_add; rewrite ?wrap_int_add_l, ?wrap_ll_add_l;
      repeat split; f_equal; lia.
Qed.

Lemma count_items_bounds (p : DiredItem -> bool) (its : list StringItem) :
  0 <= count_items p its <= Z.of_nat (length its).
Proof.
  induction its as [|it rest IH]; cbn [count_items length]; [lia |].
  destruct (p (opaque it)); lia.
Qed.

Lemma count_items_split (p q : DiredItem -> bool) (its : list StringItem) :
  count_items (fun d => p d && negb (q d)) its + count_items (fun d => p d && q d) its
  = count_items p its.
Proof.
  induction its as [|it rest IH]; cbn [count_items]; [reflexivity |].
  destruct (p (opaque it)), (q (opaque it)); simpl; lia.
Qed.

(** C5.  After the filter ran on a listing whose number of items is an
    [int] and whose visible file sizes sum to a [long long], the visible
    and hidden directory counters add up to the number of directories,
    the visible and hidden file counters to the number of non-directories,
    and the byte counter is the sum of the sizes of the items that are
    neither hidden nor directories. *)
Theorem dired_filter_aggregates (g : DiredGlobals) (ds : DiredState) :
  let ds' := dired_filter_files g ds in
  Z.of_nat (length (items ds)) <= INT_MAX ->
  LLONG_MIN <= sum_sizes (fun d => negb (is_hidden d) && negb (is_dir d)) (items ds')
            <= LLONG_MAX ->
  ndirs ds' + ndirs_hidden ds' = count_items is_dir (items ds')
  /\ nfiles ds' + nfiles_hidden ds' = count_items (fun d => negb (is_dir d)) (items ds')
  /\ total_bytes ds'
     = sum_sizes (fun d => negb (is_hidden d) && negb (is_dir d)) (items ds').
Proof.
  intros ds' Hlen Hsum.
  assert (Hlen' : length (items ds') = length (items ds)).
  { subst ds'. rewrite dired_filter_files_items. apply length_map. }
  assert (Hsizes : sum_sizes (fun d => negb (is_hidden d) && negb (is_dir d)) (items ds')
                   = sum_sizes visible_file (items ds')).
  { clear. induction (items ds') as [|it rest IH]; cbn [sum_sizes]; [reflexivity |].
    rewrite IH. unfold visible_file.
    destruct (is_hidden (opaque it)), (is_dir (opaque it)); reflexivity. }
  rewrite Hsizes in *. clear Hsizes.
  revert Hsum Hlen'. subst ds'. unfold dired_filter_files.
  pose proof (dired_filter_loop_counts g (items ds)
                {| fc_total_bytes := 0; fc_ndirs := 0; fc_nfiles := 0;
                   fc_ndirs_hidden := 0; fc_nfiles_hidden := 0 |}) as Hloop.
  destruct (dired_filter_loop g _ (items ds)) as [c its].
  cbn [fst snd fc_total_bytes fc_ndirs fc_nfiles fc_ndirs_hidden fc_nfiles_hidden] in Hloop.
  destruct Hloop as (Hb & Hd & Hf & Hdh & Hfh);
    [repeat split; reflexivity |].
  cbn [items ndirs ndirs_hidden nfiles nfiles_hidden total_bytes set_filter_counts].
  intros Hsum Hlen'.
  pose proof (count_items_bounds visible_dir its).
  pose proof (count_items_bounds hidden_dir its).
  pose proof (count_items_bounds visible_file its).
  pose proof (count_items_bounds hidden_file its).
  rewrite Hb, Hd, Hf, Hdh, Hfh. cbn [Z.add].
  rewrite !wrap_int_small by (unfold INT_MIN, INT_MAX in *; lia).
  rewrite wrap_ll_small by assumption.
  repeat split.
  - apply (count_items_split is_dir is_hidden).
  - apply (count_items_split (fun d => negb (is_dir d)) is_hidden).
Qed.

Lemma dired_filter_aggregates_witness :
  let ds' := dired_filter_files
               {| dired_curtime := 0; dired_time_format := 0;
                  dired_show_dot_files := 0; dired_show_ds_store := 0;
                  dired_nflag := 0; dired_hflag := 0; dired_sort_mode := 17 |}
               (sample_state [sample_item 1 "a.txt" 0x81A4 100;
                              sample_item 2 ".hidden" 0x81A4 50;
                              sample_item 3 "sub" 0x41ED 4096]) in
  ndirs ds' + ndirs_hidden ds' = 1
  /\ nfiles ds' + nfiles_hidden ds' = 2
  /\ total_bytes ds' = 100.
Proof.
  apply (dired_filter_aggregates
           {| dired_curtime := 0; dired_time_format := 0;
              dired_show_dot_files := 0; dired_show_ds_store := 0;
              dired_nflag := 0; dired_hflag := 0; dired_sort_mode := 17 |}
           (sample_state [sample_item 1 "a.txt" 0x81A4 100;
                          sample_item 2 ".hidden" 0x81A4 50;
                          sample_item 3 "sub" 0x41ED 4096])).
  - vm_compute. discriminate.
  - vm_compute. split; discriminate.
Defined.

(** ** Sort comparator *)

Lemma land_lor_descending (m k : Z) :
  Z.land DIRED_SORT_DESCENDING k = 0 ->
  Z.land (Z.lor m DIRED_SORT_DESCENDING) k = Z.land m k.
Proof.
  intros Hk. rewrite Z.land_lor_distr_l, Hk. apply Z.lor_0_r.
Qed.

Lemma descending_set (m : Z) :
  Z.land m DIRED_SORT_DESCENDING = 0 ->
  truth (Z.land (Z.lor m DIRED_SORT_DESCENDING) DIRED_SORT_DESCENDING) = true.
Proof.
  intros Hm. rewrite Z.land_lor_distr_l, Hm. reflexivity.
Qed.

(** C2.  With grouping enabled, a directory compares before a
    non-directory (and a non-directory after a directory) whether or not
    the descending flag is set; between two items of the same kind the
    descending flag negates the result of the key and name comparison. *)
Theorem dired_sort_group_not_reversed `{Host} (ds : DiredState) (m : Z)
    (item1 item2 : StringItem) :
  truth (Z.land m DIRED_SORT_GROUP) = true ->
  Z.land m DIRED_SORT_DESCENDING = 0 ->
  let asc := set_sort_mode m ds in
  let desc := set_sort_mode (Z.lor m DIRED_SORT_DESCENDING) ds in
  (S_ISDIR (mode (opaque item1)) = true ->
   S_ISDIR (mode (opaque item2)) = false ->
   dired_sort_func asc item1 item2 = -1
   /\ dired_sort_func desc item1 item2 = -1
   /\ dired_sort_func asc item2 item1 = 1
   /\ dired_sort_func desc item2 item1 = 1)
  /\ (S_ISDIR (mode (opaque item1)) = S_ISDIR (mode (opaque item2)) ->
      dired_sort_func desc item1 item2
      = int_neg (dired_sort_func asc item1 item2)).
Proof.
  intros Hgroup Hasc asc desc. subst asc desc.
  unfold dired_sort_func, set_sort_mode. cbn [sort_mode set_sorted].
  rewrite (land_lor_descending m DIRED_SORT_GROUP),
    (land_lor_descending m DIRED_SORT_DATE),
    (land_lor_descending m DIRED_SORT_SIZE),
    (land_lor_descending m DIRED_SORT_EXTENSION) by reflexivity.
  rewrite descending_set by assumption.
  rewrite Hgroup, Hasc. cbn [truth Z.eqb negb andb].
  split.
  - intros Hd1 Hd2. rewrite Hd1, Hd2. repeat split; reflexivity.
  - intros Hsame. rewrite Hsame.
    rewrite Z.eqb_refl. cbn [negb]. reflexivity.
Qed.

Lemma dired_sort_group_not_reversed_witness :
  let ds := sample_state [] in
  let dir := sample_item 1 "zz" 0x41ED 4096 in
  let file := sample_item 2 "aa" 0x81A4 10 in
  let other := sample_item 3 "bb" 0x81A4 10 in
  @dired_sort_func sample_host (set_sort_mode 49 ds) dir file = -1
  /\ @dired_sort_func sample_host (set_sort_mode 49 ds) file other
     = int_neg (@dired_sort_func sample_host (set_sort_mode 17 ds) file other).
Proof.
  intros ds dir file other.
  destruct (@dired_sort_group_not_reversed sample_host ds 17 dir file
              eq_refl eq_refl) as [Hgroup _].
  destruct (@dired_sort_group_not_reversed sample_host ds 17 file other
              eq_refl eq_refl) as [_ Hneg].
  split.
  - exact (proj1 (proj2 (Hgroup eq_refl eq_refl))).
  - exact (Hneg eq_refl).
Defined.

(** ** Size formatter *)

Lemma substring_whole (s : string) (n : nat) :
  (String.length s <= n)%nat -> String.substring 0 n s = s.
Proof.
  revert n; induction s as [|c s IH]; intros [|n] Hn; simpl in *;
    try reflexivity; try lia.
  rewrite IH by lia. reflexivity.
Qed.

(** A buffer longer than the text holds all of it. *)
Lemma snprintf_fits (size : Z) (text : string) :
  slen text < size -> snprintf size text = (text, slen text).
Proof.
  unfold snprintf, slen. intros Hfit.
  destruct (size =? 0) eqn:H0; [lia |].
  destruct (size <? 0) eqn:Hneg; [lia |].
  rewrite substring_whole by lia. reflexivity.
Qed.

Lemma slen_append (a b : string) : slen (a ++ b) = slen a + slen b.
Proof.
  unfold slen. induction a as [|c a IH]; simpl String.length; [reflexivity |].
  simpl in IH. lia.
Qed.

Lemma format_metric_step (size : Z) (c c1 : ascii) (rest : string) (number : Z) :
  format_metric size (String c (String c1 rest)) number
  = if number >=? 1000 then
      if number <? 10000 then
        digits_suffix (Z.quot number 1000) (Z.rem (Z.quot number 100) 10) c1
      else format_metric size (String c1 rest) (Z.quot number 1000)
    else snprintf size (dec (wrap_int number) ++ char_string c).
Proof. reflexivity. Qed.

Lemma format_geek_step (size : Z) (c c1 : ascii) (rest : string) (number : Z) :
  format_geek size (String c (String c1 rest)) number
  = if number >=? 1000 then
      if number <? 10200 then
        digits_suffix (Z.quot number 1020) (Z.rem (Z.quot number 102) 10) c1
      else format_geek size (String c1 rest) (Z.shiftr number 10)
    else snprintf size (dec (wrap_int number) ++ char_string c).
Proof. reflexivity. Qed.

Lemma format_number_exact (size number : Z) :
  slen (dec number) < size ->
  format_number size 0 number = (dec number, slen (dec number)).
Proof. intros Hfit. unfold format_number. simpl. by apply snprintf_fits. Qed.

Lemma format_number_metric_plain (size number : Z) :
  0 <= number < 1000 -> slen (dec number) + 1 < size ->
  format_number size 2 number = (plain_byte_form number, slen (dec number) + 1).
Proof.
  intros Hn Hfit. unfold format_number, plain_byte_form.
  change (2 =? 0) with false. change (2 >? 1) with true. cbn iota.
  rewrite format_metric_step.
  destruct (number >=? 1000) eqn:Hge; [apply Z.geb_le in Hge; lia |].
  rewrite wrap_int_small by (unfold INT_MIN, INT_MAX; lia).
  rewrite snprintf_fits; rewrite slen_append; [reflexivity |].
  change (slen (char_string "B")) with 1. lia.
Qed.

Lemma format_number_geek_plain (size number : Z) :
  0 <= number < 1000 -> slen (dec number) + 1 < size ->
  format_number size 1 number = (plain_byte_form number, slen (dec number) + 1).
Proof.
  intros Hn Hfit. unfold format_number, plain_byte_form.
  change (1 =? 0) with false. change (1 >? 1) with false. cbn iota.
  rewrite format_geek_step.
  destruct (number >=? 1000) eqn:Hge; [apply Z.geb_le in Hge; lia |].
  rewrite wrap_int_small by (unfold INT_MIN, INT_MAX; lia).
  rewrite snprintf_fits; rewrite slen_append; [reflexivity |].
  change (slen (char_string "B")) with 1. lia.
Qed.

Lemma format_number_metric_decimal (size number : Z) :
  1000 <= number < 10000 ->
  format_number size 2 number
  = (one_decimal_form (number / 1000) ((number / 100) mod 10) "k", 4).
Proof.
  intros Hn. unfold format_number.
  change (2 =? 0) with false. change (2 >? 1) with true. cbn iota.
  rewrite format_metric_step.
  destruct (number >=? 1000) eqn:Hge;
    [| rewrite Z.geb_leb in Hge; apply Z.leb_gt in Hge; lia].
  destruct (number <? 10000) eqn:Hlt; [| apply Z.ltb_ge in Hlt; lia].
  rewrite !Z.quot_div_nonneg, Z.rem_mod_nonneg by
    (try apply Z.div_pos; lia).
  reflexivity.
Qed.

Lemma format_number_geek_decimal (size number : Z) :
  1000 <= number < 10200 ->
  format_number size 1 number
  = (one_decimal_form (number / 1020) ((number / 102) mod 10) "K", 4).
Proof.
  intros Hn. unfold format_number.
  change (1 =? 0) with false. change (1 >? 1) with false. cbn iota.
  rewrite format_geek_step.
  destruct (number >=? 1000) eqn:Hge;
    [| rewrite Z.geb_leb in Hge; apply Z.leb_gt in Hge; lia].
  destruct (number <? 10200) eqn:Hlt; [| apply Z.ltb_ge in Hlt; lia].
  rewrite !Z.quot_div_nonneg, Z.rem_mod_nonneg by
    (try apply Z.div_pos; lia).
  reflexivity.
Qed.

Lemma all_below_spec (p : Z -> bool) (k : nat) :
  all_below p k = true -> forall n, 0 <= n < Z.of_nat k -> p n = true.
Proof.
  unfold all_below. intros Hall n Hn.
  rewrite List.forallb_forall in Hall.
  rewrite <- (Z2Nat.id n) by lia. apply Hall.
  apply List.in_seq. lia.
Qed.

(** Counts below 1000 have at most three digits. *)
Lemma dec_below_1000 (n : Z) : 0 <= n < 1000 -> slen (dec n) <= 3.
Proof.
  intros Hn. apply Z.leb_le.
  apply (all_below_spec (fun n => slen (dec n) <=? 3) 1000); [| exact Hn].
  vm_compute. reflexivity.
Qed.

Lemma format_number_metric_integer (size number : Z) :
  5 <= size -> 10000 <= number < 1000000 ->
  format_number size 2 number
  = (integer_form (number / 1000) "k", slen (dec (number / 1000)) + 1).
Proof.
  intros Hsize Hn. unfold format_number, integer_form.
  change (2 =? 0) with false. change (2 >? 1) with true. cbn iota.
  rewrite format_metric_step.
  destruct (number >=? 1000) eqn:Hge;
    [| rewrite Z.geb_leb in Hge; apply Z.leb_gt in Hge; lia].
  destruct (number <? 10000) eqn:Hlt; [apply Z.ltb_lt in Hlt; lia |].
  rewrite Z.quot_div_nonneg by lia.
  assert (Hq : 10 <= number / 1000 < 1000).
  { split; [apply Z.div_le_lower_bound | apply Z.div_lt_upper_bound]; lia. }
  rewrite format_metric_step.
  destruct (number / 1000 >=? 1000) eqn:Hge'; [apply Z.geb_le in Hge'; lia |].
  rewrite wrap_int_small by (unfold INT_MIN, INT_MAX; lia).
  pose proof (dec_below_1000 (number / 1000) ltac:(lia)) as Hlen.
  rewrite snprintf_fits; rewrite slen_append; [reflexivity |].
  change (slen (char_string "k")) with 1. lia.
Qed.

Lemma format_number_geek_integer (size number : Z) :
  5 <= size -> 10200 <= number < 1024000 ->
  format_number size 1 number
  = (integer_form (number / 1024) "K", slen (dec (number / 1024)) + 1).
Proof.
  intros Hsize Hn. unfold format_number, integer_form.
  change (1 =? 0) with false. change (1 >? 1) with false. cbn iota.
  rewrite format_geek_step.
  destruct (number >=? 1000) eqn:Hge;
    [| rewrite Z.geb_leb in Hge; apply Z.leb_gt in Hge; lia].
  destruct (number <? 10200) eqn:Hlt; [apply Z.ltb_lt in Hlt; lia |].
  rewrite Z.shiftr_div_pow2 by lia. change (2 ^ 10) with 1024.
  assert (Hq : 9 <= number / 1024 < 1000).
  { split; [apply Z.div_le_lower_bound | apply Z.div_lt_upper_bound]; lia. }
  rewrite format_geek_step.
  destruct (number / 1024 >=? 1000) eqn:Hge'; [apply Z.geb_le in Hge'; lia |].
  rewrite wrap_int_small by (unfold INT_MIN, INT_MAX; lia).
  pose proof (dec_below_1000 (number / 1024) ltac:(lia)) as Hlen.
  rewrite snprintf_fits; rewrite slen_append; [reflexivity |].
  change (slen (char_string "K")) with 1. lia.
Qed.

(** Evaluates the powers of the units at the levels that occur. *)
Ltac eval_powers :=
  repeat match goal with
    | |- context [?u ^ Z.of_nat ?k] =>
        let v := eval vm_compute in (u ^ Z.of_nat k) in
        change (u ^ Z.of_nat k) with v
    | H : context [?u ^ Z.of_nat ?k] |- _ =>
        let v := eval vm_compute in (u ^ Z.of_nat k) in
        change (u ^ Z.of_nat k) with v in H
    end.

Lemma pow_unit_succ (unit : Z) (j : nat) :
  unit ^ Z.of_nat (S j) = unit * unit ^ Z.of_nat j.
Proof. rewrite Nat2Z.inj_succ, Z.pow_succ_r by lia. reflexivity. Qed.

Lemma level_reached_step (unit cutoff : Z) (j : nat) (number : Z) :
  0 < unit ->
  level_reached unit cutoff (S j) number ->
  level_reached unit cutoff j (number / unit).
Proof.
  intros Hunit Hreach. destruct j as [|j]; [exact I |].
  cbn [level_reached] in *. rewrite pow_unit_succ in Hreach.
  apply Z.div_le_lower_bound; lia.
Qed.

Lemma level_reached_cutoff (unit cutoff : Z) (j : nat) (number : Z) :
  0 < unit -> 0 <= cutoff ->
  level_reached unit cutoff (S j) number -> cutoff <= number.
Proof.
  intros Hunit Hcut Hreach. cbn [level_reached] in Hreach.
  assert (0 < unit ^ Z.of_nat j) by (apply Z.pow_pos_nonneg; lia). nia.
Qed.

Lemma scaled_count_step (unit : Z) (j : nat) (number : Z) :
  0 < unit ->
  scaled_count unit j (number / unit) = scaled_count unit (S j) number.
Proof.
  intros Hunit. unfold scaled_count. rewrite pow_unit_succ.
  assert (0 < unit ^ Z.of_nat j) by (apply Z.pow_pos_nonneg; lia).
  rewrite Z.div_div by lia. reflexivity.
Qed.

(** The metric loop takes [j] steps on a count that reaches level [j]. *)
Lemma format_metric_skip (size : Z) :
  forall (j : nat) (suffix : string) (number : Z),
    (j + 2 <= String.length suffix)%nat ->
    0 <= number ->
    level_reached 1000 10000 j number ->
    format_metric size suffix number
    = format_metric size (string_drop j suffix) (scaled_count 1000 j number).
Proof.
  induction j as [|j IH]; intros suffix number Hlen Hpos Hreach.
  - unfold scaled_count. cbn [string_drop Z.of_nat]. rewrite Z.pow_0_r, Z.div_1_r.
    reflexivity.
  - destruct suffix as [|c [|c1 rest]]; cbn [String.length] in Hlen; try lia.
    pose proof (level_reached_cutoff 1000 10000 j number ltac:(lia) ltac:(lia) Hreach).
    rewrite format_metric_step.
    destruct (number >=? 1000) eqn:Hge;
      [| rewrite Z.geb_leb in Hge; apply Z.leb_gt in Hge; lia].
    destruct (number <? 10000) eqn:Hlt; [apply Z.ltb_lt in Hlt; lia |].
    rewrite Z.quot_div_nonneg by lia.
    rewrite (IH (String c1 rest) (number / 1000));
      [| cbn [String.length]; lia | apply Z.div_pos; lia
       | apply level_reached_step; [lia | exact Hreach]].
    rewrite scaled_count_step by lia. reflexivity.
Qed.

Lemma format_geek_skip (size : Z) :
  forall (j : nat) (suffix : string) (number : Z),
    (j + 2 <= String.length suffix)%nat ->
    0 <= number ->
    level_reached 1024 10200 j number ->
    format_geek size suffix number
    = format_geek size (string_drop j suffix) (scaled_count 1024 j number).
Proof.
  induction j as [|j IH]; intros suffix number Hlen Hpos Hreach.
  - unfold scaled_count. cbn [string_drop Z.of_nat]. rewrite Z.pow_0_r, Z.div_1_r.
    reflexivity.
  - destruct suffix as [|c [|c1 rest]]; cbn [String.length] in Hlen; try lia.
    pose proof (level_reached_cutoff 1024 10200 j number ltac:(lia) ltac:(lia) Hreach).
    rewrite format_geek_step.
    destruct (number >=? 1000) eqn:Hge;
      [| rewrite Z.geb_leb in Hge; apply Z.leb_gt in Hge; lia].
    destruct (number <? 10200) eqn:Hlt; [apply Z.ltb_lt in Hlt; lia |].
    rewrite Z.shiftr_div_pow2 by lia. change (2 ^ 10) with 1024.
    rewrite (IH (String c1 rest) (number / 1024));
      [| cbn [String.length]; lia | apply Z.div_pos; lia
       | apply level_reached_step; [lia | exact Hreach]].
    rewrite scaled_count_step by lia. reflexivity.
Qed.

Lemma scaled_count_bounds (unit cutoff : Z) (j : nat) (number : Z) :
  0 < unit -> 0 <= number ->
  number < cutoff * unit ^ Z.of_nat j ->
  0 <= scaled_count unit j number < cutoff.
Proof.
  intros Hunit Hpos Hlt. unfold scaled_count.
  assert (0 < unit ^ Z.of_nat j) by (apply Z.pow_pos_nonneg; lia).
  split; [apply Z.div_pos; lia | apply Z.div_lt_upper_bound; lia].
Qed.

(** The text of a count below 1000 with its suffix. *)
Lemma snprintf_integer_form (size v : Z) (c : ascii) :
  5 <= size -> 0 <= v < 1000 ->
  fst (snprintf size (dec (wrap_int v) ++ char_string c)) = integer_form v c.
Proof.
  intros Hsize Hv.
  rewrite wrap_int_small by (unfold INT_MIN, INT_MAX; lia).
  pose proof (dec_below_1000 v Hv) as Hlen.
  rewrite snprintf_fits; [reflexivity |].
  rewrite slen_append. change (slen (char_string c)) with 1. lia.
Qed.

(** The metric form at level [j]. *)
Lemma format_metric_level (size : Z) (j : nat) (number : Z) :
  5 <= size -> (j <= 7)%nat -> 0 <= number ->
  in_level 1000 10000 j number ->
  fst (format_metric size "BkMGTPEZY" number)
  = human_form 1000 1000 100 "BkMGTPEZY" j number.
Proof.
  intros Hsize Hj Hpos [Hreach Hlt].
  rewrite (format_metric_skip size j) by (cbn [String.length]; lia || assumption).
  unfold human_form. cbv zeta.
  pose proof (scaled_count_bounds 1000 10000 j number ltac:(lia) Hpos Hlt) as Hv.
  set (v := scaled_count 1000 j number) in *. clearbody v.
  do 8 (destruct j as [|j];
        [cbn [string_drop]; rewrite format_metric_step;
         destruct (Z.ltb_spec v 1000) as [Hsmall | Hlarge];
         [destruct (v >=? 1000) eqn:Hge; [apply Z.geb_le in Hge; lia |];
          apply snprintf_integer_form; lia
         |destruct (v >=? 1000) eqn:Hge;
            [| rewrite Z.geb_leb in Hge; apply Z.leb_gt in Hge; lia];
          destruct (v <? 10000) eqn:Hten; [| apply Z.ltb_ge in Hten; lia];
          rewrite !Z.quot_div_nonneg, Z.rem_mod_nonneg by
            (try apply Z.div_pos; lia);
          reflexivity]
        |]).
  lia.
Qed.

Lemma format_geek_level (size : Z) (j : nat) (number : Z) :
  5 <= size -> (j <= 7)%nat -> 0 <= number ->
  in_level 1024 10200 j number ->
  fst (format_geek size "BKMGTPEZY" number)
  = human_form 1024 1020 102 "BKMGTPEZY" j number.
Proof.
  intros Hsize Hj Hpos [Hreach Hlt].
  rewrite (format_geek_skip size j) by (cbn [String.length]; lia || assumption).
  unfold human_form. cbv zeta.
  pose proof (scaled_count_bounds 1024 10200 j number ltac:(lia) Hpos Hlt) as Hv.
  set (v := scaled_count 1024 j number) in *. clearbody v.
  do 8 (destruct j as [|j];
        [cbn [string_drop]; rewrite format_geek_step;
         destruct (Z.ltb_spec v 1000) as [Hsmall | Hlarge];
         [destruct (v >=? 1000) eqn:Hge; [apply Z.geb_le in Hge; lia |];
          apply snprintf_integer_form; lia
         |destruct (v >=? 1000) eqn:Hge;
            [| rewrite Z.geb_leb in Hge; apply Z.leb_gt in Hge; lia];
          destruct (v <? 10200) eqn:Hten; [| apply Z.ltb_ge in Hten; lia];
          rewrite !Z.quot_div_nonneg, Z.rem_mod_nonneg by
            (try apply Z.div_pos; lia);
          reflexivity]
        |]).
  lia.
Qed.

(** Every count of an [off_t] is at one of the first six levels of each
    mode. *)
Lemma in_level_covers (number : Z) :
  0 <= number <= LLONG_MAX ->
  exists j k, (j <= 5)%nat /\ (k <= 5)%nat
              /\ in_level 1000 10000 j number /\ in_level 1024 10200 k number.
Proof.
  intros Hn. unfold LLONG_MAX in Hn.
  assert (Hmetric : exists j, (j <= 5)%nat /\ in_level 1000 10000 j number).
  { destruct (Z.lt_ge_cases number (10000 * 1000 ^ Z.of_nat 0));
      [exists 0%nat; split; [lia |]; split; [exact I | assumption] |].
    destruct (Z.lt_ge_cases number (10000 * 1000 ^ Z.of_nat 1));
      [exists 1%nat; split; [lia |]; split; assumption |].
    destruct (Z.lt_ge_cases number (10000 * 1000 ^ Z.of_nat 2));
      [exists 2%nat; split; [lia |]; split; assumption |].
    destruct (Z.lt_ge_cases number (10000 * 1000 ^ Z.of_nat 3));
      [exists 3%nat; split; [lia |]; split; assumption |].
    destruct (Z.lt_ge_cases number (10000 * 1000 ^ Z.of_nat 4));
      [exists 4%nat; split; [lia |]; split; assumption |].
    exists 5%nat. split; [lia |]. split; [assumption |].
    eval_powers. lia. }
  assert (Hgeek : exists k, (k <= 5)%nat /\ in_level 1024 10200 k number).
  { destruct (Z.lt_ge_cases number (10200 * 1024 ^ Z.of_nat 0));
      [exists 0%nat; split; [lia |]; split; [exact I | assumption] |].
    destruct (Z.lt_ge_cases number (10200 * 1024 ^ Z.of_nat 1));
      [exists 1%nat; split; [lia |]; split; assumption |].
    destruct (Z.lt_ge_cases number (10200 * 1024 ^ Z.of_nat 2));
      [exists 2%nat; split; [lia |]; split; assumption |].
    destruct (Z.lt_ge_cases number (10200 * 1024 ^ Z.of_nat 3));
      [exists 3%nat; split; [lia |]; split; assumption |].
    destruct (Z.lt_ge_cases number (10200 * 1024 ^ Z.of_nat 4));
      [exists 4%nat; split; [lia |]; split; assumption |].
    exists 5%nat. split; [lia |]. split; [assumption |].
    eval_powers. lia. }
  destruct Hmetric as (j & Hj & Hjl), Hgeek as (k & Hk & Hkl).
  exists j, k. auto.
Qed.




(** ** Column layout *)

Lemma int_add_small (a b : Z) : INT_MIN <= a + b <= INT_MAX -> int_add a b = a + b.
Proof. apply wrap_int_small. Qed.

Lemma int_sub_small (a b : Z) : INT_MIN <= a - b <= INT_MAX -> int_sub a b = a - b.
Proof. apply wrap_int_small. Qed.

Lemma clamp_int_bounds (a b c : Z) : b <= c -> b <= clamp_int a b c <= c.
Proof.
  intros Hbc. unfold clamp_int.
  destruct (a <? b) eqn:Hlt; [lia |].
  destruct (a >? c) eqn:Hgt; [lia |].
  apply Z.ltb_ge in Hlt. rewrite Z.gtb_ltb in Hgt. apply Z.ltb_ge in Hgt. lia.
Qed.

Lemma raise_to_lower (x len : Z) : x <= raise_to x len.
Proof. unfold raise_to. destruct (Z.ltb_spec x len); lia. Qed.

Lemma dired_columns_step_nonneg `{Host} (g : DiredGlobals) (ds : DiredState)
    (w : ColumnWidths) (it : StringItem) :
  widths_nonneg w -> widths_nonneg (dired_columns_step g ds w it).
Proof.
  intros (Hb & Hm & Hl & Hu & Hg & Hs & Hd & Hn).
  unfold dired_columns_step, widths_nonneg.
  destruct (details_flag ds =? DIRED_DETAILS_HIDE);
    cbn [cw_blockslen cw_modelen cw_linklen cw_uidlen cw_gidlen cw_sizelen
         cw_datelen cw_namelen];
    repeat split;
    try assumption; try lia;
    match goal with
    | |- 0 <= raise_to ?x ?len => pose proof (raise_to_lower x len); lia
    end.
Qed.

(** The widths the measurement caches are never negative, which is what
    the layout properties below assume of them. *)
Lemma dired_compute_columns_nonneg `{Host} (g : DiredGlobals) (ds : DiredState) :
  let ds' := snd (dired_compute_columns g ds) in
  0 <= sizelen ds' /\ 0 <= datelen ds' /\ 0 <= modelen ds'
  /\ 0 <= uidlen ds' /\ 0 <= gidlen ds' /\ 0 <= linklen ds'.
Proof.
  unfold dired_compute_columns. cbn [snd].
  set (ds0 := set_column_flags _ _ _ ds).
  set (g0 := set_curtime time_now g).
  assert (Hfold : forall its w, widths_nonneg w ->
                    widths_nonneg (fold_left (dired_columns_step g0 ds0) its w)).
  { induction its as [|it rest IH]; intros w Hw; cbn [fold_left]; [exact Hw |].
    apply IH. apply dired_columns_step_nonneg. exact Hw. }
  destruct (Hfold (items ds0)
              {| cw_blockslen := 0; cw_modelen := 0; cw_linklen := 0;
                 cw_uidlen := 0; cw_gidlen := 0; cw_sizelen := 0;
                 cw_datelen := 0; cw_namelen := 0 |})
    as (Hb & Hm & Hl & Hu & Hg & Hs & Hd & Hn);
    [unfold widths_nonneg; cbn; lia |].
  cbn [sizelen datelen modelen uidlen gidlen linklen set_column_widths].
  repeat split; assumption.
Qed.

(** Replaces the [int] operations of the goal by the mathematical ones,
    innermost first, when [lia] finds the results in range. *)
Ltac int_arith :=
  repeat match goal with
    | |- context [int_add ?a ?b] =>
        rewrite (int_add_small a b) by (unfold INT_MIN, INT_MAX; lia)
    | |- context [int_sub ?a ?b] =>
        rewrite (int_sub_small a b) by (unfold INT_MIN, INT_MAX; lia)
    end.

(** In auto mode the mask is decided column by column by the sign of the
    remaining budget; owner and group are also dropped when [nflag] is 2,
    and the block count is never in the mask. *)
Lemma dired_layout_auto (ds : DiredState) (width : Z) :
  details_flag ds = DIRED_DETAILS_AUTO ->
  layout_in_range ds width ->
  let mask := fst (dired_layout ds width) in
  shown mask DIRED_SHOW_SIZE = negb (budget_size ds width <? 0)
  /\ shown mask DIRED_SHOW_DATE = negb (budget_date ds width <? 0)
  /\ shown mask DIRED_SHOW_MODE = negb (budget_mode ds width <? 0)
  /\ shown mask DIRED_SHOW_UID = negb ((nflag ds =? 2) || (budget_uid ds width <? 0))
  /\ shown mask DIRED_SHOW_GID = negb ((nflag ds =? 2) || (budget_gid ds width <? 0))
  /\ shown mask DIRED_SHOW_LINKS = negb (budget_links ds width <? 0)
  /\ shown mask DIRED_SHOW_BLOCKS = false.
Proof.
  intros Hauto (Hs & Hd & Hm & Hu & Hg & Hl & Hsum & Hw) mask. subst mask.
  pose proof (clamp_int_bounds (namelen ds) 16 40 ltac:(lia)) as Hname.
  unfold dired_layout, budget_links, budget_gid, budget_uid, budget_mode,
    budget_date, budget_size, name_column.
  rewrite Hauto. change (DIRED_DETAILS_AUTO =? DIRED_DETAILS_HIDE) with false.
  change (DIRED_DETAILS_AUTO =? DIRED_DETAILS_AUTO) with true. cbn iota.
  destruct (nflag ds =? 2); int_arith; cbn [fst orb];
    repeat match goal with
      | |- context [?w <? 0] => destruct (w <? 0)
      end;
    repeat split; reflexivity.
Qed.

(** Destructs every sign test of the goal, keeping the inequalities. *)
Ltac sign_cases :=
  repeat match goal with
    | |- context [?w <? 0] => destruct (Z.ltb_spec w 0)
    end.




(** C7, as the code has it.  In auto mode each of size, date,
    permission-mode, owner, group and link-count is shown exactly when the
    budget left after charging it, in this order, is not negative; owner
    and group are dropped, and not charged, when [nflag] is 2 (the
    setting after name and numeric); the block-count column is never
    shown. *)
Theorem dired_layout_auto_priority (ds : DiredState) (width : Z) :
  details_flag ds = DIRED_DETAILS_AUTO ->
  layout_in_range ds width ->
  let mask := fst (dired_layout ds width) in
  shown mask DIRED_SHOW_SIZE = (0 <=? budget_size ds width)
  /\ shown mask DIRED_SHOW_DATE = (0 <=? budget_date ds width)
  /\ shown mask DIRED_SHOW_MODE = (0 <=? budget_mode ds width)
  /\ shown mask DIRED_SHOW_UID
     = negb (nflag ds =? 2) && (0 <=? budget_uid ds width)
  /\ shown mask DIRED_SHOW_GID
     = negb (nflag ds =? 2) && (0 <=? budget_gid ds width)
  /\ shown mask DIRED_SHOW_LINKS = (0 <=? budget_links ds width)
  /\ shown mask DIRED_SHOW_BLOCKS = false.
Proof.
  intros Hauto Hrange mask. subst mask.
  destruct (dired_layout_auto ds width Hauto Hrange)
    as (Hsz & Hdt & Hmd & Hui & Hgi & Hln & Hbl).
  rewrite Hsz, Hdt, Hmd, Hui, Hgi, Hln, Hbl.
  rewrite !negb_orb, !Z.leb_antisym. repeat split; reflexivity.
Qed.

Lemma dired_layout_auto_priority_witness :
  let mask := fst (dired_layout (sample_columns 0 2) 50) in
  shown mask DIRED_SHOW_SIZE = true
  /\ shown mask DIRED_SHOW_UID = false
  /\ shown mask DIRED_SHOW_BLOCKS = false.
Proof.
  destruct (dired_layout_auto_priority (sample_columns 0 2) 50)
    as (Hsz & _ & _ & Hui & _ & _ & Hbl).
  - reflexivity.
  - unfold layout_in_range. cbn. lia.
  - cbv zeta. rewrite Hsz, Hui, Hbl. repeat split; reflexivity.
Defined.

(** C7 as stated fails for the numeric setting: with [nflag] 1 the owner
    and group are printed as numbers (the name [root] of id 0 is not
    used), and their columns stay in the mask of a wide display. *)
Lemma dired_layout_numeric_owner_shown :
  fst (@format_uid sample_host 32 0 0) = "root"
  /\ fst (@format_uid sample_host 32 1 0) = "0"
  /\ fst (@format_gid sample_host 32 1 0) = "0"
  /\ details_flag (sample_columns 0 1) = DIRED_DETAILS_AUTO
  /\ shown (fst (dired_layout (sample_columns 0 1) 100)) DIRED_SHOW_UID = true
  /\ shown (fst (dired_layout (sample_columns 0 1) 100)) DIRED_SHOW_GID = true.
Proof. repeat split; reflexivity. Qed.

(** C10.  In auto mode the budget only decreases along the priority
    order, so once a column fails the budget test every later
    width-checked column is dropped too (owner and group being tested
    against the budget unless [nflag] is 2). *)
Theorem dired_layout_drop_is_final (ds : DiredState) (width : Z) :
  details_flag ds = DIRED_DETAILS_AUTO ->
  layout_in_range ds width ->
  let mask := fst (dired_layout ds width) in
  let dropped bit := shown mask bit = false in
  (budget_links ds width <= budget_gid ds width
   /\ budget_gid ds width <= budget_uid ds width
   /\ budget_uid ds width <= budget_mode ds width
   /\ budget_mode ds width <= budget_date ds width
   /\ budget_date ds width <= budget_size ds width)
  /\ (dropped DIRED_SHOW_SIZE ->
      dropped DIRED_SHOW_DATE /\ dropped DIRED_SHOW_MODE /\ dropped DIRED_SHOW_UID
      /\ dropped DIRED_SHOW_GID /\ dropped DIRED_SHOW_LINKS)
  /\ (dropped DIRED_SHOW_DATE ->
      dropped DIRED_SHOW_MODE /\ dropped DIRED_SHOW_UID
      /\ dropped DIRED_SHOW_GID /\ dropped DIRED_SHOW_LINKS)
  /\ (dropped DIRED_SHOW_MODE ->
      dropped DIRED_SHOW_UID /\ dropped DIRED_SHOW_GID /\ dropped DIRED_SHOW_LINKS)
  /\ (nflag ds <> 2 -> dropped DIRED_SHOW_UID ->
      dropped DIRED_SHOW_GID /\ dropped DIRED_SHOW_LINKS)
  /\ (nflag ds <> 2 -> dropped DIRED_SHOW_GID -> dropped DIRED_SHOW_LINKS).
Proof.
  intros Hauto Hrange mask dropped. subst dropped mask. cbv beta.
  destruct (dired_layout_auto ds width Hauto Hrange)
    as (Hsz & Hdt & Hmd & Hui & Hgi & Hln & Hbl).
  destruct Hrange as (Hs & Hd & Hm & Hu & Hg & Hl & Hsum & Hw).
  rewrite Hsz, Hdt, Hmd, Hui, Hgi, Hln.
  unfold budget_links, budget_gid, budget_uid, budget_mode, budget_date,
    budget_size.
  destruct (Z.eqb_spec (nflag ds) 2) as [Hn | Hn]; cbn [orb];
    sign_cases; cbn [negb];
    repeat split; intros; try reflexivity; try discriminate; try lia;
    try contradiction.
Qed.

Lemma dired_layout_drop_is_final_witness :
  let mask := fst (dired_layout (sample_columns 0 0) 30) in
  shown mask DIRED_SHOW_DATE = false
  /\ shown mask DIRED_SHOW_MODE = false
  /\ shown mask DIRED_SHOW_UID = false
  /\ shown mask DIRED_SHOW_GID = false
  /\ shown mask DIRED_SHOW_LINKS = false.
Proof.
  destruct (dired_layout_drop_is_final (sample_columns 0 0) 30)
    as (_ & _ & Hdate & _).
  - reflexivity.
  - unfold layout_in_range. cbn. lia.
  - cbv zeta in Hdate |- *.
    destruct (Hdate eq_refl) as (Hmd & Hui & Hgi & Hln).
    repeat split; assumption || reflexivity.
Defined.

(** ** Time-format variable *)

(** The outcome of the setter once a format in range was chosen. *)
Lemma dired_time_format_accept (g : DiredGlobals) (vp_modified format : Z) :
  0 <= format <= TF_MAX ->
  let r := if negb (dired_time_format g =? format)
           then (VAR_NUMBER, set_time_format format g, 1)
           else (VAR_NUMBER, g, vp_modified) in
  fst (fst r) = VAR_NUMBER /\ dired_time_format (snd (fst r)) = format.
Proof.
  intros Hrange r. subst r.
  destruct (Z.eqb_spec (dired_time_format g) format) as [Heq | Hne];
    cbn [negb fst snd]; split; auto.
Qed.

Lemma token_is_told_apart `{Host} (t u : string) :
  tokens_told_apart strxcmp ->
  In t (map fst spec_time_format_tokens) ->
  In u (map fst spec_time_format_tokens) ->
  token_is t u = String.eqb t u.
Proof.
  intros Hapart Ht Hu. unfold token_is, truth, lnot.
  destruct (String.eqb_spec t u) as [Heq | Hne].
  - apply (Hapart t u Ht Hu) in Heq. rewrite Heq. reflexivity.
  - destruct (Z.eqb_spec (strxcmp t u) 0) as [H0 | H0]; [| reflexivity].
    apply (Hapart t u Ht Hu) in H0. contradiction.
Qed.

Lemma loose_compare_told_apart : tokens_told_apart loose_compare.
Proof.
  intros t u Ht Hu. cbn [spec_time_format_tokens map fst In] in Ht, Hu.
  repeat (destruct Ht as [<- | Ht]; [| try contradiction]);
    repeat (destruct Hu as [<- | Hu]; [| try contradiction]);
    vm_compute; split; intros Heq; first [reflexivity | discriminate Heq].
Qed.

(** C9, as the code has it.  The setter leaves the recognition of a token
    to the host's comparison: a string that the comparison equates with a
    token of the table is accepted and installs the format of the first
    such token; a string it equates with none is rejected, the variables
    (with the current time format) and the modification mark being left
    as they were.  The eight tokens themselves are accepted with their
    formats whenever the comparison tells them apart. *)
Theorem dired_time_format_set_value_tokens (H : Host) (g : DiredGlobals)
    (vp_modified format : Z) :
  (forall str f, first_token_format str = Some f ->
     let r := dired_time_format_set_value g vp_modified (Some str) format in
     fst (fst r) = VAR_NUMBER /\ dired_time_format (snd (fst r)) = f)
  /\ (forall str, first_token_format str = None ->
        dired_time_format_set_value g vp_modified (Some str) format
        = (VAR_UNKNOWN, g, vp_modified))
  /\ (tokens_told_apart strxcmp ->
      forall token f, In (token, f) spec_time_format_tokens ->
        first_token_format token = Some f).
Proof.
  split; [| split].
  - intros str f Hfirst r. subst r.
    unfold first_token_format in Hfirst.
    unfold dired_time_format_set_value.
    cbn [spec_time_format_tokens List.find fst] in Hfirst.
    repeat match type of Hfirst with
      | context [token_is str ?t] =>
          destruct (token_is str t);
          [cbn [option_map snd] in Hfirst; injection Hfirst as <-;
           apply dired_time_format_accept; unfold TF_MAX, TF_SECONDS;
           cbv; split; discriminate |]
      end.
    discriminate Hfirst.
  - intros str Hfirst.
    unfold first_token_format in Hfirst.
    unfold dired_time_format_set_value.
    cbn [spec_time_format_tokens List.find fst] in Hfirst.
    repeat match type of Hfirst with
      | context [token_is str ?t] =>
          destruct (token_is str t);
          [cbn [option_map snd] in Hfirst; discriminate Hfirst |]
      end.
    reflexivity.
  - intros Hapart token f Hin.
    assert (Htoken : In token (map fst spec_time_format_tokens))
      by (apply (in_map fst) in Hin; exact Hin).
    unfold first_token_format.
    cbn [spec_time_format_tokens List.find fst].
    rewrite !(token_is_told_apart token)
      by (assumption || (cbn [spec_time_format_tokens map fst In]; tauto)).
    cbn [spec_time_format_tokens In] in Hin.
    repeat (destruct Hin as [Hin | Hin];
            [injection Hin as <- <-; reflexivity |]).
    contradiction.
Qed.

Lemma dired_time_format_set_value_tokens_witness :
  dired_time_format
    (snd (fst (@dired_time_format_set_value loose_host dired_globals_init 0
                 (Some "dos-long") 0))) = TF_DOS_LONG
  /\ @dired_time_format_set_value loose_host dired_globals_init 0 (Some "iso") 0
     = (VAR_UNKNOWN, dired_globals_init, 0).
Proof.
  destruct (dired_time_format_set_value_tokens loose_host dired_globals_init 0 0)
    as (Haccept & Hreject & Htokens).
  split.
  - apply (Haccept "dos-long" TF_DOS_LONG).
    apply (Htokens loose_compare_told_apart). cbn. tauto.
  - apply Hreject. reflexivity.
Defined.

(** C9 as stated fails: with a comparison that ignores case, dashes and
    underscores, strings that are none of the eight tokens are accepted
    and change the time format. *)
Lemma dired_time_format_accepts_variant :
  ~ In "DOS" (map fst spec_time_format_tokens)
  /\ @dired_time_format_set_value loose_host dired_globals_init 0 (Some "DOS") 0
     = (VAR_NUMBER, set_time_format TF_DOS dired_globals_init, 1)
  /\ ~ In "Touch_Long" (map fst spec_time_format_tokens)
  /\ @dired_time_format_set_value loose_host dired_globals_init 0
       (Some "Touch_Long") 0
     = (VAR_NUMBER, set_time_format TF_TOUCH_LONG dired_globals_init, 1).
Proof.
  assert (Hnot : forall str,
             forallb (fun t => negb (String.eqb str t))
               (map fst spec_time_format_tokens) = true ->
             ~ In str (map fst spec_time_format_tokens)).
  { intros str Hall Hin. rewrite List.forallb_forall in Hall.
    specialize (Hall str Hin). rewrite String.eqb_refl in Hall.
    discriminate Hall. }
  split; [apply Hnot; reflexivity |].
  split; [reflexivity |].
  split; [apply Hnot; reflexivity |].
  reflexivity.
Qed.

(** ** Update orchestrator: the dirty bits *)

Lemma truth_land_bit (flags k : Z) :
  0 <= k -> truth (Z.land flags (2 ^ k)) = Z.testbit flags k.
Proof.
  intros Hk. unfold truth.
  destruct (Z.testbit flags k) eqn:Hbit.
  - destruct (Z.eqb_spec (Z.land flags (2 ^ k)) 0) as [H0 | _]; [| reflexivity].
    apply (f_equal (fun z => Z.testbit z k)) in H0.
    rewrite Z.land_spec, Hbit, Z.pow2_bits_true, Z.bits_0 in H0 by lia.
    discriminate H0.
  - replace (Z.land flags (2 ^ k)) with 0; [reflexivity |].
    symmetry. apply Z.bits_inj'. intros n Hn.
    rewrite Z.land_spec, Z.bits_0, Z.pow2_bits_eqb by lia.
    destruct (Z.eqb_spec k n) as [<- | _];
      [rewrite Hbit; reflexivity | apply andb_false_r].
Qed.

Lemma testbit_raise_bit (c : bool) (j k flags : Z) :
  0 <= j -> 0 <= k ->
  Z.testbit (raise_bit c (2 ^ j) flags) k = Z.testbit flags k || (c && (j =? k)).
Proof.
  intros Hj Hk. unfold raise_bit. destruct c; cbn [andb].
  - rewrite Z.lor_spec, Z.pow2_bits_eqb by lia. reflexivity.
  - rewrite orb_false_r. reflexivity.
Qed.

Lemma testbit_cascade (j k flags : Z) :
  0 <= j -> 0 <= k ->
  Z.testbit (cascade (2 ^ j) flags) k
  = Z.testbit flags k || (Z.testbit flags j && (3 =? k)).
Proof.
  intros Hj Hk. unfold cascade. rewrite truth_land_bit by lia.
  destruct (Z.testbit flags j); cbn [andb].
  - change DIRED_UPDATE_REBUILD with (2 ^ 3).
    rewrite Z.lor_spec, Z.pow2_bits_eqb by lia. reflexivity.
  - rewrite orb_false_r. reflexivity.
Qed.

Lemma dired_sort_stage_flags `{Host} (g : DiredGlobals) (ds : DiredState) (flags : Z) :
  fst (dired_sort_stage g ds flags)
  = cascade DIRED_UPDATE_SORT (raise_bit (sort_changed g ds) DIRED_UPDATE_SORT flags).
Proof.
  unfold dired_sort_stage, cascade, raise_bit, sort_changed.
  destruct (truth (Z.land _ DIRED_UPDATE_SORT)); reflexivity.
Qed.

Lemma dired_sort_stage_keeps `{Host} (g : DiredGlobals) (ds : DiredState) (flags : Z) :
  let ds' := snd (dired_sort_stage g ds flags) in
  filter_changed g ds' = filter_changed g ds
  /\ columns_changed g ds' = columns_changed g ds.
Proof.
  unfold dired_sort_stage.
  destruct (truth (Z.land _ DIRED_UPDATE_SORT)); split; reflexivity.
Qed.

Lemma dired_filter_stage_flags (g : DiredGlobals) (ds : DiredState) (flags : Z) :
  fst (dired_filter_stage g ds flags)
  = cascade DIRED_UPDATE_FILTER
      (raise_bit (filter_changed g ds) DIRED_UPDATE_FILTER flags).
Proof.
  unfold dired_filter_stage, cascade, raise_bit, filter_changed.
  destruct (truth (Z.land _ DIRED_UPDATE_FILTER)); reflexivity.
Qed.

Lemma dired_filter_stage_keeps (g : DiredGlobals) (ds : DiredState) (flags : Z) :
  columns_changed g (snd (dired_filter_stage g ds flags)) = columns_changed g ds.
Proof.
  unfold dired_filter_stage.
  destruct (truth (Z.land _ DIRED_UPDATE_FILTER)); [| reflexivity].
  cbn [snd]. unfold dired_filter_files.
  destruct (dired_filter_loop g _ (items ds)) as [c its]. reflexivity.
Qed.

Lemma dired_columns_stage_flags `{Host} (g : DiredGlobals) (ds : DiredState) (flags : Z) :
  fst (dired_columns_stage g ds flags)
  = cascade DIRED_UPDATE_COLUMNS
      (raise_bit (columns_changed g ds) DIRED_UPDATE_COLUMNS flags).
Proof.
  unfold dired_columns_stage, cascade, raise_bit, columns_changed.
  destruct (truth (Z.land _ DIRED_UPDATE_COLUMNS)); reflexivity.
Qed.

(** The final [flags] of the three stages. *)
Lemma dired_update_stages_flags `{Host} (g : DiredGlobals) (ds : DiredState) (flags : Z) :
  fst (dired_update_stages g ds flags)
  = cascade DIRED_UPDATE_COLUMNS
      (raise_bit (columns_changed g ds) DIRED_UPDATE_COLUMNS
         (cascade DIRED_UPDATE_FILTER
            (raise_bit (filter_changed g ds) DIRED_UPDATE_FILTER
               (cascade DIRED_UPDATE_SORT
                  (raise_bit (sort_changed g ds) DIRED_UPDATE_SORT flags))))).
Proof.
  unfold dired_update_stages.
  pose proof (dired_sort_stage_flags g ds flags) as Hsort.
  pose proof (dired_sort_stage_keeps g ds flags) as [Hkf Hkc].
  destruct (dired_sort_stage g ds flags) as [flags1 ds1]. cbn [fst snd] in *.
  pose proof (dired_filter_stage_flags g ds1 flags1) as Hfilter.
  pose proof (dired_filter_stage_keeps g ds1 flags1) as Hkc'.
  destruct (dired_filter_stage g ds1 flags1) as [flags2 ds2]. cbn [fst snd] in *.
  rewrite dired_columns_stage_flags, Hkc', Hkc, Hfilter, Hkf, Hsort. reflexivity.
Qed.

(** Any upstream bit, passed in or detected, ends with the rebuild bit. *)
Lemma dired_update_stages_rebuild `{Host} (g : DiredGlobals) (ds : DiredState) (flags : Z) :
  upstream_requested flags || config_changed g ds = true ->
  truth (Z.land (fst (dired_update_stages g ds flags)) DIRED_UPDATE_REBUILD) = true.
Proof.
  unfold upstream_requested, config_changed. rewrite dired_update_stages_flags.
  change DIRED_UPDATE_REBUILD with (2 ^ 3).
  change DIRED_UPDATE_SORT with (2 ^ 0).
  change DIRED_UPDATE_FILTER with (2 ^ 1).
  change DIRED_UPDATE_COLUMNS with (2 ^ 2).
  rewrite !truth_land_bit by lia.
  repeat (rewrite ?testbit_cascade, ?testbit_raise_bit by lia).
  cbn [Z.eqb Pos.eqb].
  destruct (Z.testbit flags 0), (Z.testbit flags 1), (Z.testbit flags 2),
    (Z.testbit flags 3), (sort_changed g ds), (filter_changed g ds),
    (columns_changed g ds); cbn; intros Hreq; congruence.
Qed.

(** With no bit passed and no change detected the stages do nothing. *)
Lemma dired_update_stages_idle `{Host} (g : DiredGlobals) (ds : DiredState) (flags : Z) :
  Z.land flags DIRED_UPDATE_ALL = 0 ->
  config_changed g ds = false ->
  dired_update_stages g ds flags = (flags, (g, ds))
  /\ truth (Z.land flags DIRED_UPDATE_REBUILD) = false.
Proof.
  intros Hflags Hcfg.
  assert (Hbit : forall bit, Z.land DIRED_UPDATE_ALL bit = bit ->
                             truth (Z.land flags bit) = false).
  { intros bit Hsub. rewrite <- Hsub, Z.land_assoc, Hflags. reflexivity. }
  unfold config_changed in Hcfg.
  apply orb_false_iff in Hcfg. destruct Hcfg as [Hcfg Hcol].
  apply orb_false_iff in Hcfg. destruct Hcfg as [Hsort Hfilter].
  split; [| apply Hbit; reflexivity].
  unfold dired_update_stages, dired_sort_stage.
  fold (sort_changed g ds). rewrite Hsort.
  rewrite (Hbit DIRED_UPDATE_SORT eq_refl).
  unfold dired_filter_stage. fold (filter_changed g ds). rewrite Hfilter.
  rewrite (Hbit DIRED_UPDATE_FILTER eq_refl).
  unfold dired_columns_stage. fold (columns_changed g ds). rewrite Hcol.
  rewrite (Hbit DIRED_UPDATE_COLUMNS eq_refl). reflexivity.
Qed.

(** ** Update orchestrator: the text written by a rebuild *)

Lemma related_ret {A} (R : A -> A -> Prop) (a1 a2 : A) :
  R a1 a2 -> related R (eb_ret a1) (eb_ret a2).
Proof. intros Ha b1 b2 Hb. split; assumption. Qed.

Lemma related_bind {A B} (R : A -> A -> Prop) (R' : B -> B -> Prop)
    (c1 c2 : EB A) (k1 k2 : A -> EB B) :
  related R c1 c2 ->
  (forall a1 a2, R a1 a2 -> related R' (k1 a1) (k2 a2)) ->
  related R' (eb_bind c1 k1) (eb_bind c2 k2).
Proof.
  intros Hc Hk b1 b2 Hb. unfold eb_bind.
  specialize (Hc b1 b2 Hb).
  destruct (c1 b1) as [a1 b1'], (c2 b2) as [a2 b2']. cbn [fst snd] in Hc.
  destruct Hc as [Ha Hb']. apply Hk; assumption.
Qed.

Lemma stable_ret {A} (a : A) : stable (eb_ret a).
Proof. apply related_ret. reflexivity. Qed.

Lemma stable_bind {A B} (c : EB A) (k : A -> EB B) :
  stable c -> (forall a, stable (k a)) -> stable (eb_bind c k).
Proof.
  intros Hc Hk. apply (related_bind eq eq); [exact Hc |].
  intros a1 a2 <-. apply Hk.
Qed.

Lemma stable_style (st : Z) : stable (eb_style st).
Proof.
  intros b1 b2 (Ht & Ho & Hs). unfold eb_style, same_text. cbn. auto.
Qed.

Lemma stable_puts (text : string) : stable (eb_puts text).
Proof.
  intros b1 b2 (Ht & Ho & Hs). unfold eb_puts, same_text. cbn.
  rewrite Ht, Ho, Hs. auto.
Qed.

Lemma stable_offset : stable eb_offset.
Proof. intros b1 b2 (Ht & Ho & Hs). unfold eb_offset, same_text. cbn. auto. Qed.

Create HintDb stable_db.
#[local] Hint Resolve stable_ret stable_style stable_puts stable_offset : stable_db.

(** Decomposes a writer into its primitives. *)
Ltac stable_auto :=
  repeat first
    [ apply stable_bind; [| intros ?]
    | progress unfold eb_printf, eb_putc
    | match goal with
      | |- stable (if ?c then _ else _) => destruct c
      | |- stable (match ?c with Some _ => _ | None => _ end) => destruct c
      end
    | solve [auto with stable_db] ].

Lemma stable_header_count (seq n : Z) (text : string) :
  stable (header_count seq n text).
Proof. unfold header_count. stable_auto. Qed.

Lemma stable_column (ds : DiredState) (bit col : Z) (text : string) :
  stable (eb_column ds bit col text).
Proof. unfold eb_column. stable_auto. Qed.

#[local] Hint Resolve stable_header_count stable_column : stable_db.

Lemma stable_render_line `{Host} (g : DiredGlobals) (ds : DiredState) (dip : DiredItem) :
  stable (dired_render_line g ds dip).
Proof. unfold dired_render_line. stable_auto. Qed.

(** The header starts by choosing its style, so it only needs the two
    buffers to agree on text and offset. *)
Lemma dired_render_header_fresh (ds : DiredState) (b1 b2 : EditBuffer) :
  b_text b1 = b_text b2 -> b_offset b1 = b_offset b2 ->
  same_text (snd (dired_render_header ds b1)) (snd (dired_render_header ds b2)).
Proof.
  intros Ht Ho. unfold dired_render_header.
  match goal with
  | |- same_text (snd (eb_bind (eb_style ?st) ?k ?b1)) _ =>
      change (same_text (snd (k tt (snd (eb_style st b1))))
                        (snd (k tt (snd (eb_style st b2)))));
      assert (Hk : stable (k tt)) by stable_auto
  end.
  apply Hk. unfold eb_style, same_text. cbn. auto.
Qed.

(** The items written do not depend on which item is current nor on what
    the loop carries. *)
Lemma related_render_items `{Host} (g : DiredGlobals) (ds : DiredState)
    (cur1 cur2 : option DiredItem) (its : list StringItem) :
  forall acc1 acc2,
    related (fun r1 r2 => fst r1 = fst r2)
      (dired_render_items g ds cur1 its acc1)
      (dired_render_items g ds cur2 its acc2).
Proof.
  induction its as [|it rest IH]; intros acc1 acc2; cbn [dired_render_items].
  - apply related_ret. reflexivity.
  - apply (related_bind eq _); [apply stable_offset |]. intros off ? <-.
    apply (related_bind (fun _ _ => True) _).
    + destruct (truth (hidden (set_offset off (opaque it)))).
      * apply related_ret. exact I.
      * apply (related_bind eq _); [apply stable_render_line |].
        intros col ? <-. apply related_ret. exact I.
    + intros acc1' acc2' _.
      apply (related_bind (fun r1 r2 => fst r1 = fst r2) _); [apply IH |].
      intros r1 r2 Hr. apply related_ret. cbn [fst]. rewrite Hr. reflexivity.
Qed.

(** The text a rebuild leaves depends on the state, the width and the
    variables only: not on the previous buffer, the line kept for the
    viewport or the current item. *)
Lemma dired_rebuild_text `{Host} (g : DiredGlobals) (ds : DiredState)
    (b1 b2 : EditBuffer) (s : option EditState) (width window_width : Z)
    (top1 top2 : Z) (cur1 cur2 : option DiredItem) :
  b_text (snd (fst (dired_rebuild g ds b1 s width window_width top1 cur1)))
  = b_text (snd (fst (dired_rebuild g ds b2 s width window_width top2 cur2))).
Proof.
  unfold dired_rebuild.
  set (ds' := set_rebuilt _ _ _ _ _ _ ds).
  set (acc0 := {| ra_last_cur := None; ra_s_offset := None;
                  ra_fnamecol := fnamecol ds' |}).
  pose proof (dired_render_header_fresh ds' (eb_clear b1) (eb_clear b2)
                eq_refl eq_refl) as Hhead.
  assert (Hitems : related (fun r1 r2 => fst r1 = fst r2)
                     (eb_style DIRED_STYLE_NORMAL ;;;
                      dired_render_items g ds' cur1 (items ds') acc0)
                     (eb_style DIRED_STYLE_NORMAL ;;;
                      dired_render_items g ds' cur2 (items ds') acc0)).
  { apply (related_bind eq _); [apply stable_style |].
    intros ? ? _. apply related_render_items. }
  unfold eb_bind at 1 3.
  destruct (dired_render_header ds' (eb_clear b1)) as [u1 h1].
  destruct (dired_render_header ds' (eb_clear b2)) as [u2 h2].
  cbn [snd] in Hhead. specialize (Hitems h1 h2 Hhead).
  destruct ((eb_style DIRED_STYLE_NORMAL ;;;
             dired_render_items g ds' cur1 (items ds') acc0) h1) as [[its1 a1] e1].
  destruct ((eb_style DIRED_STYLE_NORMAL ;;;
             dired_render_items g ds' cur2 (items ds') acc0) h2) as [[its2 a2] e2].
  cbn [fst snd] in *. destruct Hitems as [_ (Htext & _)].
  cbn [b_text eb_finish]. exact Htext.
Qed.

Lemma eb_bind_eq {A B} (c : EB A) (k : A -> EB B) (b : EditBuffer) :
  eb_bind c k b = k (fst (c b)) (snd (c b)).
Proof. unfold eb_bind. destruct (c b). reflexivity. Qed.

(** The buffer after the loop handled one item: a hidden item writes
    nothing, a visible one its line. *)
Lemma dired_render_items_cons `{Host} (g : DiredGlobals) (ds : DiredState)
    (cur_item : option DiredItem) (it : StringItem) (rest : list StringItem)
    (acc : RenderAcc) (b : EditBuffer) :
  let dip := set_offset (b_offset b) (opaque it) in
  let b1 := if truth (hidden (opaque it)) then b
            else snd (dired_render_line g ds dip b) in
  exists acc1,
    snd (dired_render_items g ds cur_item (it :: rest) acc b)
    = snd (dired_render_items g ds cur_item rest acc1 b1)
    /\ fst (fst (dired_render_items g ds cur_item (it :: rest) acc b))
       = set_opaque dip it
           :: fst (fst (dired_render_items g ds cur_item rest acc1 b1)).
Proof.
  cbn [dired_render_items]. rewrite eb_bind_eq.
  unfold eb_offset. cbn [fst snd hidden set_offset].
  rewrite eb_bind_eq.
  destruct (truth (hidden (opaque it)));
    repeat (rewrite ?eb_bind_eq; unfold eb_ret; cbn [fst snd]);
    eexists; split; reflexivity.
Qed.

(** *** The pieces a rebuild writes *)

Lemma writes_ret {A} (a : A) (st : Z) : writes (eb_ret a) st a [] st.
Proof.
  intros b Hb. unfold eb_ret. cbn [fst snd]. rewrite app_nil_r. auto.
Qed.

Lemma writes_bind {A B} (c : EB A) (k : A -> EB B) (st st1 st2 : Z) (a : A) (a2 : B)
    (p1 p2 : list (Z * string)) :
  writes c st a p1 st1 ->
  writes (k a) st1 a2 p2 st2 ->
  writes (eb_bind c k) st a2 (p1 ++ p2)%list st2.
Proof.
  intros Hc Hk b Hb. rewrite eb_bind_eq.
  destruct (Hc b Hb) as (Ha & Ht & Hs). rewrite Ha.
  destruct (Hk (snd (c b)) Hs) as (Ha2 & Ht2 & Hs2).
  rewrite Ht2, Ht, app_assoc. auto.
Qed.

Lemma writes_style (s st : Z) : writes (eb_style s) st tt [] s.
Proof.
  intros b Hb. unfold eb_style. cbn [fst snd b_text b_cur_style].
  rewrite app_nil_r. auto.
Qed.

Lemma writes_puts (text : string) (st : Z) :
  writes (eb_puts text) st (slen text) [(st, text)] st.
Proof.
  intros b Hb. unfold eb_puts. cbn [fst snd b_text b_cur_style].
  rewrite Hb. auto.
Qed.

Lemma writes_if {A} (cnd : bool) (c1 c2 : EB A) (st st' : Z) (a : A)
    (p1 p2 : list (Z * string)) :
  writes c1 st a p1 st' ->
  writes c2 st a p2 st' ->
  writes (if cnd then c1 else c2) st a (if cnd then p1 else p2) st'.
Proof. destruct cnd; auto. Qed.

Lemma writes_option {A X} (o : option X) (c1 : X -> EB A) (c2 : EB A)
    (st st' : Z) (a : A) (p1 : X -> list (Z * string)) (p2 : list (Z * string)) :
  (forall x, writes (c1 x) st a (p1 x) st') ->
  writes c2 st a p2 st' ->
  writes (match o with Some x => c1 x | None => c2 end) st a
    (match o with Some x => p1 x | None => p2 end) st'.
Proof. destruct o; auto. Qed.

Lemma writes_column (ds : DiredState) (bit col : Z) (text : string) :
  writes (eb_column ds bit col text) DIRED_STYLE_NORMAL
    (if shown (details_mask ds) bit then int_add col (slen text) else col)
    (column_piece ds bit text) DIRED_STYLE_NORMAL.
Proof.
  unfold eb_column, column_piece, shown.
  destruct (truth (Z.land (details_mask ds) bit)).
  - rewrite <- (app_nil_r [(DIRED_STYLE_NORMAL, text)]).
    eapply writes_bind; [apply writes_puts | apply writes_ret].
  - apply writes_ret.
Qed.

Lemma writes_header_count (seq n : Z) (text : string) (st : Z) :
  writes (header_count seq n text) st
    (if truth n then 44 else seq)
    (if truth n then [(st, char_string (chr seq) ++ " " ++ text)] else []) st.
Proof.
  unfold header_count. destruct (truth n).
  - rewrite <- (app_nil_r [(st, _)]).
    eapply writes_bind; [apply writes_puts | apply writes_ret].
  - apply writes_ret.
Qed.

(** One step of the decomposition of a writer into its pieces. *)
Ltac writes_step :=
  cbv beta;
  first [ apply writes_ret
        | apply writes_style
        | apply writes_puts
        | apply writes_column
        | apply writes_header_count
        | eapply writes_option; [intros ? |]
        | eapply writes_if
        | eapply writes_bind ].

Lemma dired_render_line_writes `{Host} (g : DiredGlobals) (ds : DiredState)
    (dip : DiredItem) :
  exists col,
    writes (dired_render_line g ds dip) DIRED_STYLE_NORMAL col
      (line_pieces g ds dip) DIRED_STYLE_NORMAL.
Proof.
  assert (Hline : exists col pieces,
             writes (dired_render_line g ds dip) DIRED_STYLE_NORMAL col pieces
               DIRED_STYLE_NORMAL
             /\ pieces = line_pieces g ds dip).
  { unfold dired_render_line. do 2 eexists. split.
    - repeat writes_step.
    - reflexivity. }
  destruct Hline as (col & pieces & Hw & ->). exists col. exact Hw.
Qed.

Lemma dired_render_header_writes (ds : DiredState) (st : Z) :
  writes (dired_render_header ds) st tt (header_pieces ds) DIRED_STYLE_HEADER.
Proof.
  assert (Hhead : exists pieces,
             writes (dired_render_header ds) st tt pieces DIRED_STYLE_HEADER
             /\ pieces = header_pieces ds).
  { unfold dired_render_header. eexists. split.
    - repeat writes_step.
    - unfold header_pieces, empty_text, count_texts.
      destruct (truth (ndirs ds)), (truth (ndirs_hidden ds)), (truth (nfiles ds)),
        (truth (nfiles_hidden ds)), (truth (total_bytes ds));
        destruct (_ =? 0); reflexivity. }
  destruct Hhead as (pieces & Hw & ->). exact Hw.
Qed.

(** The loop appends the lines of the visible items and returns the
    items with the same visible lines. *)
Lemma dired_render_items_writes `{Host} (g : DiredGlobals) (ds : DiredState)
    (cur : option DiredItem) (its : list StringItem) :
  forall acc b,
    b_cur_style b = DIRED_STYLE_NORMAL ->
    let r := dired_render_items g ds cur its acc b in
    b_text (snd r)
    = (b_text b
       ++ flat_map (fun it => line_pieces g ds (opaque it)) (visible_items its))%list
    /\ flat_map (fun it => line_pieces g ds (opaque it)) (visible_items (fst (fst r)))
       = flat_map (fun it => line_pieces g ds (opaque it)) (visible_items its).
Proof.
  induction its as [|it rest IH]; intros acc b Hstyle; cbv zeta.
  - cbn [dired_render_items visible_items flat_map]. unfold eb_ret.
    cbn [fst snd]. rewrite app_nil_r. auto.
  - destruct (dired_render_items_cons g ds cur it rest acc b) as (acc1 & Hbuf & Hits).
    rewrite Hbuf, Hits. cbn [visible_items opaque set_opaque hidden set_offset].
    destruct (truth (hidden (opaque it))) eqn:Hhid.
    + apply IH. exact Hstyle.
    + destruct (dired_render_line_writes g ds
                  (set_offset (b_offset b) (opaque it))) as (col & Hline).
      destruct (Hline b Hstyle) as (_ & Htext & Hstyle').
      destruct (IH acc1 _ Hstyle') as (Hrest & Hsame).
      cbn [flat_map]. rewrite Hrest, Htext, Hsame, <- app_assoc.
      split; reflexivity.
Qed.

(** A rebuild leaves the text of the listing of the state it returns. *)
Lemma dired_rebuild_pieces `{Host} (g : DiredGlobals) (ds : DiredState)
    (b : EditBuffer) (s : option EditState) (width window_width top_line : Z)
    (cur_item : option DiredItem) :
  let r := dired_rebuild g ds b s width window_width top_line cur_item in
  b_text (snd (fst r)) = listing_pieces g (fst (fst r)).
Proof.
  unfold dired_rebuild. cbv zeta.
  set (ds1 := set_rebuilt _ _ _ _ _ _ ds).
  rewrite !eb_bind_eq.
  pose proof (dired_render_header_writes ds1 (b_cur_style (eb_clear b)) (eb_clear b)
                eq_refl) as (_ & Hhead & Hstyle).
  set (b1 := snd (dired_render_header ds1 (eb_clear b))) in *.
  pose proof (writes_style DIRED_STYLE_NORMAL DIRED_STYLE_HEADER b1 Hstyle)
    as (_ & Hkeep & Hnormal).
  set (b2 := snd (eb_style DIRED_STYLE_NORMAL b1)) in *.
  match goal with
  | |- context [dired_render_items ?g0 ?d ?c ?i ?a b2] =>
      pose proof (dired_render_items_writes g0 d c i a b2 Hnormal) as Hitems;
      destruct (dired_render_items g0 d c i a b2) as [[its acc] b3]
  end.
  cbv zeta in Hitems. cbn [fst snd] in *. destruct Hitems as (Htext & Hsame).
  cbn [eb_finish b_text]. rewrite Htext, Hkeep, Hhead, app_nil_r.
  cbn [eb_clear b_text app]. unfold listing_pieces.
  cbn [items set_rebuilt]. rewrite <- Hsame. reflexivity.
Qed.

Lemma dired_update_buffer_pieces `{Host} (g : DiredGlobals) (ds : DiredState)
    (b : EditBuffer) (s : option EditState) (flags : Z) :
  truth (Z.land (fst (dired_update_stages g ds flags)) DIRED_UPDATE_REBUILD) = true ->
  let r := dired_update_buffer g (Some ds) b s flags in
  match result_state r with
  | Some ds' => b_text (result_buffer r) = listing_pieces (result_globals r) ds'
  | None => False
  end.
Proof.
  intros Hrebuild. unfold result_state, result_buffer, result_globals,
    dired_update_buffer.
  destruct (dired_update_stages g ds flags) as [flags' [g' ds']].
  cbn [fst] in Hrebuild.
  destruct s as [s |]; cbn iota beta; rewrite Hrebuild; cbn [negb].
  - match goal with
    | |- context [dired_rebuild ?g0 ?d ?b0 ?s0 ?w ?ww ?tl ?c] =>
        pose proof (dired_rebuild_pieces g0 d b0 s0 w ww tl c) as Hp;
        destruct (dired_rebuild g0 d b0 s0 w ww tl c) as [[d1 r1] s1]
    end.
    exact Hp.
  - match goal with
    | |- context [dired_rebuild ?g0 ?d ?b0 ?s0 ?w ?ww ?tl ?c] =>
        pose proof (dired_rebuild_pieces g0 d b0 s0 w ww tl c) as Hp;
        destruct (dired_rebuild g0 d b0 s0 w ww tl c) as [[d1 r1] s1]
    end.
    exact Hp.
Qed.

(** The update of a state whose stages end with the rebuild bit. *)
Lemma dired_update_buffer_text `{Host} (g : DiredGlobals) (ds : DiredState)
    (b1 b2 : EditBuffer) (s : option EditState) (flags : Z) :
  truth (Z.land (fst (dired_update_stages g ds flags)) DIRED_UPDATE_REBUILD) = true ->
  b_text (result_buffer (dired_update_buffer g (Some ds) b1 s flags))
  = b_text (result_buffer (dired_update_buffer g (Some ds) b2 s flags)).
Proof.
  intros Hrebuild. unfold result_buffer, dired_update_buffer.
  destruct (dired_update_stages g ds flags) as [flags' [g' ds']].
  cbn [fst] in Hrebuild.
  destruct s as [s |]; cbn iota beta; rewrite Hrebuild; cbn [negb].
  - pose proof (dired_rebuild_text g' ds' b1 b2 (Some s)
                  (Z.quot (s_width s) (max_int 1 (get_glyph_width s))) (s_width s)
                  (eb_get_line b1 (s_offset_top s)) (eb_get_line b2 (s_offset_top s))
                  (dired_get_cur_item ds b1 s) (dired_get_cur_item ds b2 s)) as Htext.
    destruct (dired_rebuild g' ds' b1 _ _ _ _ _) as [[d1 r1] s1].
    destruct (dired_rebuild g' ds' b2 _ _ _ _ _) as [[d2 r2] s2].
    exact Htext.
  - pose proof (dired_rebuild_text g' ds' b1 b2 None 80 80 0 0 None None) as Htext.
    destruct (dired_rebuild g' ds' b1 _ _ _ _ _) as [[d1 r1] s1].
    destruct (dired_rebuild g' ds' b2 _ _ _ _ _) as [[d2 r2] s2].
    exact Htext.
Qed.

(** C8.  For a listing state: when a sort, filter or columns bit is
    passed in or raised by a detected configuration change, the stages end
    with the rebuild bit set and the listing is written anew: the buffer
    then holds the header of the state returned followed by the line of
    each of its items that is not hidden, and nothing of what it held
    before (its text is the same whatever it held); when no bit is passed
    and no change is detected, the update returns the variables, the
    state, the buffer and the window as they were. *)
Theorem dired_update_cascade (H : Host) (g : DiredGlobals) (ds : DiredState)
    (b : EditBuffer) (s : option EditState) (flags : Z) :
  (upstream_requested flags || config_changed g ds = true ->
   truth (Z.land (fst (dired_update_stages g ds flags)) DIRED_UPDATE_REBUILD) = true
   /\ (forall b0,
        b_text (result_buffer (dired_update_buffer g (Some ds) b0 s flags))
        = b_text (result_buffer (dired_update_buffer g (Some ds) b s flags)))
   /\ match result_state (dired_update_buffer g (Some ds) b s flags) with
      | Some ds' =>
          b_text (result_buffer (dired_update_buffer g (Some ds) b s flags))
          = listing_pieces
              (result_globals (dired_update_buffer g (Some ds) b s flags)) ds'
      | None => False
      end)
  /\ (Z.land flags DIRED_UPDATE_ALL = 0 ->
      config_changed g ds = false ->
      dired_update_buffer g (Some ds) b s flags = (g, Some ds, b, s)).
Proof.
  split.
  - intros Hreq.
    pose proof (dired_update_stages_rebuild g ds flags Hreq) as Hrebuild.
    split; [exact Hrebuild |]. split.
    + intros b0. apply dired_update_buffer_text. exact Hrebuild.
    + apply dired_update_buffer_pieces. exact Hrebuild.
  - intros Hflags Hcfg.
    destruct (dired_update_stages_idle g ds flags Hflags Hcfg) as [Hidle Hbit].
    unfold dired_update_buffer. rewrite Hidle.
    destruct s as [s |]; cbn iota beta; rewrite Hbit; reflexivity.
Qed.

Lemma dired_update_cascade_witness :
  let g := {| dired_curtime := 0; dired_time_format := 0;
              dired_show_dot_files := 0; dired_show_ds_store := 0;
              dired_nflag := 0; dired_hflag := 0; dired_sort_mode := 17 |} in
  let ds := sample_state [sample_item 1 "a.txt" 0x81A4 100;
                          sample_item 2 ".hidden" 0x81A4 50;
                          sample_item 3 "sub" 0x41ED 4096] in
  let stale := {| b_text := [(0, "stale")]; b_offset := 5; b_cur_style := 0;
                  b_modified := 1; b_flags := 0 |} in
  b_text (result_buffer (@dired_update_buffer sample_host g (Some ds) stale None 0))
  = b_text (result_buffer (@dired_update_buffer sample_host g (Some ds) empty_buffer None 0))
  /\ map snd
       (b_text (result_buffer
                  (@dired_update_buffer sample_host g (Some ds) stale None 0)))
     = [ "  Directory of "; "/d"; header_break;
         "  1 directory"; ", 1 file"; ", 1 hidden file"; ", 100 bytes"; nl;
         "  "; "-rw-r--r-- "; "1 "; "root "; "wheel "; " 100  ";
         "Jan  1 00:00  "; "a.txt"; nl;
         "  "; "drwxr-xr-x "; "1 "; "root "; "wheel "; " 4096  ";
         "Jan  1 00:00  "; "sub"; "/"; nl ].
Proof.
  intros g ds stale.
  destruct (dired_update_cascade sample_host g ds stale None 0)
    as [Hcascade _].
  destruct (Hcascade eq_refl) as (_ & Hfresh & Htext).
  split; [symmetry; exact (Hfresh empty_buffer) |].
  vm_compute in Htext |- *. exact (f_equal (map snd) Htext).
Defined.

(** * Further properties *)

(** ** Permission string and name decoration *)

(** Decides every file-type test of the goal, from the type field. *)
Ltac type_cases mode :=
  unfold S_ISREG, S_ISDIR, S_ISBLK, S_ISCHR, S_ISFIFO, S_ISSOCK, S_ISLNK, is_type;
  generalize (Z.land mode S_IFMT); intros fmt;
  repeat match goal with
    | |- context [fmt =? ?c] => destruct (Z.eqb_spec fmt c); [subst fmt |]
    end.

(** X1.  The first character of the permission string is the glyph of
    the file type -- [d], [b], [c], [p], [s], [l], and [-] for a regular
    file or an unknown type -- and a mode is of at most one type. *)
Theorem compute_attr_type_glyph (mode : Z) :
  char_at (compute_attr mode) 0 = Some (type_glyph mode)
  /\ type_count mode <= 1.
Proof.
  split.
  - unfold char_at, compute_attr, type_glyph.
    rewrite string_of_list_ascii_get, !put_if_other by lia.
    type_cases mode; reflexivity.
  - unfold type_count. type_cases mode; cbn; lia.
Qed.

(** X2.  The read and write positions of the three triads show the
    letter when the bit is set and [-] otherwise, and the owner's execute
    position shows [s] / [S] for the set-user-id bit with and without the
    execute bit, else [x] or [-]. *)
Theorem compute_attr_letters (mode : Z) :
  char_at (compute_attr mode) 1 = Some (perm_letter mode S_IRUSR "r")
  /\ char_at (compute_attr mode) 2 = Some (perm_letter mode S_IWUSR "w")
  /\ char_at (compute_attr mode) 3 = Some (exec_letter mode S_IXUSR S_ISUID)
  /\ char_at (compute_attr mode) 4 = Some (perm_letter mode S_IRGRP "r")
  /\ char_at (compute_attr mode) 5 = Some (perm_letter mode S_IWGRP "w")
  /\ char_at (compute_attr mode) 7 = Some (perm_letter mode S_IROTH "r")
  /\ char_at (compute_attr mode) 8 = Some (perm_letter mode S_IWOTH "w").
Proof.
  unfold char_at, compute_attr, perm_letter, exec_letter.
  rewrite !string_of_list_ascii_get.
  repeat split;
    repeat (rewrite put_if_other by lia);
    repeat match goal with
      | |- context [has mode ?bit] => destruct (has mode bit)
      end;
    cbn [put_if];
    repeat first
      [ rewrite list_lookup_insert_eq
          by (rewrite ?length_insert, ?put_if_length;
              destruct (negb (S_ISREG mode)); rewrite ?put_if_length; simpl; lia)
      | rewrite list_lookup_insert_ne by lia
      | rewrite put_if_other by lia ];
    destruct (negb (S_ISREG mode)); rewrite ?put_if_other by lia; reflexivity.
Qed.

(** X3.  Without the sticky bit, the group's execute position shows
    [s] / [S] for the set-group-id bit, else [x] or [-], and the last
    position shows [x] or [-]. *)
Theorem compute_attr_exec_without_sticky (mode : Z) :
  has mode S_ISVTX = false ->
  char_at (compute_attr mode) 6 = Some (exec_letter mode S_IXGRP S_ISGID)
  /\ char_at (compute_attr mode) 9 = Some (perm_letter mode S_IXOTH "x").
Proof.
  intros Hvtx.
  unfold char_at, compute_attr, perm_letter, exec_letter.
  rewrite !string_of_list_ascii_get, Hvtx, put_if_false.
  split;
    repeat (rewrite put_if_other by lia);
    repeat match goal with
      | |- context [has mode ?bit] => destruct (has mode bit)
      end;
    cbn [put_if];
    repeat first
      [ rewrite list_lookup_insert_eq
          by (rewrite ?length_insert, ?put_if_length;
              destruct (negb (S_ISREG mode)); rewrite ?put_if_length; simpl; lia)
      | rewrite list_lookup_insert_ne by lia
      | rewrite put_if_other by lia ];
    destruct (negb (S_ISREG mode)); rewrite ?put_if_other by lia; reflexivity.
Qed.

Lemma compute_attr_exec_without_sticky_witness :
  char_at (compute_attr 0x85ED) 6 = Some "s"%char
  /\ char_at (compute_attr 0x85ED) 9 = Some "x"%char.
Proof. apply (compute_attr_exec_without_sticky 0x85ED). reflexivity. Defined.

(** X4.  The character appended to a name is decided by the file type:
    [/] for a directory whatever its permission bits, [@] for a symbolic
    link, [=] for a socket, [|] for a fifo, and for the other types [*]
    when the owner may execute the file and nothing otherwise. *)
Theorem get_trailchar_by_type (mode : Z) :
  get_trailchar mode = trailchar_of_type mode.
Proof.
  unfold get_trailchar, trailchar_of_type.
  destruct (has mode S_IEXEC); type_cases mode; reflexivity.
Qed.

(** ** Size field *)

(** X5.  For a character or block device the size field shows the major
    and minor numbers held in the device id -- the bits from 24 up and the
    low 24 bits -- whatever the size of the file and the human flag. *)
Theorem format_size_device (size human st_mode major minor st_size : Z) :
  S_ISCHR st_mode || S_ISBLK st_mode = true ->
  0 <= major <= INT_MAX ->
  0 <= minor < 2 ^ 24 ->
  format_size size human st_mode (major * 2 ^ 24 + minor) st_size
  = snprintf size (pad_left 3 (dec major) ++ ", " ++ pad_left 3 (dec minor)).
Proof.
  intros Hdev Hmajor Hminor. unfold format_size. rewrite Hdev.
  change (sizeof_dev_t =? 2) with false. cbn iota.
  rewrite Z.shiftr_div_pow2 by lia.
  rewrite Z.div_add_l, Z.div_small, Z.add_0_r by lia.
  change 0xffffff with (Z.ones 24). rewrite Z.land_ones by lia.
  rewrite Z.add_comm, Z.mod_add, Z.mod_small by lia.
  rewrite !wrap_int_small by (unfold INT_MIN, INT_MAX in *; lia).
  reflexivity.
Qed.

Lemma format_size_device_witness :
  format_size 32 2 0x2190 (4 * 2 ^ 24 + 64) 123456 = ("  4,  64", 8).
Proof.
  rewrite (format_size_device 32 2 0x2190 4 64 123456);
    [reflexivity | reflexivity | unfold INT_MAX; lia | lia].
Defined.

Lemma pow_1000_succ (n : nat) :
  1000 ^ Z.of_nat (S n) = 1000 * 1000 ^ Z.of_nat n.
Proof. rewrite Nat2Z.inj_succ, Z.pow_succ_r by lia. reflexivity. Qed.

Lemma plain_width (size number : Z) (c : ascii) :
  0 <= number < 1000 ->
  snd (snprintf size (dec (wrap_int number) ++ char_string c)) <= 4.
Proof.
  intros Hn. unfold snprintf. cbn [snd].
  rewrite wrap_int_small by (unfold INT_MIN, INT_MAX; lia).
  rewrite slen_append. pose proof (dec_below_1000 number Hn).
  change (slen (char_string c)) with 1. lia.
Qed.

(** The metric loop on a suffix table long enough for the number. *)
Lemma format_metric_width (size : Z) (suffix : string) :
  forall number,
    suffix <> "" ->
    0 <= number < 1000 ^ Z.of_nat (String.length suffix) ->
    snd (format_metric size suffix number) <= 4.
Proof.
  induction suffix as [|c rest IH]; intros number Hne Hn; [contradiction |].
  destruct rest as [|c1 rest].
  - cbn [format_metric]. apply plain_width.
    change (1000 ^ Z.of_nat (String.length (String c ""))) with 1000 in Hn. lia.
  - rewrite format_metric_step.
    cbn [String.length] in Hn. rewrite pow_1000_succ in Hn.
    destruct (number >=? 1000) eqn:Hge.
    + destruct (number <? 10000); [cbn; lia |].
      apply IH; [discriminate |]. cbn [String.length].
      rewrite Z.quot_div_nonneg by lia.
      split; [apply Z.div_pos; lia | apply Z.div_lt_upper_bound; lia].
    + apply plain_width. rewrite Z.geb_leb in Hge. apply Z.leb_gt in Hge. lia.
Qed.

Lemma format_geek_width (size : Z) (suffix : string) :
  forall number,
    suffix <> "" ->
    0 <= number < 1000 ^ Z.of_nat (String.length suffix) ->
    snd (format_geek size suffix number) <= 4.
Proof.
  induction suffix as [|c rest IH]; intros number Hne Hn; [contradiction |].
  destruct rest as [|c1 rest].
  - cbn [format_geek]. apply plain_width.
    change (1000 ^ Z.of_nat (String.length (String c ""))) with 1000 in Hn. lia.
  - rewrite format_geek_step.
    cbn [String.length] in Hn. rewrite pow_1000_succ in Hn.
    destruct (number >=? 1000) eqn:Hge.
    + destruct (number <? 10200); [cbn; lia |].
      apply IH; [discriminate |]. cbn [String.length].
      rewrite Z.shiftr_div_pow2 by lia. change (2 ^ 10) with 1024.
      assert (0 < 1000 ^ Z.of_nat (S (String.length rest)))
        by (apply Z.pow_pos_nonneg; lia).
      split; [apply Z.div_pos; lia | apply Z.div_lt_upper_bound; lia].
    + apply plain_width. rewrite Z.geb_leb in Hge. apply Z.leb_gt in Hge. lia.
Qed.

(** X6.  In both human modes the formatted size of a non-negative byte
    count (any [off_t]) is at most four characters long: the suffix table
    is never exhausted. *)
Theorem format_number_human_width (size human number : Z) :
  human <> 0 ->
  0 <= number <= LLONG_MAX ->
  snd (format_number size human number) <= 4.
Proof.
  intros Hh Hn. unfold format_number.
  destruct (Z.eqb_spec human 0) as [H0 | _]; [contradiction |].
  assert (Hbound : 0 <= number < 1000 ^ Z.of_nat (String.length "BkMGTPEZY")).
  { unfold LLONG_MAX in Hn. cbn. lia. }
  destruct (human >? 1).
  - apply format_metric_width; [discriminate | exact Hbound].
  - apply format_geek_width; [discriminate | exact Hbound].
Qed.

Lemma format_number_human_width_witness :
  snd (format_number 32 1 LLONG_MAX) <= 4.
Proof.
  apply (format_number_human_width 32 1 LLONG_MAX); [discriminate |].
  unfold LLONG_MAX. lia.
Defined.

(** ** Date field *)

Lemma slen_repeat_char (c : ascii) (n : nat) : slen (repeat_char c n) = Z.of_nat n.
Proof.
  unfold slen. induction n as [|n IH]; cbn [repeat_char String.length]; lia.
Qed.

Lemma slen_nonneg (s : string) : 0 <= slen s.
Proof. unfold slen. lia. Qed.

Lemma slen_pad_left (w : Z) (s : string) : slen s <= w -> slen (pad_left w s) = w.
Proof.
  intros Hs. unfold pad_left. rewrite slen_append, slen_repeat_char. lia.
Qed.

Lemma dec_below_100 (n : Z) : 0 <= n < 100 -> slen (dec n) <= 2.
Proof.
  intros Hn. apply Z.leb_le.
  apply (all_below_spec (fun n => slen (dec n) <=? 2) 100); [| exact Hn].
  vm_compute. reflexivity.
Qed.

Lemma dec_below_10000 (n : Z) : 0 <= n < 10000 -> slen (dec n) <= 4.
Proof.
  intros Hn. apply Z.leb_le.
  apply (all_below_spec (fun n => slen (dec n) <=? 4) (Z.to_nat 10000)); [| lia].
  vm_compute. reflexivity.
Qed.

Lemma slen_fmt_02d (z : Z) : 0 <= z < 100 -> slen (fmt_0d 2 z) = 2.
Proof.
  intros Hz. unfold fmt_0d.
  destruct (Z.ltb_spec z 0) as [Hneg | _]; [lia |].
  rewrite Z.abs_eq by lia.
  rewrite !slen_append, slen_repeat_char.
  pose proof (dec_below_100 z Hz). pose proof (slen_nonneg (dec z)).
  change (slen "") with 0. lia.
Qed.

Lemma slen_pad_2d (z : Z) : 0 <= z < 100 -> slen (pad_left 2 (dec z)) = 2.
Proof. intros Hz. apply slen_pad_left, dec_below_100, Hz. Qed.

Lemma slen_pad_4d (z : Z) : 0 <= z < 10000 -> slen (pad_left 4 (dec z)) = 4.
Proof. intros Hz. apply slen_pad_left, dec_below_10000, Hz. Qed.

Lemma clipped_month_range (t : tm) : 0 <= clipped_month t <= 12.
Proof.
  unfold clipped_month.
  destruct (Z.leb_spec (int_add (tm_mon t) 1) 0); cbn [orb]; [lia |].
  destruct (int_add (tm_mon t) 1 >? 12) eqn:Hgt; [lia |].
  rewrite Z.gtb_ltb in Hgt. apply Z.ltb_ge in Hgt. lia.
Qed.

Lemma slen_month_name (fmonth : Z) : 0 <= fmonth <= 12 -> slen (month_name fmonth) = 3.
Proof.
  intros Hm. apply Z.eqb_eq.
  apply (all_below_spec (fun m => slen (month_name m) =? 3) 13); [| lia].
  vm_compute. reflexivity.
Qed.

(** The text of the date field before it is stored: its length is the
    width of the format, and it is blanked when the month is invalid. *)
Lemma format_date_shape `{Host} (curtime size systime time_format : Z) :
  tm_in_range (localtime systime) ->
  slen (dec (wrap_ulong systime)) <= 10 ->
  exists out,
    slen out = date_width time_format
    /\ format_date curtime size systime time_format
       = ((if clipped_month (localtime systime) =? 0
           then repeat_char " " (String.length (buf_stored size out))
           else buf_stored size out),
          slen out).
Proof.
  intros (Hsec & Hmin & Hhour & Hday & Hyear) Hseconds.
  refine (ex_intro _ _ (conj _ eq_refl)).
  fold (clipped_month (localtime systime)).
  pose proof (clipped_month_range (localtime systime)) as Hmonth.
  set (m := clipped_month (localtime systime)) in *. clearbody m.
  set (t := localtime systime) in *. clearbody t.
  assert (Hy : int_add (tm_year t) 1900 = tm_year t + 1900)
    by (apply int_add_small; unfold INT_MIN, INT_MAX; lia).
  assert (Hr : 0 <= Z.rem (tm_year t) 100 < 100)
    by (rewrite Z.rem_mod_nonneg by lia; apply Z.mod_pos_bound; lia).
  unfold date_width.
  destruct (Z.eqb_spec time_format TF_TOUCH) as [-> | Hn1];
    [| destruct (Z.eqb_spec time_format TF_TOUCH_LONG) as [-> | Hn2];
       [| destruct (Z.eqb_spec time_format TF_DOS) as [-> | Hn3];
          [| destruct (Z.eqb_spec time_format TF_DOS_LONG) as [-> | Hn4];
             [| destruct (Z.eqb_spec time_format TF_FULL) as [-> | Hn5];
                [| destruct (Z.eqb_spec time_format TF_SECONDS) as [-> | Hn6]]]]]];
    cbn [orb Z.eqb TF_TOUCH TF_TOUCH_LONG TF_DOS TF_DOS_LONG TF_FULL TF_SECONDS
         Pos.eqb];
    try match goal with
      | |- context [if ?c then _ else _] => destruct c
      end;
    rewrite ?Hy; rewrite ?slen_append;
    rewrite ?slen_fmt_02d, ?slen_pad_2d, ?slen_pad_4d, ?slen_month_name by lia;
    rewrite ?slen_pad_left by lia;
    reflexivity.
Qed.

Lemma slen_pad_left_max (w : Z) (s : string) : slen (pad_left w s) = Z.max w (slen s).
Proof.
  unfold pad_left. rewrite slen_append, slen_repeat_char.
  pose proof (slen_nonneg s). lia.
Qed.

(** The date field for any time: the text asked for has the width of the
    format, and is blanked when the month is invalid. *)
Lemma format_date_shape_any `{Host} (curtime size systime time_format : Z) :
  tm_in_range (localtime systime) ->
  exists out,
    slen out = date_field_width time_format systime
    /\ format_date curtime size systime time_format
       = ((if clipped_month (localtime systime) =? 0
           then repeat_char " " (String.length (buf_stored size out))
           else buf_stored size out),
          slen out).
Proof.
  intros (Hsec & Hmin & Hhour & Hday & Hyear).
  refine (ex_intro _ _ (conj _ eq_refl)).
  fold (clipped_month (localtime systime)).
  pose proof (clipped_month_range (localtime systime)) as Hmonth.
  set (m := clipped_month (localtime systime)) in *. clearbody m.
  set (t := localtime systime) in *. clearbody t.
  assert (Hy : int_add (tm_year t) 1900 = tm_year t + 1900)
    by (apply int_add_small; unfold INT_MIN, INT_MAX; lia).
  assert (Hr : 0 <= Z.rem (tm_year t) 100 < 100)
    by (rewrite Z.rem_mod_nonneg by lia; apply Z.mod_pos_bound; lia).
  unfold date_field_width, date_width.
  destruct (Z.eqb_spec time_format TF_TOUCH) as [-> | Hn1];
    [| destruct (Z.eqb_spec time_format TF_TOUCH_LONG) as [-> | Hn2];
       [| destruct (Z.eqb_spec time_format TF_DOS) as [-> | Hn3];
          [| destruct (Z.eqb_spec time_format TF_DOS_LONG) as [-> | Hn4];
             [| destruct (Z.eqb_spec time_format TF_FULL) as [-> | Hn5];
                [| destruct (Z.eqb_spec time_format TF_SECONDS) as [-> | Hn6]]]]]];
    cbn [orb Z.eqb TF_TOUCH TF_TOUCH_LONG TF_DOS TF_DOS_LONG TF_FULL TF_SECONDS
         Pos.eqb];
    try match goal with
      | |- context [if ?c then _ else _] => destruct c
      end;
    rewrite ?Hy; rewrite ?slen_append;
    rewrite ?slen_fmt_02d, ?slen_pad_2d, ?slen_pad_4d, ?slen_month_name by lia;
    rewrite ?slen_pad_left_max;
    reflexivity.
Qed.

(** X7.  For a broken-down time whose fields are in their usual ranges,
    the date field has the width of its format, also when the month is
    invalid, and a buffer larger than that stores a text of that length.
    The width is fixed in every format but the seconds format -- 12 in the
    compact format on both sides of the 182-day window, 18 and 21 in the
    DOS formats, 10 and 13 in the touch formats, 20 in the full format.
    In the seconds format it is the number of digits of the time as an
    unsigned 64-bit number, and no less than 10: it is 10 only for times
    that print in ten digits or fewer. *)
Theorem format_date_width `{Host} (curtime size systime time_format : Z) :
  tm_in_range (localtime systime) ->
  snd (format_date curtime size systime time_format)
  = date_field_width time_format systime
  /\ (date_field_width time_format systime < size ->
      slen (fst (format_date curtime size systime time_format))
      = date_field_width time_format systime)
  /\ (time_format <> TF_SECONDS ->
      date_field_width time_format systime = date_width time_format)
  /\ (time_format = TF_SECONDS ->
      date_field_width time_format systime
      = Z.max 10 (slen (dec (wrap_ulong systime))))
  /\ (slen (dec (wrap_ulong systime)) <= 10 ->
      date_field_width time_format systime = date_width time_format).
Proof.
  intros Htm.
  destruct (format_date_shape_any curtime size systime time_format Htm)
    as (out & Hlen & ->). cbn [fst snd].
  split; [exact Hlen |]. split.
  { intros Hfit. unfold buf_stored. rewrite snprintf_fits by lia. cbn [fst].
    destruct (clipped_month (localtime systime) =? 0); [| exact Hlen].
    rewrite slen_repeat_char. exact Hlen. }
  unfold date_field_width.
  split; [| split].
  - intros Hne. destruct (Z.eqb_spec time_format TF_SECONDS); [contradiction |].
    reflexivity.
  - intros ->. reflexivity.
  - intros Hten. destruct (Z.eqb_spec time_format TF_SECONDS) as [-> | _];
      [| reflexivity].
    change (date_width TF_SECONDS) with 10. lia.
Qed.

Lemma format_date_width_witness :
  snd (@format_date sample_host 1000 32 0 TF_COMPACT) = 12
  /\ snd (@format_date sample_host (400 * 86400) 32 0 TF_COMPACT) = 12
  /\ snd (@format_date sample_host 0 32 (-1) TF_SECONDS) = 20.
Proof.
  assert (Htm : forall systime, tm_in_range (@localtime sample_host systime))
    by (intros systime; unfold tm_in_range; cbn; lia).
  split; [| split].
  - exact (proj1 (@format_date_width sample_host 1000 32 0 TF_COMPACT (Htm 0))).
  - exact (proj1 (@format_date_width sample_host (400 * 86400) 32 0 TF_COMPACT
                    (Htm 0))).
  - exact (proj1 (@format_date_width sample_host 0 32 (-1) TF_SECONDS (Htm (-1)))).
Defined.



(** ** Sort comparator: order properties *)

Lemma truth_opp (x : Z) : truth (- x) = truth x.
Proof.
  unfold truth. destruct (Z.eqb_spec (- x) 0), (Z.eqb_spec x 0); auto; lia.
Qed.

Lemma int_neg_small (x : Z) : INT_MIN < x <= INT_MAX -> int_neg x = - x.
Proof.
  intros Hx. unfold int_neg. apply wrap_int_small.
  unfold INT_MIN, INT_MAX in *. lia.
Qed.

Lemma byte_order_antisym : collate_antisym byte_order.
Proof.
  split; intros a b; unfold byte_order.
  - rewrite (String.compare_antisym b a).
    destruct (String.compare a b); reflexivity.
  - unfold INT_MIN, INT_MAX. destruct (String.compare a b); cbn; lia.
Qed.

(** X9.  When the collation of the host is antisymmetric, so is the
    comparator: exchanging the two items negates the result, for every
    sort mode. *)
Theorem dired_sort_func_antisym `{Host} (ds : DiredState) (item1 item2 : StringItem) :
  collate_antisym qe_strcollate ->
  dired_sort_func ds item2 item1 = - dired_sort_func ds item1 item2.
Proof.
  intros [Hanti Hrange]. unfold dired_sort_func. cbv zeta.
  rewrite (Hanti (get_extension (name (opaque item1)))
                 (get_extension (name (opaque item2)))).
  rewrite (Hanti (name (opaque item1)) (name (opaque item2))).
  pose proof (Hrange (get_extension (name (opaque item1)))
                     (get_extension (name (opaque item2)))) as Hce.
  pose proof (Hrange (name (opaque item1)) (name (opaque item2))) as Hcn.
  set (ce := qe_strcollate (get_extension _) (get_extension _)) in *.
  set (cn := qe_strcollate (name _) (name _)) in *.
  clearbody ce cn. rewrite truth_opp.
  rewrite (Z.eqb_sym (of_bool (S_ISDIR (mode (opaque item2))))).
  rewrite (Z.eqb_sym (mtime (opaque item2))), (Z.eqb_sym (size (opaque item2))).
  destruct (truth (Z.land (sort_mode ds) DIRED_SORT_GROUP)),
    (S_ISDIR (mode (opaque item1))), (S_ISDIR (mode (opaque item2)));
    cbn [of_bool andb negb Z.eqb]; try reflexivity;
    destruct (truth (Z.land (sort_mode ds) DIRED_SORT_DATE)),
      (truth (Z.land (sort_mode ds) DIRED_SORT_SIZE)),
      (truth (Z.land (sort_mode ds) DIRED_SORT_EXTENSION)),
      (truth (Z.land (sort_mode ds) DIRED_SORT_DESCENDING)),
      (truth ce);
    cbn [andb];
    destruct (Z.eqb_spec (mtime (opaque item1)) (mtime (opaque item2)));
    destruct (Z.eqb_spec (size (opaque item1)) (size (opaque item2)));
    cbn [negb];
    repeat match goal with
      | |- context [?a <? ?b] => destruct (Z.ltb_spec a b)
      end;
    rewrite ?int_neg_small by (unfold INT_MIN, INT_MAX in *; lia);
    try reflexivity; lia.
Qed.

Lemma dired_sort_func_antisym_witness :
  @dired_sort_func sample_host (sample_state [])
    (sample_item 2 "b.txt" 0x81A4 10) (sample_item 1 "a.txt" 0x81A4 20)
  = - @dired_sort_func sample_host (sample_state [])
        (sample_item 1 "a.txt" 0x81A4 20) (sample_item 2 "b.txt" 0x81A4 10).
Proof.
  apply (@dired_sort_func_antisym sample_host). exact byte_order_antisym.
Defined.

(** X10.  Ties are fully broken: when the comparator returns 0 the two
    names collate as equal, the two items are of the same kind if
    directories are grouped, and they agree on the active key (time,
    size or extension). *)
Theorem dired_sort_func_zero `{Host} (ds : DiredState) (item1 item2 : StringItem) :
  (forall a b, INT_MIN <= qe_strcollate a b <= INT_MAX) ->
  dired_sort_func ds item1 item2 = 0 ->
  qe_strcollate (name (opaque item1)) (name (opaque item2)) = 0
  /\ (truth (Z.land (sort_mode ds) DIRED_SORT_GROUP) = true ->
      S_ISDIR (mode (opaque item1)) = S_ISDIR (mode (opaque item2)))
  /\ (truth (Z.land (sort_mode ds) DIRED_SORT_DATE) = true ->
      mtime (opaque item1) = mtime (opaque item2))
  /\ (truth (Z.land (sort_mode ds) DIRED_SORT_SIZE) = true ->
      size (opaque item1) = size (opaque item2))
  /\ (truth (Z.land (sort_mode ds) DIRED_SORT_EXTENSION) = true ->
      qe_strcollate (get_extension (name (opaque item1)))
        (get_extension (name (opaque item2))) = 0).
Proof.
  intros Hrange. unfold dired_sort_func. cbv zeta.
  pose proof (Hrange (get_extension (name (opaque item1)))
                     (get_extension (name (opaque item2)))) as Hce.
  pose proof (Hrange (name (opaque item1)) (name (opaque item2))) as Hcn.
  set (ce := qe_strcollate (get_extension _) (get_extension _)) in *.
  set (cn := qe_strcollate (name _) (name _)) in *.
  clearbody ce cn.
  assert (Hneg : forall r, INT_MIN <= r <= INT_MAX -> int_neg r = 0 -> r = 0).
  { intros r Hr. unfold int_neg, wrap_int, INT_MIN, INT_MAX in *. intros H0.
    assert (Hmod : (- r + 2 ^ 31) mod 2 ^ 32 = 2 ^ 31) by lia.
    destruct (Z.eq_dec r (- 2 ^ 31)) as [-> | Hne];
      [vm_compute in Hmod; discriminate |].
    rewrite Z.mod_small in Hmod by lia. lia. }
  assert (Hte : truth ce = false -> ce = 0).
  { unfold truth. destruct (Z.eqb_spec ce 0); [auto | discriminate]. }
  set (neg := int_neg) in *. clearbody neg.
  destruct (truth (Z.land (sort_mode ds) DIRED_SORT_GROUP)),
    (S_ISDIR (mode (opaque item1))), (S_ISDIR (mode (opaque item2)));
    simpl; try discriminate;
    destruct (truth (Z.land (sort_mode ds) DIRED_SORT_DATE)),
      (truth (Z.land (sort_mode ds) DIRED_SORT_SIZE)),
      (truth (Z.land (sort_mode ds) DIRED_SORT_EXTENSION)),
      (truth (Z.land (sort_mode ds) DIRED_SORT_DESCENDING));
    simpl;
    destruct (Z.eqb_spec (mtime (opaque item1)) (mtime (opaque item2)));
    destruct (Z.eqb_spec (size (opaque item1)) (size (opaque item2)));
    destruct (truth ce) eqn:Htruth;
    simpl;
    repeat match goal with
      | |- context [?a <? ?b] => destruct (Z.ltb_spec a b)
      end;
    intros Hres;
    try (apply Hneg in Hres;
         [| assumption || (unfold INT_MIN, INT_MAX; lia)]);
    try discriminate Hres;
    try (subst ce; discriminate Htruth);
    repeat split; intros; try discriminate; auto.
Qed.

Lemma dired_sort_func_zero_witness :
  byte_order "a.txt" "a.txt" = 0.
Proof.
  assert (Hrange : forall a b, INT_MIN <= byte_order a b <= INT_MAX).
  { intros a b. pose proof (proj2 byte_order_antisym a b). lia. }
  exact (proj1 (@dired_sort_func_zero sample_host (sample_state [])
                  (sample_item 1 "a.txt" 0x81A4 20)
                  (sample_item 1 "a.txt" 0x81A4 20) Hrange eq_refl)).
Defined.

(** ** The sort string *)

(** Equality of two bit patterns built from a sort mode and the flag
    constants, bit by bit. *)
Ltac sort_bits :=
  apply Z.bits_inj'; intros n Hn;
  change DIRED_SORT_MASK with (Z.ones 4);
  change DIRED_SORT_NAME with (2 ^ 0); change DIRED_SORT_EXTENSION with (2 ^ 1);
  change DIRED_SORT_SIZE with (2 ^ 2); change DIRED_SORT_DATE with (2 ^ 3);
  change DIRED_SORT_GROUP with (2 ^ 4); change DIRED_SORT_DESCENDING with (2 ^ 5);
  repeat first
    [ rewrite Z.land_spec | rewrite Z.lor_spec | rewrite Z.lxor_spec
    | rewrite Z.lnot_spec by lia | rewrite Z.pow2_bits_eqb by lia
    | rewrite Z.testbit_ones_nonneg by lia ];
  repeat match goal with
    | |- context [?a =? n] => destruct (Z.eqb_spec a n)
    | |- context [n <? ?a] => destruct (Z.ltb_spec n a)
    end;
  try lia;
  repeat match goal with
    | |- context [Z.testbit ?m n] => destruct (Z.testbit m n)
    end;
  reflexivity.

Lemma sort_key_set (m k : Z) :
  k = DIRED_SORT_NAME \/ k = DIRED_SORT_EXTENSION \/ k = DIRED_SORT_SIZE
  \/ k = DIRED_SORT_DATE ->
  sort_key (Z.lor (Z.land m (Z.lnot DIRED_SORT_MASK)) k) = k.
Proof.
  unfold sort_key. intros [-> | [-> | [-> | ->]]]; sort_bits.
Qed.

Lemma sort_key_group (m : Z) : sort_key (Z.lor m DIRED_SORT_GROUP) = sort_key m.
Proof. unfold sort_key. sort_bits. Qed.

Lemma sort_key_ungroup (m : Z) :
  sort_key (Z.land m (Z.lnot DIRED_SORT_GROUP)) = sort_key m.
Proof. unfold sort_key. sort_bits. Qed.

Lemma sort_key_reverse (m : Z) : sort_key (Z.lxor m DIRED_SORT_DESCENDING) = sort_key m.
Proof. unfold sort_key. sort_bits. Qed.

Lemma sort_key_ascending (m : Z) :
  sort_key (Z.land m (Z.lnot DIRED_SORT_DESCENDING)) = sort_key m.
Proof. unfold sort_key. sort_bits. Qed.

Lemma sort_key_descending (m : Z) :
  sort_key (Z.lor m DIRED_SORT_DESCENDING) = sort_key m.
Proof. unfold sort_key. sort_bits. Qed.

Lemma dired_sort_mode_char_one_key `{HostFiles} (m : Z) (c : ascii) :
  one_key m -> one_key (dired_sort_mode_char m c).
Proof.
  intros Hm. unfold dired_sort_mode_char, one_key.
  repeat match goal with
    | |- context [if ?t then _ else _] => destruct t
    end;
    rewrite ?sort_key_set, ?sort_key_group, ?sort_key_ungroup, ?sort_key_reverse,
      ?sort_key_ascending, ?sort_key_descending by tauto;
    tauto.
Qed.

(** X11.  Whatever string is given and whatever the host's case folding,
    the sort mode keeps exactly one primary key: a mode with one of name,
    extension, size and date still has one after the string is applied. *)
Theorem dired_sort_mode_keeps_one_key (F : HostFiles) (str : string) :
  forall sort_mode,
    one_key sort_mode -> one_key (dired_sort_mode_scan str sort_mode).
Proof.
  induction str as [|c rest IH]; intros m Hm; cbn [dired_sort_mode_scan];
    [exact Hm |].
  destruct (char_code c =? 0); [exact Hm |].
  apply IH, dired_sort_mode_char_one_key, Hm.
Qed.

Lemma dired_sort_mode_keeps_one_key_witness :
  one_key (@dired_sort_mode_scan sample_files "Sx-gD"
             (Z.lor DIRED_SORT_GROUP DIRED_SORT_NAME)).
Proof.
  apply (dired_sort_mode_keeps_one_key sample_files). left. reflexivity.
Defined.

Lemma dired_sort_mode_char_ignored `{HostFiles} (m : Z) (c : ascii) :
  sort_letter (qe_tolower (char_code c)) = false -> dired_sort_mode_char m c = m.
Proof.
  unfold sort_letter, dired_sort_mode_char. intros Hletter.
  repeat (apply orb_false_iff in Hletter; destruct Hletter as [Hletter ?]).
  repeat match goal with
    | Heq : (?a =? ?b) = false |- _ => rewrite Heq; clear Heq
    end.
  reflexivity.
Qed.

Lemma dired_sort_mode_scan_ignored `{HostFiles} (str : string) (m : Z) :
  string_forall (fun c => negb (sort_letter (qe_tolower (char_code c)))) str = true ->
  dired_sort_mode_scan str m = m.
Proof.
  induction str as [|c rest IH]; cbn [dired_sort_mode_scan string_forall];
    [reflexivity |].
  intros Hall. apply andb_true_iff in Hall. destruct Hall as [Hc Hrest].
  destruct (char_code c =? 0); [reflexivity |].
  rewrite dired_sort_mode_char_ignored by (apply negb_true_iff, Hc).
  apply IH, Hrest.
Qed.

(** X12.  A sort string none of whose characters folds to one of
    [n e s d g u r + -] changes nothing: the mode scanned is the mode
    given, and the sort command leaves the variables, the modification
    mark, the state, the buffer and the window as they were. *)
Theorem dired_sort_ignores_unknown (H : Host) (F : HostFiles) (g : DiredGlobals)
    (vp_modified : Z) (ds : option DiredState) (b : EditBuffer) (s : EditState)
    (str : string) :
  string_forall (fun c => negb (sort_letter (qe_tolower (char_code c)))) str = true ->
  (forall sort_mode, dired_sort_mode_scan str sort_mode = sort_mode)
  /\ dired_sort g vp_modified ds b s (Some str) = (g, vp_modified, ds, b, Some s).
Proof.
  intros Hall. split.
  - intros m. apply dired_sort_mode_scan_ignored, Hall.
  - unfold dired_sort, dired_sort_mode_set_value.
    rewrite dired_sort_mode_scan_ignored by exact Hall.
    rewrite Z.eqb_refl. cbn [negb]. rewrite Z.eqb_refl. reflexivity.
Qed.

Lemma dired_sort_ignores_unknown_witness :
  @dired_sort sample_host sample_files dired_globals_init 0 None empty_buffer
    {| s_width := 80; s_offset := 0; s_offset_top := 0 |} (Some "xyz 42")
  = (dired_globals_init, 0, None, empty_buffer,
     Some {| s_width := 80; s_offset := 0; s_offset_top := 0 |}).
Proof.
  apply (dired_sort_ignores_unknown sample_host sample_files). reflexivity.
Defined.

(** ** Filter: what it changes *)

Lemma dired_filter_step_again (g : DiredGlobals) (c : FilterCounts) (it : StringItem) :
  dired_filter_step g c (snd (dired_filter_step g {| fc_total_bytes := 0;
      fc_ndirs := 0; fc_nfiles := 0; fc_ndirs_hidden := 0;
      fc_nfiles_hidden := 0 |} it))
  = dired_filter_step g c it.
Proof. reflexivity. Qed.

Lemma dired_filter_loop_again (g : DiredGlobals) (its : list StringItem) :
  forall c c0,
    dired_filter_loop g c (snd (dired_filter_loop g c0 its))
    = dired_filter_loop g c its.
Proof.
  induction its as [|it rest IH]; intros c c0; [reflexivity |].
  rewrite (dired_filter_loop_cons g c0 it rest). cbn [snd].
  rewrite !dired_filter_loop_cons. cbn [fst snd].
  change (dired_filter_step g c (snd (dired_filter_step g c0 it)))
    with (dired_filter_step g c it).
  rewrite IH. reflexivity.
Qed.

(** X13.  The filter is idempotent, and it changes only the hidden
    flags, the five counters and the snapshot of the two visibility
    settings: the items keep their order and every other field, and the
    state afterwards agrees with the settings. *)
Theorem dired_filter_files_idempotent (g : DiredGlobals) (ds : DiredState) :
  dired_filter_files g (dired_filter_files g ds) = dired_filter_files g ds
  /\ map (fun it => (str it, set_hidden 0 (opaque it))) (items (dired_filter_files g ds))
     = map (fun it => (str it, set_hidden 0 (opaque it))) (items ds)
  /\ filter_changed g (dired_filter_files g ds) = false
  /\ erase_filter_fields (dired_filter_files g ds) = erase_filter_fields ds.
Proof.
  split; [| split; [| split]].
  - unfold dired_filter_files at 1 2.
    pose proof (dired_filter_loop_again g (items ds)
                  {| fc_total_bytes := 0; fc_ndirs := 0; fc_nfiles := 0;
                     fc_ndirs_hidden := 0; fc_nfiles_hidden := 0 |}
                  {| fc_total_bytes := 0; fc_ndirs := 0; fc_nfiles := 0;
                     fc_ndirs_hidden := 0; fc_nfiles_hidden := 0 |}) as Hagain.
    unfold dired_filter_files.
    destruct (dired_filter_loop g _ (items ds)) as [c its] eqn:Hloop.
    cbn [snd items set_filter_counts] in *. rewrite Hagain. reflexivity.
  - rewrite dired_filter_files_items, map_map. reflexivity.
  - unfold dired_filter_files.
    destruct (dired_filter_loop g _ (items ds)) as [c its].
    unfold filter_changed. cbn [show_dot_files show_ds_store set_filter_counts].
    rewrite !Z.eqb_refl. reflexivity.
  - unfold erase_filter_fields, dired_filter_files.
    destruct (dired_filter_loop g _ (items ds)) as [c its]. reflexivity.
Qed.

(** ** Update orchestrator: the state it leaves *)

Lemma truth_lor_bit (flags k : Z) :
  0 <= k -> truth (Z.land (Z.lor flags (2 ^ k)) (2 ^ k)) = true.
Proof.
  intros Hk. rewrite truth_land_bit, Z.lor_spec, Z.pow2_bits_true by lia.
  apply orb_true_r.
Qed.

Lemma dired_sort_stage_clean `{Host} (g : DiredGlobals) (ds : DiredState) (flags : Z) :
  sort_changed g (snd (dired_sort_stage g ds flags)) = false.
Proof.
  unfold dired_sort_stage, sort_changed.
  destruct (Z.eqb_spec (sort_mode ds) (dired_sort_mode g)) as [Heq | Hne];
    cbn [negb].
  - destruct (truth (Z.land flags DIRED_UPDATE_SORT)); cbn [snd sort_mode set_sorted].
    + rewrite Z.eqb_refl. reflexivity.
    + rewrite Heq, Z.eqb_refl. reflexivity.
  - change DIRED_UPDATE_SORT with (2 ^ 0). rewrite truth_lor_bit by lia.
    cbn [snd sort_mode set_sorted]. rewrite Z.eqb_refl. reflexivity.
Qed.

Lemma dired_filter_stage_clean (g : DiredGlobals) (ds : DiredState) (flags : Z) :
  let ds' := snd (dired_filter_stage g ds flags) in
  filter_changed g ds' = false /\ sort_changed g ds' = sort_changed g ds.
Proof.
  unfold dired_filter_stage.
  assert (Hran : filter_changed g (dired_filter_files g ds) = false
                 /\ sort_changed g (dired_filter_files g ds) = sort_changed g ds).
  { unfold dired_filter_files.
    destruct (dired_filter_loop g _ (items ds)) as [c its].
    unfold filter_changed, sort_changed.
    cbn [show_dot_files show_ds_store sort_mode set_filter_counts].
    rewrite !Z.eqb_refl. split; reflexivity. }
  fold (filter_changed g ds).
  destruct (filter_changed g ds) eqn:Hchanged.
  - change DIRED_UPDATE_FILTER with (2 ^ 1). rewrite truth_lor_bit by lia.
    exact Hran.
  - destruct (truth (Z.land flags DIRED_UPDATE_FILTER)); [exact Hran |].
    cbn [snd]. split; [exact Hchanged | reflexivity].
Qed.


Lemma dired_columns_stage_clean `{Host} (g : DiredGlobals) (ds : DiredState) (flags : Z) :
  let r := dired_columns_stage g ds flags in
  let g' := fst (snd r) in
  let ds' := snd (snd r) in
  same_config g g'
  /\ formats_agree g ds' = true
  /\ sort_changed g ds' = sort_changed g ds
  /\ filter_changed g ds' = filter_changed g ds
  /\ details_flag ds' = details_flag ds
  /\ (truth (Z.land (fst r) DIRED_UPDATE_REBUILD) = false ->
      (details_flag ds' =? last_details_flag ds') = true).
Proof.
  unfold dired_columns_stage. fold (columns_changed g ds).
  assert (Hran : let r := (Z.lor (raise_bit (columns_changed g ds)
                                    DIRED_UPDATE_COLUMNS flags)
                             DIRED_UPDATE_REBUILD,
                           dired_compute_columns g ds) in
                 same_config g (fst (snd r))
                 /\ formats_agree g (snd (snd r)) = true
                 /\ sort_changed g (snd (snd r)) = sort_changed g ds
                 /\ filter_changed g (snd (snd r)) = filter_changed g ds
                 /\ details_flag (snd (snd r)) = details_flag ds
                 /\ (truth (Z.land (fst r) DIRED_UPDATE_REBUILD) = false ->
                     (details_flag (snd (snd r)) =? last_details_flag (snd (snd r)))
                     = true)).
  { cbn [fst snd]. unfold dired_compute_columns. cbn [fst snd].
    unfold same_config, formats_agree, sort_changed, filter_changed.
    cbn [set_curtime set_column_widths set_column_flags dired_time_format
         dired_show_dot_files dired_show_ds_store dired_nflag dired_hflag
         dired_sort_mode time_format nflag hflag sort_mode show_dot_files
         show_ds_store details_flag].
    rewrite !Z.eqb_refl. repeat split.
    change DIRED_UPDATE_REBUILD with (2 ^ 3). rewrite truth_lor_bit by lia.
    discriminate. }
  unfold raise_bit in Hran.
  destruct (columns_changed g ds) eqn:Hchanged.
  - assert (Hbit : truth (Z.land (Z.lor flags DIRED_UPDATE_COLUMNS)
                                   DIRED_UPDATE_COLUMNS) = true)
      by exact (truth_lor_bit flags 2 ltac:(lia)).
    rewrite Hbit. exact Hran.
  - destruct (truth (Z.land flags DIRED_UPDATE_COLUMNS)); [exact Hran |].
    cbn [fst snd]. unfold columns_changed in Hchanged.
    repeat (apply orb_false_iff in Hchanged; destruct Hchanged as [Hchanged ?]).
    repeat match goal with
      | Hneg : negb _ = false |- _ => apply negb_false_iff in Hneg
      end.
    unfold same_config, formats_agree.
    repeat split; try reflexivity; try assumption.
    + repeat (apply andb_true_iff; split); assumption.
    + intros _. assumption.
Qed.

(** The rebuild keeps the configuration snapshot of the state and records
    the detail flag it laid the columns out for. *)
Lemma dired_rebuild_keeps `{Host} (g0 g : DiredGlobals) (ds : DiredState)
    (b : EditBuffer) (s : option EditState) (width window_width top_line : Z)
    (cur_item : option DiredItem) :
  let ds' := fst (fst (dired_rebuild g ds b s width window_width top_line cur_item)) in
  sort_changed g0 ds' = sort_changed g0 ds
  /\ filter_changed g0 ds' = filter_changed g0 ds
  /\ formats_agree g0 ds' = formats_agree g0 ds
  /\ details_flag ds' = details_flag ds
  /\ last_details_flag ds' = details_flag ds
  /\ last_width ds' = window_width.
Proof.
  unfold dired_rebuild.
  destruct ((dired_render_header _ ;;; eb_style DIRED_STYLE_NORMAL ;;;
             dired_render_items g _ cur_item _ _) (eb_clear b)) as [[its acc] b'].
  cbn [fst snd]. repeat split.
Qed.

(** After any update of a state, the state agrees with the variables. *)
Lemma dired_update_buffer_clean `{Host} (g : DiredGlobals) (ds : DiredState)
    (b : EditBuffer) (s : option EditState) (flags : Z) :
  let r := dired_update_buffer g (Some ds) b s flags in
  exists ds',
    result_state r = Some ds'
    /\ same_config g (result_globals r)
    /\ config_changed g ds' = false.
Proof.
  unfold dired_update_buffer, result_state, result_globals, dired_update_stages.
  pose proof (dired_sort_stage_clean g ds flags) as Hsort.
  destruct (dired_sort_stage g ds flags) as [flags1 ds1]. cbn [snd] in Hsort.
  pose proof (dired_filter_stage_clean g ds1 flags1) as [Hfilter Hsort'].
  destruct (dired_filter_stage g ds1 flags1) as [flags2 ds2]. cbn [snd] in *.
  pose proof (dired_columns_stage_clean g ds2 flags2)
    as (Hcfg & Hfmt & Hsort'' & Hfilter' & Hdet & Hidle).
  destruct (dired_columns_stage g ds2 flags2) as [flags3 [g3 ds3]].
  cbn [fst snd] in *.
  assert (Hclean : forall d,
             sort_changed g d = sort_changed g ds3 ->
             filter_changed g d = filter_changed g ds3 ->
             formats_agree g d = formats_agree g ds3 ->
             (details_flag d =? last_details_flag d) = true ->
             config_changed g d = false).
  { intros d Hs Hf Hm Hd. unfold config_changed, columns_changed.
    rewrite Hs, Hsort'', Hsort', Hsort, Hf, Hfilter', Hfilter, Hd.
    rewrite Hfmt in Hm. unfold formats_agree in Hm.
    apply andb_true_iff in Hm. destruct Hm as [Hm Hh].
    apply andb_true_iff in Hm. destruct Hm as [Ht Hn].
    rewrite Ht, Hn, Hh. reflexivity. }
  assert (Hrebuilt : forall s0 width ww top cur,
             config_changed g
               (fst (fst (dired_rebuild g3 ds3 b s0 width ww top cur))) = false).
  { intros s0 width ww top cur.
    destruct (dired_rebuild_keeps g g3 ds3 b s0 width ww top cur)
      as (Hs & Hf & Hm & Hd & Hl & _).
    apply Hclean; auto. rewrite Hd, Hl. apply Z.eqb_refl. }
  destruct s as [s |]; cbn iota beta;
    destruct (truth (Z.land flags3 DIRED_UPDATE_REBUILD)) eqn:Hbit; cbn [negb].
  - specialize (Hrebuilt (Some s)
                  (Z.quot (s_width s) (max_int 1 (get_glyph_width s))) (s_width s)
                  (eb_get_line b (s_offset_top s)) (dired_get_cur_item ds b s)).
    destruct (dired_rebuild g3 ds3 b _ _ _ _ _) as [[d' b'] s'].
    exists d'. cbn [fst snd] in *. auto.
  - exists ds3. cbn [fst snd]. split; [reflexivity |]. split; [exact Hcfg |].
    apply Hclean; auto.
  - specialize (Hrebuilt None 80 80 0 None).
    destruct (dired_rebuild g3 ds3 b _ _ _ _ _) as [[d' b'] s'].
    exists d'. cbn [fst snd] in *. auto.
  - exists ds3. cbn [fst snd]. split; [reflexivity |]. split; [exact Hcfg |].
    apply Hclean; auto.
Qed.

Lemma config_changed_same (g g' : DiredGlobals) (ds : DiredState) :
  same_config g g' -> config_changed g' ds = config_changed g ds.
Proof.
  intros (Ht & Hd & Hs & Hn & Hh & Hm).
  unfold config_changed, sort_changed, filter_changed, columns_changed.
  rewrite Ht, Hd, Hs, Hn, Hh, Hm. reflexivity.
Qed.

(** X14.  After any update of a listing state, the state agrees with the
    configuration, which the update leaves as it was: no change is left to
    detect, and a second update with no bit passed returns everything
    unchanged. *)
Theorem dired_update_buffer_settles (H : Host) (g : DiredGlobals) (ds : DiredState)
    (b : EditBuffer) (s : option EditState) (flags : Z) :
  let r := dired_update_buffer g (Some ds) b s flags in
  exists ds',
    result_state r = Some ds'
    /\ same_config g (result_globals r)
    /\ config_changed (result_globals r) ds' = false
    /\ dired_update_buffer (result_globals r) (Some ds') (result_buffer r)
         (result_window r) 0 = r.
Proof.
  intros r.
  destruct (dired_update_buffer_clean g ds b s flags) as (ds' & Hst & Hcfg & Hclean).
  fold r in Hst, Hcfg. exists ds'.
  rewrite <- (config_changed_same g (result_globals r) ds' Hcfg) in Hclean.
  split; [exact Hst |]. split; [exact Hcfg |]. split; [exact Hclean |].
  destruct (dired_update_stages_idle (result_globals r) ds' 0 eq_refl Hclean)
    as [Hidle Hbit].
  unfold dired_update_buffer. rewrite Hidle.
  destruct r as [[[g' d'] b'] s']. unfold result_state in Hst. cbn [fst snd] in Hst.
  subst d'. unfold result_globals, result_buffer, result_window. cbn [fst snd].
  destruct s' as [s' |]; cbn iota beta; rewrite Hbit; reflexivity.
Qed.

(** ** Rendering loop *)

(** X15.  Hidden items write nothing: the buffer the rendering loop
    leaves is the one it leaves for the visible items alone, whichever
    item is current. *)
Theorem dired_render_items_skips_hidden (H : Host) (g : DiredGlobals) (ds : DiredState)
    (cur cur' : option DiredItem) (its : list StringItem) :
  forall acc acc' b,
    snd (dired_render_items g ds cur its acc b)
    = snd (dired_render_items g ds cur' (visible_items its) acc' b).
Proof.
  induction its as [|it rest IH]; intros acc acc' b; [reflexivity |].
  destruct (dired_render_items_cons g ds cur it rest acc b) as (acc1 & Hbuf & _).
  rewrite Hbuf. cbn [visible_items].
  destruct (truth (hidden (opaque it))) eqn:Hhid.
  - apply IH.
  - destruct (dired_render_items_cons g ds cur' it (visible_items rest) acc' b)
      as (acc2 & Hbuf' & _).
    rewrite Hbuf', Hhid. apply IH.
Qed.

(** X16.  The rendering loop returns the items in the same order and
    changes nothing in them but the offset it stores. *)
Theorem dired_render_items_keeps_items (H : Host) (g : DiredGlobals) (ds : DiredState)
    (cur : option DiredItem) (its : list StringItem) :
  forall acc b,
    map item_less_offset (fst (fst (dired_render_items g ds cur its acc b)))
    = map item_less_offset its.
Proof.
  induction its as [|it rest IH]; intros acc b; [reflexivity |].
  destruct (dired_render_items_cons g ds cur it rest acc b) as (acc1 & _ & Hits).
  rewrite Hits. cbn [map]. rewrite IH. reflexivity.
Qed.

(** ** Current item and target *)

Lemma dired_cur_item_loop_visible (its : list StringItem) :
  forall index dip,
    dired_cur_item_loop its index = Some dip ->
    truth (hidden dip) = false /\ List.In dip (map opaque its).
Proof.
  induction its as [|it rest IH]; intros index dip; cbn [dired_cur_item_loop map];
    [discriminate |].
  destruct (truth (hidden (opaque it))) eqn:Hhid.
  - intros Hfound. destruct (IH _ _ Hfound). split; [assumption | right; assumption].
  - destruct (index =? 0).
    + intros [= <-]. split; [exact Hhid | left; reflexivity].
    + intros Hfound. destruct (IH _ _ Hfound).
      split; [assumption | right; assumption].
Qed.

(** X17.  The current item is never a hidden one: when the cursor is on
    one of the two header lines there is no current item, and an item
    found is an item of the listing that is not hidden. *)
Theorem dired_get_cur_item_visible (H : Host) (ds : DiredState) (b : EditBuffer)
    (s : EditState) :
  (INT_MIN + DIRED_HEADER <= list_get_pos b s < DIRED_HEADER ->
   dired_get_cur_item ds b s = None)
  /\ (forall dip,
        dired_get_cur_item ds b s = Some dip ->
        truth (hidden dip) = false /\ List.In dip (map opaque (items ds))).
Proof.
  unfold dired_get_cur_item. split.
  - intros Hpos. unfold DIRED_HEADER, INT_MIN in *.
    rewrite int_sub_small by (unfold INT_MIN, INT_MAX; lia).
    destruct (list_get_pos b s - 2 >=? 0) eqn:Hge; [| reflexivity].
    apply Z.geb_le in Hge. lia.
  - intros dip. destruct (int_sub (list_get_pos b s) DIRED_HEADER >=? 0);
      [apply dired_cur_item_loop_visible | discriminate].
Qed.

Lemma dired_get_cur_item_visible_witness :
  @dired_get_cur_item sample_host
    (sample_state [sample_item 1 "a" 0x81A4 1]) empty_buffer
    {| s_width := 80; s_offset := 0; s_offset_top := 0 |} = None.
Proof.
  apply (dired_get_cur_item_visible sample_host).
  cbn. unfold INT_MIN, DIRED_HEADER. lia.
Defined.

Lemma dired_find_target_loop_cons `{HostFiles} (ds : DiredState) (target : string)
    (it : StringItem) (rest : list StringItem) (row : Z) :
  dired_find_target_loop ds target (it :: rest) row
  = if dired_item_matches ds target it then row
    else dired_find_target_loop ds target rest
           (if negb (truth (hidden (opaque it))) then int_add row 1 else row).
Proof. reflexivity. Qed.

(** The row the search returns, and the item the cursor finds there. *)
Lemma dired_find_target_loop_spec `{HostFiles} (ds : DiredState) (target : string)
    (its : list StringItem) :
  forall row,
    0 <= row -> row + Z.of_nat (length its) <= INT_MAX ->
    match dired_first_match ds target its with
    | None => dired_find_target_loop ds target its row = DIRED_HEADER
    | Some dip =>
        row <= dired_find_target_loop ds target its row
            <= row + Z.of_nat (length its)
        /\ (truth (hidden dip) = false ->
            dired_cur_item_loop its (dired_find_target_loop ds target its row - row)
            = Some dip)
    end.
Proof.
  induction its as [|it rest IH]; intros row Hrow Hlen; [reflexivity |].
  rewrite dired_find_target_loop_cons. cbn [dired_first_match length] in *.
  destruct (dired_item_matches ds target it).
  - split; [lia |]. intros Hvis. rewrite Z.sub_diag.
    cbn [dired_cur_item_loop]. rewrite Hvis. reflexivity.
  - cbn [dired_cur_item_loop].
    destruct (truth (hidden (opaque it))) eqn:Hhid; cbn [negb].
    + specialize (IH row Hrow ltac:(lia)).
      destruct (dired_first_match ds target rest) as [dip |]; [| exact IH].
      destruct IH as [Hbounds Hcur]. split; [lia | exact Hcur].
    + rewrite int_add_small by (unfold INT_MIN, INT_MAX in *; lia).
      specialize (IH (row + 1) ltac:(lia) ltac:(lia)).
      destruct (dired_first_match ds target rest) as [dip |]; [| exact IH].
      destruct IH as [Hbounds Hcur]. split; [lia |]. intros Hvis.
      destruct (Z.eqb_spec (dired_find_target_loop ds target rest (row + 1) - row) 0)
        as [H0 | _]; [lia |].
      rewrite int_sub_small by (unfold INT_MIN, INT_MAX in *; lia).
      replace (dired_find_target_loop ds target rest (row + 1) - row - 1)
        with (dired_find_target_loop ds target rest (row + 1) - (row + 1)) by lia.
      apply Hcur, Hvis.
Qed.

(** X18.  Finding a target and looking up the current item compose: when
    the first item whose file name is the target is not hidden, a cursor
    placed on the row [dired_find_target] returns has that item as its
    current item. *)
Theorem dired_find_target_then_cur_item (H : Host) (F : HostFiles) (ds : DiredState)
    (b : EditBuffer) (s : EditState) (target : string) (dip : DiredItem) :
  Z.of_nat (length (items ds)) + DIRED_HEADER <= INT_MAX ->
  dired_first_match ds target (items ds) = Some dip ->
  truth (hidden dip) = false ->
  list_get_pos b s = dired_find_target ds (Some target) ->
  dired_get_cur_item ds b s = Some dip.
Proof.
  intros Hlen Hmatch Hvis Hpos. unfold dired_get_cur_item, dired_find_target in *.
  pose proof (dired_find_target_loop_spec ds target (items ds) DIRED_HEADER
                ltac:(unfold DIRED_HEADER; lia) ltac:(lia)) as Hspec.
  rewrite Hmatch in Hspec. destruct Hspec as [Hbounds Hcur].
  rewrite Hpos.
  rewrite int_sub_small by (unfold INT_MIN, INT_MAX, DIRED_HEADER in *; lia).
  destruct (_ - DIRED_HEADER >=? 0) eqn:Hge;
    [| rewrite Z.geb_leb in Hge; apply Z.leb_gt in Hge; lia].
  apply Hcur, Hvis.
Qed.

(** X19.  A target that is null or that no item's file name equals sends
    the cursor to the first row after the header; a target found gives a
    row between that one and the last item's. *)
Theorem dired_find_target_bounds (F : HostFiles) (ds : DiredState)
    (target : option string) :
  Z.of_nat (length (items ds)) + DIRED_HEADER <= INT_MAX ->
  DIRED_HEADER <= dired_find_target ds target
               <= DIRED_HEADER + Z.of_nat (length (items ds))
  /\ (match target with
      | None => True
      | Some target => dired_first_match ds target (items ds) = None
      end ->
      dired_find_target ds target = DIRED_HEADER).
Proof.
  intros Hlen. destruct target as [target |]; cbn [dired_find_target].
  - pose proof (dired_find_target_loop_spec ds target (items ds) DIRED_HEADER
                  ltac:(unfold DIRED_HEADER; lia) ltac:(lia)) as Hspec.
    destruct (dired_first_match ds target (items ds)) as [dip |].
    + split; [apply Hspec | discriminate].
    + rewrite Hspec. split; [lia | reflexivity].
  - split; [lia | reflexivity].
Qed.

Lemma dired_find_target_then_cur_item_witness :
  @dired_get_cur_item row_cursor_host
    (sample_state [sample_item 1 "a" 0x81A4 1; sample_item 2 "b" 0x81A4 2])
    empty_buffer {| s_width := 80; s_offset := 3; s_offset_top := 0 |}
  = Some (opaque (sample_item 2 "b" 0x81A4 2)).
Proof.
  apply (dired_find_target_then_cur_item row_cursor_host sample_files _ _ _ "/d/b").
  - cbn. unfold INT_MAX, DIRED_HEADER. lia.
  - reflexivity.
  - reflexivity.
  - reflexivity.
Defined.

Lemma dired_find_target_bounds_witness :
  @dired_find_target sample_files
    (sample_state [sample_item 1 "a" 0x81A4 1; sample_item 2 "b" 0x81A4 2])
    (Some "/d/zz") = DIRED_HEADER.
Proof.
  apply (dired_find_target_bounds sample_files
           (sample_state [sample_item 1 "a" 0x81A4 1; sample_item 2 "b" 0x81A4 2])
           (Some "/d/zz")).
  - cbn. unfold INT_MAX, DIRED_HEADER. lia.
  - reflexivity.
Defined.

(** ** Column measurement *)

Lemma dired_columns_step_namelen `{Host} (g : DiredGlobals) (ds : DiredState)
    (w : ColumnWidths) (it : StringItem) :
  cw_namelen (dired_columns_step g ds w it)
  = raise_to (cw_namelen w) (wrap_int (slen (name (opaque it)))).
Proof.
  unfold dired_columns_step.
  destruct (details_flag ds =? DIRED_DETAILS_HIDE); reflexivity.
Qed.

Lemma raise_to_upper (x len : Z) : len <= raise_to x len.
Proof. unfold raise_to. destruct (Z.ltb_spec x len); lia. Qed.

Lemma dired_columns_fold_namelen `{Host} (g : DiredGlobals) (ds : DiredState)
    (its : list StringItem) :
  forall w,
    cw_namelen w <= cw_namelen (fold_left (dired_columns_step g ds) its w)
    /\ Forall (fun it => wrap_int (slen (name (opaque it)))
                         <= cw_namelen (fold_left (dired_columns_step g ds) its w))
         its.
Proof.
  induction its as [|it rest IH]; intros w; cbn [fold_left].
  - split; [lia | constructor].
  - destruct (IH (dired_columns_step g ds w it)) as [Hmono Hall].
    rewrite dired_columns_step_namelen in Hmono.
    pose proof (raise_to_lower (cw_namelen w) (wrap_int (slen (name (opaque it))))).
    pose proof (raise_to_upper (cw_namelen w) (wrap_int (slen (name (opaque it))))).
    split; [lia |]. constructor; [lia | exact Hall].
Qed.

Lemma dired_columns_fold_hidden `{Host} (g : DiredGlobals) (ds : DiredState)
    (its : list StringItem) :
  details_flag ds = DIRED_DETAILS_HIDE ->
  forall w,
    let w' := fold_left (dired_columns_step g ds) its w in
    cw_blockslen w' = cw_blockslen w /\ cw_modelen w' = cw_modelen w
    /\ cw_linklen w' = cw_linklen w /\ cw_uidlen w' = cw_uidlen w
    /\ cw_gidlen w' = cw_gidlen w /\ cw_sizelen w' = cw_sizelen w
    /\ cw_datelen w' = cw_datelen w.
Proof.
  intros Hhide. induction its as [|it rest IH]; intros w; cbn [fold_left].
  - repeat split.
  - destruct (IH (dired_columns_step g ds w it)) as (Hb & Hm & Hl & Hu & Hg & Hs & Hd).
    cbv zeta. rewrite Hb, Hm, Hl, Hu, Hg, Hs, Hd.
    unfold dired_columns_step. rewrite Hhide.
    change (DIRED_DETAILS_HIDE =? DIRED_DETAILS_HIDE) with true. cbn iota.
    repeat split.
Qed.

(** X20.  The measurement makes the name width at least the length of
    every name, and when details are hidden it measures nothing else:
    the seven detail widths are left at 0. *)
Theorem dired_compute_columns_widths (H : Host) (g : DiredGlobals) (ds : DiredState) :
  let ds' := snd (dired_compute_columns g ds) in
  Forall (fun it => slen (name (opaque it)) <= INT_MAX ->
                    slen (name (opaque it)) <= namelen ds') (items ds)
  /\ (details_flag ds = DIRED_DETAILS_HIDE ->
      detail_widths ds' = [0; 0; 0; 0; 0; 0; 0]).
Proof.
  unfold dired_compute_columns. cbn [snd].
  set (g0 := set_curtime time_now g).
  set (ds0 := set_column_flags _ _ _ ds).
  set (w0 := {| cw_blockslen := 0; cw_modelen := 0; cw_linklen := 0;
                cw_uidlen := 0; cw_gidlen := 0; cw_sizelen := 0;
                cw_datelen := 0; cw_namelen := 0 |}).
  change (items ds0) with (items ds). split.
  - destruct (dired_columns_fold_namelen g0 ds0 (items ds) w0) as [_ Hall].
    cbn [namelen set_column_widths].
    eapply Forall_impl; [exact Hall |].
    intros it Hit Hlen. cbv beta in Hit.
    pose proof (slen_nonneg (name (opaque it))).
    rewrite wrap_int_small in Hit by (unfold INT_MIN, INT_MAX in *; lia).
    exact Hit.
  - intros Hhide.
    destruct (dired_columns_fold_hidden g0 ds0 (items ds) Hhide w0)
      as (Hb & Hm & Hl & Hu & Hg & Hs & Hd).
    unfold detail_widths.
    cbn [blockslen modelen linklen uidlen gidlen sizelen datelen set_column_widths].
    rewrite Hb, Hm, Hl, Hu, Hg, Hs, Hd. reflexivity.
Qed.

Lemma dired_compute_columns_widths_witness :
  detail_widths
    (snd (@dired_compute_columns sample_host dired_globals_init
            (set_details_flag DIRED_DETAILS_HIDE
               (sample_state [sample_item 1 "a.txt" 0x81A4 100]))))
  = [0; 0; 0; 0; 0; 0; 0].
Proof.
  apply (dired_compute_columns_widths sample_host dired_globals_init
           (set_details_flag DIRED_DETAILS_HIDE
              (sample_state [sample_item 1 "a.txt" 0x81A4 100]))).
  reflexivity.
Defined.

(** ** Time-format variable: range *)

(** Closes the four parts of the range property once the outcome of the
    setter is known. *)
Ltac time_format_cases :=
  split; [assumption || lia |];
  split; [intros Hx; first [discriminate Hx | split; reflexivity] |];
  split; [intros Hx; first [split; reflexivity | symmetry in Hx; contradiction] |];
  intros Hx; first [reflexivity | exfalso; apply Hx; reflexivity].

(** X21.  Whatever the host's token comparison, the string and the number
    passed, the setter keeps the time format within the known formats;
    a rejected request changes nothing, and the modification mark is
    raised only when the format really changes. *)
Theorem dired_time_format_stays_valid (H : Host) (g : DiredGlobals)
    (vp_modified : Z) (str : option string) (format : Z) :
  0 <= dired_time_format g <= TF_MAX ->
  let r := dired_time_format_set_value g vp_modified str format in
  0 <= dired_time_format (snd (fst r)) <= TF_MAX
  /\ (fst (fst r) = VAR_UNKNOWN -> snd (fst r) = g /\ snd r = vp_modified)
  /\ (dired_time_format (snd (fst r)) = dired_time_format g ->
      snd (fst r) = g /\ snd r = vp_modified)
  /\ (dired_time_format (snd (fst r)) <> dired_time_format g -> snd r = 1).
Proof.
  intros Hrange r. subst r. unfold dired_time_format_set_value.
  assert (Hstep : forall f,
             let r := if (f <? 0) || (f >? TF_MAX) then (VAR_UNKNOWN, g, vp_modified)
                      else if negb (dired_time_format g =? f)
                           then (VAR_NUMBER, set_time_format f g, 1)
                           else (VAR_NUMBER, g, vp_modified) in
             0 <= dired_time_format (snd (fst r)) <= TF_MAX
             /\ (fst (fst r) = VAR_UNKNOWN -> snd (fst r) = g /\ snd r = vp_modified)
             /\ (dired_time_format (snd (fst r)) = dired_time_format g ->
                 snd (fst r) = g /\ snd r = vp_modified)
             /\ (dired_time_format (snd (fst r)) <> dired_time_format g -> snd r = 1)).
  { intros f r. subst r.
    destruct (Z.ltb_spec f 0) as [Hneg | Hpos]; cbn [orb fst snd];
      [time_format_cases |].
    destruct (Z.gtb_spec f TF_MAX) as [Hbig | Hsmall]; cbn [fst snd];
      [time_format_cases |].
    destruct (Z.eqb_spec (dired_time_format g) f) as [Heq | Hne];
      cbn [negb fst snd dired_time_format set_time_format];
      time_format_cases. }
  destruct str as [str |]; [| apply Hstep].
  repeat match goal with
    | |- context [token_is str ?t] => destruct (token_is str t); [apply Hstep |]
    end.
  cbn [fst snd]. time_format_cases.
Qed.

Lemma dired_time_format_stays_valid_witness :
  0 <= dired_time_format
         (snd (fst (@dired_time_format_set_value sample_host dired_globals_init 0
                      None 9))) <= TF_MAX.
Proof.
  apply (dired_time_format_stays_valid sample_host dired_globals_init 0 None 9).
  unfold TF_MAX, TF_SECONDS, dired_globals_init, TF_COMPACT.
  cbn [dired_time_format]. lia.
Defined.

(** ** Directory scan *)

Lemma dired_scan_cons `{HostFiles} (a : Z) (filename : string) (rest : list string) :
  dired_scan a (filename :: rest)
  = match lstat filename with
    | Some st =>
        {| str := pstrcpy 1024 (get_basename filename);
           opaque := {| addr := a; fullname := filename;
                        mode := st_mode st; nlink := st_nlink st;
                        uid := st_uid st; gid := st_gid st;
                        rdev := st_rdev st; mtime := st_mtime st;
                        size := st_size st; offset := 0; hidden := 0;
                        mark := " "; name := get_basename filename |} |}
        :: dired_scan (a + 1) rest
    | None => dired_scan a rest
    end.
Proof.
  cbn [dired_scan]. unfold dired_scan_entry.
  destruct (lstat filename); reflexivity.
Qed.

Lemma dired_scan_items `{HostFiles} (filenames : list string) :
  forall a, Forall scanned_item (dired_scan a filenames).
Proof.
  induction filenames as [|filename rest IH]; intros a; [constructor |].
  rewrite dired_scan_cons.
  destruct (lstat filename) as [st |] eqn:Hstat; [| apply IH].
  constructor; [| apply IH].
  exists st.
  cbn [opaque fullname name str mode nlink uid gid rdev mtime size hidden mark].
  repeat split; auto.
Qed.

(** X22.  The scan skips the file names whose metadata cannot be read and
    keeps the others in the order of the enumeration; each item it makes
    carries the seven fields read for its file (mode, link count, owner,
    group, device id, modification time, size), the base name of the file
    as its name and the bounded copy of that name as its text, and is
    neither hidden nor marked. *)
Theorem dired_scan_keeps_readable (F : HostFiles) (a : Z) (filenames : list string) :
  map (fun it => fullname (opaque it)) (dired_scan a filenames)
  = stat_ok_names filenames
  /\ Forall scanned_item (dired_scan a filenames).
Proof.
  split; [| apply dired_scan_items].
  revert a. induction filenames as [|filename rest IH]; intros a; [reflexivity |].
  rewrite dired_scan_cons. cbn [stat_ok_names].
  destruct (lstat filename) as [st |] eqn:Hstat; [| apply IH].
  cbn [map opaque fullname]. rewrite IH. reflexivity.
Qed.

Lemma substring_eqb (t : string) :
  forall (n : nat) (s : string),
    (String.length t < n)%nat ->
    String.eqb (String.substring 0 n s) t = String.eqb s t.
Proof.
  induction t as [|d t IH]; intros n s Hlen.
  - destruct n as [|n]; [cbn in Hlen; lia |]. destruct s; reflexivity.
  - destruct n as [|n]; [cbn in Hlen; lia |].
    destruct s as [|c s]; [reflexivity |].
    cbn [String.substring String.eqb]. rewrite IH by (cbn in Hlen; lia).
    reflexivity.
Qed.

Lemma substring_starts_with_dot (n : nat) (s : string) :
  (0 < n)%nat ->
  starts_with_dot (String.substring 0 n s) = starts_with_dot s.
Proof.
  intros Hn. destruct n as [|n]; [lia |]. destruct s; reflexivity.
Qed.

Lemma dired_item_hidden_truncated (g : DiredGlobals) (n : nat) (s : string) :
  (9 < n)%nat ->
  dired_item_hidden g (String.substring 0 n s) = dired_item_hidden g s.
Proof.
  intros Hn. unfold dired_item_hidden, strequal.
  rewrite substring_starts_with_dot by lia.
  rewrite (substring_eqb ".DS_Store" n s) by (cbn; lia). reflexivity.
Qed.

(** X23.  When the bounded copy of the host keeps the first 1023
    characters of a name, filtering the items of a scan decides from the
    file's own base name: an item is hidden exactly when its name starts
    with a dot and dot files are not shown, or is [.DS_Store] and system
    files are not shown. *)
Theorem dired_scan_filter_by_name (F : HostFiles) (g : DiredGlobals) (ds : DiredState)
    (a : Z) (filenames : list string) :
  truncating_copy pstrcpy ->
  items ds = dired_scan a filenames ->
  Forall (fun it =>
            name (opaque it) = get_basename (fullname (opaque it))
            /\ hidden (opaque it) = of_bool (spec_hidden g (name (opaque it))))
    (items (dired_filter_files g ds)).
Proof.
  intros Hcopy Hitems. rewrite dired_filter_files_items, Hitems.
  pose proof (dired_scan_items filenames a) as Hscan. clear Hitems.
  set (its := dired_scan a filenames) in *. clearbody its.
  induction Hscan as [|it rest Hit Hrest IH]; cbn [map]; constructor; [| exact IH].
  destruct Hit as (st & _ & Hname & Hstr & _).
  cbn [opaque set_opaque name set_hidden hidden]. split; [exact Hname |].
  rewrite Hstr, Hcopy by lia.
  rewrite dired_item_hidden_truncated by (change (Z.to_nat (1024 - 1)) with 1023%nat; lia).
  apply dired_item_hidden_spec.
Qed.

Lemma dired_scan_filter_by_name_witness :
  Forall (fun it =>
            name (opaque it) = @get_basename sample_files (fullname (opaque it))
            /\ hidden (opaque it)
               = of_bool (spec_hidden dired_globals_init (name (opaque it))))
    (items (dired_filter_files dired_globals_init
              (sample_state
                 (@dired_scan sample_files 1 ["/d/.DS_Store"; "/d/gone"; "/d/a"])))).
Proof.
  apply (dired_scan_filter_by_name sample_files dired_globals_init
           (sample_state
              (@dired_scan sample_files 1 ["/d/.DS_Store"; "/d/gone"; "/d/a"]))
           1 ["/d/.DS_Store"; "/d/gone"; "/d/a"]).
  - intros size s Hsize. reflexivity.
  - reflexivity.
Defined.

(** ** Toggles *)

Lemma next_of_three_range (x : Z) : -2 <= next_of_three x <= 2.
Proof.
  unfold next_of_three.
  pose proof (Z.rem_bound_abs (int_add x 1) 3 ltac:(lia)). lia.
Qed.

Lemma next_of_three_cycle (x : Z) :
  0 <= x <= 2 ->
  next_of_three x = next_in_cycle x
  /\ thrice next_of_three x = x /\ next_of_three x <> x.
Proof.
  intros Hx.
  assert (Hcases : x = 0 \/ x = 1 \/ x = 2) by lia.
  destruct Hcases as [-> | [-> | ->]]; vm_compute; repeat split; congruence.
Qed.

Lemma next_of_three_settles (x : Z) : 0 <= thrice next_of_three x <= 2.
Proof.
  unfold thrice.
  pose proof (next_of_three_range x) as Hr.
  set (y := next_of_three x) in *. clearbody y.
  assert (Hcases : y = -2 \/ y = -1 \/ y = 0 \/ y = 1 \/ y = 2) by lia.
  destruct Hcases as [-> | [-> | [-> | [-> | ->]]]]; vm_compute;
    split; congruence.
Qed.

(** X24.  The three-way toggles (size format, owner format, detail mode)
    step through 0, 1, 2.  From a value in that range one toggle of each
    installs the next value of the cycle -- a different one -- and touches
    nothing else, and three toggles give everything back; the detail
    toggle does nothing without a listing state; and from any value
    whatever, three toggles leave a value in the range. *)
Theorem dired_toggles_cycle (g : DiredGlobals) (ds : DiredState) :
  (0 <= dired_hflag g <= 2 ->
   dired_toggle_human g = set_hflag_var (next_in_cycle (dired_hflag g)) g
   /\ dired_hflag (dired_toggle_human g) <> dired_hflag g
   /\ thrice dired_toggle_human g = g)
  /\ (0 <= dired_nflag g <= 2 ->
      dired_toggle_nflag g = set_nflag_var (next_in_cycle (dired_nflag g)) g
      /\ dired_nflag (dired_toggle_nflag g) <> dired_nflag g
      /\ thrice dired_toggle_nflag g = g)
  /\ (0 <= details_flag ds <= 2 ->
      exists ds',
        dired_hide_details_mode (Some ds) = Some ds'
        /\ ds' = set_details_flag (next_in_cycle (details_flag ds)) ds
        /\ details_flag ds' <> details_flag ds
        /\ thrice dired_hide_details_mode (Some ds) = Some ds)
  /\ dired_hide_details_mode None = None
  /\ 0 <= dired_hflag (thrice dired_toggle_human g) <= 2
  /\ 0 <= dired_nflag (thrice dired_toggle_nflag g) <= 2
  /\ (exists ds3,
        thrice dired_hide_details_mode (Some ds) = Some ds3
        /\ 0 <= details_flag ds3 <= 2).
Proof.
  split; [| split; [| split; [| split; [| split; [| split]]]]].
  - intros Hx. destruct (next_of_three_cycle _ Hx) as (Hstep & Hcycle & Hne).
    split; [unfold dired_toggle_human; rewrite Hstep; reflexivity |].
    split; [exact Hne |].
    destruct g. unfold thrice, dired_toggle_human, set_hflag_var in *.
    cbn [dired_hflag dired_nflag dired_curtime dired_time_format
         dired_show_dot_files dired_show_ds_store dired_sort_mode] in *.
    f_equal. exact Hcycle.
  - intros Hx. destruct (next_of_three_cycle _ Hx) as (Hstep & Hcycle & Hne).
    split; [unfold dired_toggle_nflag; rewrite Hstep; reflexivity |].
    split; [exact Hne |].
    destruct g. unfold thrice, dired_toggle_nflag, set_nflag_var in *.
    cbn [dired_hflag dired_nflag dired_curtime dired_time_format
         dired_show_dot_files dired_show_ds_store dired_sort_mode] in *.
    f_equal. exact Hcycle.
  - intros Hx. destruct (next_of_three_cycle _ Hx) as (Hstep & Hcycle & Hne).
    exists (set_details_flag (next_of_three (details_flag ds)) ds).
    split; [reflexivity |].
    split; [rewrite Hstep; reflexivity |].
    split; [exact Hne |].
    destruct ds. unfold thrice, dired_hide_details_mode, set_details_flag in *.
    cbn in *. f_equal. f_equal. exact Hcycle.
  - reflexivity.
  - exact (next_of_three_settles (dired_hflag g)).
  - exact (next_of_three_settles (dired_nflag g)).
  - eexists. split; [reflexivity |].
    exact (next_of_three_settles (details_flag ds)).
Qed.

Lemma dired_toggles_cycle_witness :
  exists ds',
    dired_hide_details_mode (Some (sample_state [])) = Some ds'
    /\ ds' = set_details_flag 1 (sample_state [])
    /\ details_flag ds' <> details_flag (sample_state [])
    /\ thrice dired_hide_details_mode (Some (sample_state []))
       = Some (sample_state []).
Proof.
  assert (Hrange : 0 <= details_flag (sample_state []) <= 2) by (cbn; lia).
  exact (proj1 (proj2 (proj2 (dired_toggles_cycle dired_globals_init
                                (sample_state []))))
           Hrange).
Defined.

(** ** Column layout: wider windows *)

(** X25.  In auto detail mode a wider window never loses a column: every
    optional column shown at one display width is shown at any larger
    one. *)
Theorem dired_layout_monotone (ds : DiredState) (width1 width2 : Z) :
  details_flag ds = DIRED_DETAILS_AUTO ->
  layout_in_range ds width1 ->
  layout_in_range ds width2 ->
  width1 <= width2 ->
  Forall (fun bit =>
            shown (fst (dired_layout ds width1)) bit = true ->
            shown (fst (dired_layout ds width2)) bit = true)
    detail_columns.
Proof.
  intros Hauto Hr1 Hr2 Hle.
  destruct (dired_layout_auto ds width1 Hauto Hr1)
    as (Hsz1 & Hdt1 & Hmd1 & Hui1 & Hgi1 & Hln1 & Hbl1).
  destruct (dired_layout_auto ds width2 Hauto Hr2)
    as (Hsz2 & Hdt2 & Hmd2 & Hui2 & Hgi2 & Hln2 & Hbl2).
  cbv zeta in *.
  unfold detail_columns.
  repeat constructor;
    rewrite ?Hsz1, ?Hdt1, ?Hmd1, ?Hui1, ?Hgi1, ?Hln1, ?Hbl1,
            ?Hsz2, ?Hdt2, ?Hmd2, ?Hui2, ?Hgi2, ?Hln2, ?Hbl2;
    try (intros Hshown; discriminate Hshown);
    unfold budget_links, budget_gid, budget_uid, budget_mode, budget_date,
      budget_size;
    destruct (nflag ds =? 2); cbn [orb negb];
    try (intros Hshown; discriminate Hshown);
    sign_cases; cbn [negb]; intros Hshown;
    first [reflexivity | discriminate Hshown | lia].
Qed.

Lemma dired_layout_monotone_witness :
  Forall (fun bit =>
            shown (fst (dired_layout (sample_columns 0 0) 40)) bit = true ->
            shown (fst (dired_layout (sample_columns 0 0) 60)) bit = true)
    detail_columns.
Proof.
  apply (dired_layout_monotone (sample_columns 0 0) 40 60).
  - reflexivity.
  - unfold layout_in_range. cbn. lia.
  - unfold layout_in_range. cbn. lia.
  - lia.
Defined.

(** ** Header of an empty listing *)

(** X26.  For a directory with no entries the filter leaves all counts at
    zero, and the header written is the directory line followed by the
    single word [empty], whatever the configuration. *)
Theorem dired_render_header_empty (g : DiredGlobals) (ds : DiredState)
    (b : EditBuffer) :
  items ds = [] ->
  b_text (snd (dired_render_header (dired_filter_files g ds) (eb_clear b)))
  = [ (DIRED_STYLE_HEADER, "  Directory of ");
      (DIRED_STYLE_DIRECTORY, path ds);
      (DIRED_STYLE_HEADER, nl ++ "  ");
      (DIRED_STYLE_HEADER, "  empty");
      (DIRED_STYLE_HEADER, nl) ].
Proof.
  intros Hitems. unfold dired_filter_files. rewrite Hitems.
  cbn [dired_filter_loop]. reflexivity.
Qed.

Lemma dired_render_header_empty_witness :
  b_text (snd (dired_render_header
                 (dired_filter_files dired_globals_init (sample_state []))
                 (eb_clear empty_buffer)))
  = [ (DIRED_STYLE_HEADER, "  Directory of ");
      (DIRED_STYLE_DIRECTORY, "/d");
      (DIRED_STYLE_HEADER, nl ++ "  ");
      (DIRED_STYLE_HEADER, "  empty");
      (DIRED_STYLE_HEADER, nl) ].
Proof.
  apply (dired_render_header_empty dired_globals_init (sample_state []) empty_buffer).
  reflexivity.
Defined.

(** ** Showing and hiding dot files *)

(** A view of the items that ignores the stored offset. *)
Lemma dired_render_items_map `{Host} {A} (f : StringItem -> A) (g : DiredGlobals)
    (ds : DiredState) (cur : option DiredItem) (its : list StringItem) :
  (forall it off, f (set_opaque (set_offset off (opaque it)) it) = f it) ->
  forall acc b,
    map f (fst (fst (dired_render_items g ds cur its acc b))) = map f its.
Proof.
  intros Hview.
  induction its as [|it rest IH]; intros acc b; [reflexivity |].
  destruct (dired_render_items_cons g ds cur it rest acc b) as (acc1 & _ & Hits).
  rewrite Hits. cbn [map]. rewrite IH, Hview. reflexivity.
Qed.

Lemma dired_rebuild_map `{Host} {A} (f : StringItem -> A) (g : DiredGlobals)
    (ds : DiredState) (b : EditBuffer) (s : option EditState)
    (width window_width top_line : Z) (cur_item : option DiredItem) :
  (forall it off, f (set_opaque (set_offset off (opaque it)) it) = f it) ->
  let ds' := fst (fst (dired_rebuild g ds b s width window_width top_line cur_item)) in
  map f (items ds') = map f (items ds)
  /\ show_dot_files ds' = show_dot_files ds
  /\ sort_mode ds' = sort_mode ds.
Proof.
  intros Hf. unfold dired_rebuild. cbv zeta. rewrite !eb_bind_eq.
  match goal with
  | |- context [dired_render_items ?g0 ?d ?c ?i ?a ?b0] =>
      pose proof (dired_render_items_map f g0 d c i Hf a b0) as Hview;
      destruct (dired_render_items g0 d c i a b0) as [[its acc] b']
  end.
  cbn [fst snd items show_dot_files sort_mode set_rebuilt] in *.
  split; [exact Hview |]. split; reflexivity.
Qed.

Lemma dired_columns_stage_filter_view `{Host} (g : DiredGlobals) (ds : DiredState)
    (flags : Z) :
  let r := dired_columns_stage g ds flags in
  items (snd (snd r)) = items ds
  /\ show_dot_files (snd (snd r)) = show_dot_files ds
  /\ dired_show_dot_files (fst (snd r)) = dired_show_dot_files g
  /\ sort_mode (snd (snd r)) = sort_mode ds
  /\ dired_sort_mode (fst (snd r)) = dired_sort_mode g
  /\ (Z.testbit flags 3 = true -> Z.testbit (fst r) 3 = true).
Proof.
  unfold dired_columns_stage, dired_compute_columns.
  repeat match goal with
    | |- context [if ?c then _ else _] => destruct c
    end;
    cbn [fst snd items show_dot_files dired_show_dot_files sort_mode
         dired_sort_mode set_column_widths set_column_flags set_curtime];
    repeat split; rewrite ?Z.lor_spec; intros ->; reflexivity.
Qed.

(** An update that refilters without sorting again. *)
Lemma dired_update_buffer_refilters `{Host} (g : DiredGlobals) (ds : DiredState)
    (b : EditBuffer) (s : option EditState) (flags : Z) :
  sort_changed g ds = false ->
  truth (Z.land flags DIRED_UPDATE_SORT) = false ->
  truth (Z.land flags DIRED_UPDATE_FILTER) = true ->
  let r := dired_update_buffer g (Some ds) b s flags in
  exists ds',
    result_state r = Some ds'
    /\ dired_show_dot_files (result_globals r) = dired_show_dot_files g
    /\ show_dot_files ds' = dired_show_dot_files g
    /\ map filter_view (items ds')
       = map (fun it => (str it, dired_item_hidden g (str it))) (items ds).
Proof.
  intros Hsort Hnosort Hfilter.
  unfold dired_update_buffer, dired_update_stages, dired_sort_stage.
  fold (sort_changed g ds). rewrite Hsort, Hnosort.
  unfold dired_filter_stage.
  assert (Hbit : truth (Z.land (if negb (show_dot_files ds =? dired_show_dot_files g)
                                   || negb (show_ds_store ds =? dired_show_ds_store g)
                                then Z.lor flags DIRED_UPDATE_FILTER else flags)
                          DIRED_UPDATE_FILTER) = true).
  { destruct (negb _ || negb _); [| exact Hfilter].
    exact (truth_lor_bit flags 1 ltac:(lia)). }
  rewrite Hbit.
  set (flags2 := Z.lor _ DIRED_UPDATE_REBUILD).
  assert (Hrebuild : Z.testbit flags2 3 = true).
  { unfold flags2. rewrite Z.lor_spec. apply orb_true_r. }
  destruct (dired_columns_stage_filter_view g (dired_filter_files g ds) flags2)
    as (Hits & Hshow & Hvar & _ & _ & Hkeep).
  specialize (Hkeep Hrebuild).
  destruct (dired_columns_stage g (dired_filter_files g ds) flags2)
    as [flags3 [g3 ds3]].
  cbn [fst snd] in *.
  assert (Hgo : truth (Z.land flags3 DIRED_UPDATE_REBUILD) = true).
  { change DIRED_UPDATE_REBUILD with (2 ^ 3). rewrite truth_land_bit by lia.
    exact Hkeep. }
  assert (Hview : map filter_view (items ds3)
                  = map (fun it => (str it, dired_item_hidden g (str it))) (items ds)).
  { rewrite Hits, dired_filter_files_items, map_map. reflexivity. }
  assert (Hflag : show_dot_files ds3 = dired_show_dot_files g).
  { rewrite Hshow. unfold dired_filter_files.
    destruct (dired_filter_loop g _ (items ds)) as [c its]. reflexivity. }
  destruct s as [s |]; cbn iota beta; rewrite Hgo; cbn [negb].
  - match goal with
    | |- context [dired_rebuild ?g0 ?d ?b0 ?s0 ?w ?ww ?tl ?c] =>
        destruct (dired_rebuild_map filter_view g0 d b0 s0 w ww tl c
                    ltac:(reflexivity)) as (Hv & Hs & _);
        destruct (dired_rebuild g0 d b0 s0 w ww tl c) as [[d' b'] s']
    end.
    exists d'. unfold result_state, result_globals. cbn [fst snd] in *.
    rewrite Hv, Hs. auto.
  - match goal with
    | |- context [dired_rebuild ?g0 ?d ?b0 ?s0 ?w ?ww ?tl ?c] =>
        destruct (dired_rebuild_map filter_view g0 d b0 s0 w ww tl c
                    ltac:(reflexivity)) as (Hv & Hs & _);
        destruct (dired_rebuild g0 d b0 s0 w ww tl c) as [[d' b'] s']
    end.
    exists d'. unfold result_state, result_globals. cbn [fst snd] in *.
    rewrite Hv, Hs. auto.
Qed.

(** X27.  Toggling the display of dot files to a value other than the
    current one, on a listing sorted as configured, installs the value in
    the variable and in the state and refilters in place: the items keep
    their order and each is hidden as the new setting decides.  With -1
    the value installed is the opposite of the current one. *)
Theorem dired_toggle_dot_files_refilters (H : Host) (g : DiredGlobals)
    (ds : DiredState) (b : EditBuffer) (s : EditState) (val : Z) :
  sort_changed g ds = false ->
  toggled_dot_files g val <> dired_show_dot_files g ->
  let v := toggled_dot_files g val in
  let r := dired_toggle_dot_files g (Some ds) b s val in
  exists ds',
    result_state r = Some ds'
    /\ dired_show_dot_files (result_globals r) = v
    /\ show_dot_files ds' = v
    /\ map filter_view (items ds')
       = map (fun it => (str it,
                         dired_item_hidden (set_show_dot_files_var v g) (str it)))
           (items ds).
Proof.
  intros Hsort Hnew v r. subst v r.
  unfold dired_toggle_dot_files. fold (toggled_dot_files g val).
  destruct (Z.eqb_spec (dired_show_dot_files g) (toggled_dot_files g val))
    as [Heq | _]; [symmetry in Heq; contradiction |].
  cbn [negb].
  apply (dired_update_buffer_refilters
           (set_show_dot_files_var (toggled_dot_files g val) g) ds b (Some s)
           DIRED_UPDATE_FILTER).
  - exact Hsort.
  - reflexivity.
  - reflexivity.
Qed.

Lemma dired_toggle_dot_files_refilters_witness :
  exists ds',
    result_state
      (@dired_toggle_dot_files sample_host dired_globals_init
         (Some (sample_state [sample_item 1 ".profile" 0x81A4 10;
                              sample_item 2 "a" 0x81A4 1]))
         empty_buffer {| s_width := 80; s_offset := 0; s_offset_top := 0 |} (-1))
    = Some ds'
    /\ map filter_view (items ds') = [(".profile", 1); ("a", 0)].
Proof.
  destruct (dired_toggle_dot_files_refilters sample_host dired_globals_init
              (sample_state [sample_item 1 ".profile" 0x81A4 10;
                             sample_item 2 "a" 0x81A4 1])
              empty_buffer {| s_width := 80; s_offset := 0; s_offset_top := 0 |} (-1))
    as (ds' & Hstate & _ & _ & Hview).
  - reflexivity.
  - discriminate.
  - exists ds'. split; [exact Hstate | exact Hview].
Defined.

(** ** Changing the sort order *)

(** An update that sorts again without refiltering. *)
Lemma dired_update_buffer_resorts `{Host} (g : DiredGlobals) (ds : DiredState)
    (b : EditBuffer) (s : option EditState) (flags : Z) :
  filter_changed g ds = false ->
  truth (Z.land flags DIRED_UPDATE_SORT) = true ->
  Z.testbit flags 1 = false ->
  let r := dired_update_buffer g (Some ds) b s flags in
  exists ds',
    result_state r = Some ds'
    /\ dired_sort_mode (result_globals r) = dired_sort_mode g
    /\ sort_mode ds' = dired_sort_mode g
    /\ map item_less_offset (items ds')
       = map item_less_offset
           (qe_qsort_r (dired_sort_func (set_sorted (dired_sort_mode g) (items ds) ds))
              (items ds)).
Proof.
  intros Hfilter Hsort Hnofilter.
  unfold dired_update_buffer, dired_update_stages, dired_sort_stage.
  assert (Hbit : truth (Z.land (if negb (sort_mode ds =? dired_sort_mode g)
                                then Z.lor flags DIRED_UPDATE_SORT else flags)
                          DIRED_UPDATE_SORT) = true).
  { destruct (negb _); [| exact Hsort]. exact (truth_lor_bit flags 0 ltac:(lia)). }
  rewrite Hbit.
  set (flags1 := Z.lor _ DIRED_UPDATE_REBUILD).
  assert (Hrebuild : Z.testbit flags1 3 = true).
  { unfold flags1. rewrite Z.lor_spec. apply orb_true_r. }
  assert (Hquiet : truth (Z.land flags1 DIRED_UPDATE_FILTER) = false).
  { change DIRED_UPDATE_FILTER with (2 ^ 1). rewrite truth_land_bit by lia.
    unfold flags1. destruct (negb _); rewrite !Z.lor_spec, Hnofilter; reflexivity. }
  set (ds1 := set_sorted _ (qe_qsort_r _ _) _).
  unfold dired_filter_stage.
  change (show_dot_files ds1) with (show_dot_files ds).
  change (show_ds_store ds1) with (show_ds_store ds).
  fold (filter_changed g ds). rewrite Hfilter, Hquiet.
  destruct (dired_columns_stage_filter_view g ds1 flags1)
    as (Hits & _ & _ & Hmode & Hvar & Hkeep).
  specialize (Hkeep Hrebuild).
  destruct (dired_columns_stage g ds1 flags1) as [flags3 [g3 ds3]].
  cbn [fst snd] in *.
  assert (Hgo : truth (Z.land flags3 DIRED_UPDATE_REBUILD) = true).
  { change DIRED_UPDATE_REBUILD with (2 ^ 3). rewrite truth_land_bit by lia.
    exact Hkeep. }
  destruct s as [s |]; cbn iota beta; rewrite Hgo; cbn [negb].
  - match goal with
    | |- context [dired_rebuild ?g0 ?d ?b0 ?s0 ?w ?ww ?tl ?c] =>
        destruct (dired_rebuild_map item_less_offset g0 d b0 s0 w ww tl c
                    ltac:(reflexivity)) as (Hv & _ & Hm);
        destruct (dired_rebuild g0 d b0 s0 w ww tl c) as [[d' b'] s']
    end.
    exists d'. unfold result_state, result_globals. cbn [fst snd] in *.
    rewrite Hv, Hm, Hits, Hmode. auto.
  - match goal with
    | |- context [dired_rebuild ?g0 ?d ?b0 ?s0 ?w ?ww ?tl ?c] =>
        destruct (dired_rebuild_map item_less_offset g0 d b0 s0 w ww tl c
                    ltac:(reflexivity)) as (Hv & _ & Hm);
        destruct (dired_rebuild g0 d b0 s0 w ww tl c) as [[d' b'] s']
    end.
    exists d'. unfold result_state, result_globals. cbn [fst snd] in *.
    rewrite Hv, Hm, Hits, Hmode. auto.
Qed.

(** X28.  A sort string that changes the sort mode, on a listing filtered
    as configured, installs the new mode in the variable and in the
    state, raises the modification mark, and leaves the items as the
    host's sort orders them with the comparator of the new mode, nothing
    in them changed but the stored offsets. *)
Theorem dired_sort_resorts (H : Host) (F : HostFiles) (g : DiredGlobals)
    (vp_modified : Z) (ds : DiredState) (b : EditBuffer) (s : EditState)
    (str : string) :
  filter_changed g ds = false ->
  dired_sort_mode_scan str (dired_sort_mode g) <> dired_sort_mode g ->
  let m := dired_sort_mode_scan str (dired_sort_mode g) in
  let r := dired_sort g vp_modified (Some ds) b s (Some str) in
  exists ds',
    snd (fst (fst r)) = Some ds'
    /\ dired_sort_mode (fst (fst (fst (fst r)))) = m
    /\ snd (fst (fst (fst r))) = 1
    /\ sort_mode ds' = m
    /\ map item_less_offset (items ds')
       = map item_less_offset
           (qe_qsort_r (dired_sort_func (set_sorted m (items ds) ds)) (items ds)).
Proof.
  intros Hfilter Hnew m r. subst r. unfold dired_sort, dired_sort_mode_set_value.
  fold m.
  destruct (Z.eqb_spec (dired_sort_mode g) m) as [Heq | _];
    [symmetry in Heq; contradiction |].
  cbn [negb dired_sort_mode set_sort_mode_var].
  destruct (Z.eqb_spec (dired_sort_mode g) m) as [Heq | _];
    [symmetry in Heq; contradiction |].
  cbn [negb].
  destruct (dired_update_buffer_resorts (set_sort_mode_var m g) ds b (Some s)
              DIRED_UPDATE_SORT Hfilter eq_refl eq_refl)
    as (ds' & Hstate & Hvar & Hmode & Hitems).
  destruct (dired_update_buffer (set_sort_mode_var m g) (Some ds) b (Some s)
              DIRED_UPDATE_SORT) as [[[g' d'] b'] s'].
  unfold result_state, result_globals in *. cbn [fst snd] in *.
  exists ds'. auto.
Qed.

Lemma dired_sort_resorts_witness :
  exists ds',
    snd (fst (fst (@dired_sort sample_host sample_files dired_globals_init 0
                     (Some (sample_state [sample_item 1 "a" 0x81A4 1;
                                          sample_item 2 "b" 0x81A4 2]))
                     empty_buffer
                     {| s_width := 80; s_offset := 0; s_offset_top := 0 |}
                     (Some "r"))))
    = Some ds'
    /\ map str (items ds') = ["b"; "a"].
Proof.
  destruct (dired_sort_resorts sample_host sample_files dired_globals_init 0
              (sample_state [sample_item 1 "a" 0x81A4 1; sample_item 2 "b" 0x81A4 2])
              empty_buffer {| s_width := 80; s_offset := 0; s_offset_top := 0 |} "r")
    as (ds' & Hstate & _ & _ & _ & Hitems).
  - reflexivity.
  - discriminate.
  - exists ds'. split; [exact Hstate |].
    apply (f_equal (map fst)) in Hitems. rewrite !map_map in Hitems.
    exact Hitems.
Defined.
